(** * Fire-detection cloud server: a shallow embedding of [cloud_server_plus.py]

    The development follows the Python source method by method.  Python
    values decoded from JSON are the inductive [pyval]; a Python [float] is a
    binary64 [PrimFloat.float]; [bytes] is [list byte]; a Python [str] is a
    [string] holding its UTF-8 encoding.  The server object together with
    the sockets, the clock and the logger it talks to is one record,
    [CloudServer], threaded through a state-and-exception monad [M]. *)

From Stdlib Require Import ZArith String Ascii List Lia Bool.
From Stdlib.Strings Require Import Byte.
From Stdlib Require Import PrimFloat SpecFloat FloatOps.
From stdpp Require Import base gmap strings list.

Open Scope string_scope.
Set Warnings "-register-all,-inexact-float".

(** ** Python values *)

Inductive pyval : Type :=
| PNone
| PBool (b : bool)
| PInt (z : Z)
| PFloat (f : float)
| PStr (s : string)
| PList (l : list pyval)
| PDict (d : list (string * pyval)).

Inductive exn : Type :=
| TypeError | AttributeError | ValueError | OverflowError | KeyError | OSError.

Inductive outcome (A : Type) : Type :=
| Ok (a : A)
| Raise (e : exn).
Arguments Ok {A} a.
Arguments Raise {A} e.

(** A [dict] decoded from JSON, as an association list; the first binding of
    a key is the one [dict.get] sees. *)
Fixpoint assoc (k : string) (d : list (string * pyval)) : option pyval :=
  match d with
  | [] => None
  | (k', v) :: d' => if String.eqb k k' then Some v else assoc k d'
  end.

(** *** Numbers: [float()], [==] and [>] *)

Definition float_of_Z (z : Z) : float :=
  SF2Prim (binary_normalize 53 1024 z 0 false).

Definition float_of_nat (n : nat) : float := float_of_Z (Z.of_nat n).

Definition is_inf (f : float) : bool :=
  match Prim2SF f with S754_infinity _ => true | _ => false end.

(** Exact comparison of an [int] with a [float]; [None] on NaN. *)
Definition cmp_Z_float (z : Z) (f : float) : option comparison :=
  match Prim2SF f with
  | S754_nan => None
  | S754_infinity neg => Some (if neg then Gt else Lt)
  | S754_zero _ => Some (z ?= 0)%Z
  | S754_finite neg m e =>
      let v := if neg then Z.neg m else Z.pos m in
      if (0 <=? e)%Z then Some (z ?= v * 2 ^ e)%Z
      else Some (z * 2 ^ (- e) ?= v)%Z
  end.

Definition Z_of_bool (b : bool) : Z := if b then 1%Z else 0%Z.

(** A number is an [int] (or [bool]) or a [float]. *)
Definition as_number (v : pyval) : option (Z + float) :=
  match v with
  | PBool b => Some (inl (Z_of_bool b))
  | PInt z => Some (inl z)
  | PFloat f => Some (inr f)
  | _ => None
  end.

Definition num_eq (a b : Z + float) : bool :=
  match a, b with
  | inl x, inl y => (x =? y)%Z
  | inr x, inr y => PrimFloat.eqb x y
  | inl x, inr y | inr y, inl x =>
      match cmp_Z_float x y with Some Eq => true | _ => false end
  end.

(** [a > b] on numbers. *)
Definition num_gt (a b : Z + float) : bool :=
  match a, b with
  | inl x, inl y => (y <? x)%Z
  | inr x, inr y => PrimFloat.ltb y x
  | inl x, inr y => match cmp_Z_float x y with Some Gt => true | _ => false end
  | inr x, inl y => match cmp_Z_float y x with Some Lt => true | _ => false end
  end.

(** Python [==]. *)
Fixpoint py_eq (a b : pyval) : bool :=
  match a, b with
  | PNone, PNone => true
  | PStr s, PStr t => String.eqb s t
  | PList l1, PList l2 =>
      (fix all2 (l1 l2 : list pyval) : bool :=
         match l1, l2 with
         | [], [] => true
         | x :: l1', y :: l2' => py_eq x y && all2 l1' l2'
         | _, _ => false
         end) l1 l2
  | PDict d1, PDict d2 =>
      (length d1 =? length d2)%nat &&
      (fix all (d : list (string * pyval)) : bool :=
         match d with
         | [] => true
         | (k, v) :: d' =>
             match assoc k d2 with
             | Some v' => py_eq v v' && all d'
             | None => false
             end
         end) d1
  | _, _ =>
      match as_number a, as_number b with
      | Some x, Some y => num_eq x y
      | _, _ => false
      end
  end.

(** [item > maxitem] as [max] evaluates it.  The server only ever compares a
    decoded [seq] against [last_seq], which starts at [0] and stays a
    number; every other pairing with a number raises [TypeError]. *)
Definition py_gt (a b : pyval) : outcome bool :=
  match as_number a, as_number b with
  | Some x, Some y => Ok (num_gt x y)
  | _, _ => Raise TypeError
  end.

(** [max(a, b)]: [a] unless [b > a]. *)
Definition py_max (a b : pyval) : outcome pyval :=
  match py_gt b a with
  | Ok gt => Ok (if gt then b else a)
  | Raise e => Raise e
  end.

(** *** Strings *)

Definition newline : ascii := "010"%char.

(** [s.startswith(p)] *)
Fixpoint startswith (s p : string) {struct p} : bool :=
  match p with
  | EmptyString => true
  | String a p' =>
      match s with
      | EmptyString => false
      | String b s' => Ascii.eqb a b && startswith s' p'
      end
  end.

(** [p in s] for two strings *)
Fixpoint is_substring (p s : string) : bool :=
  startswith s p ||
  match s with
  | EmptyString => false
  | String _ s' => is_substring p s'
  end.

(** Number of code points of a UTF-8 encoded string: the bytes that are not
    continuation bytes. *)
Fixpoint str_len (s : string) : nat :=
  match s with
  | EmptyString => 0
  | String c s' =>
      let n := N_of_ascii c in
      if ((128 <=? n) && (n <? 192))%N then str_len s' else S (str_len s')
  end.

(** [s[n:]] for a string whose first [n] characters are ASCII. *)
Fixpoint str_drop (n : nat) (s : string) {struct n} : string :=
  match n, s with
  | S n', String _ s' => str_drop n' s'
  | _, _ => s
  end.

(** *** Containers: [in], [.get] and [len] *)

Definition py_contains (key : string) (c : pyval) : outcome bool :=
  match c with
  | PDict d => Ok (bool_decide (is_Some (assoc key d)))
  | PList l => Ok (existsb (py_eq (PStr key)) l)
  | PStr s => Ok (is_substring key s)
  | _ => Raise TypeError
  end.

Definition py_get (c : pyval) (key : string) (default : pyval) : outcome pyval :=
  match c with
  | PDict d => Ok (from_option id default (assoc key d))
  | _ => Raise AttributeError
  end.

Definition py_len (c : pyval) : outcome nat :=
  match c with
  | PDict d => Ok (length d)
  | PList l => Ok (length l)
  | PStr s => Ok (str_len s)
  | _ => Raise TypeError
  end.

(** ** The library functions the server calls

    [json.loads] ([None] is [JSONDecodeError]), [json.dumps], [float] of a
    string, [str] of a value that is not a string, and the clock read by
    [time.time] and [datetime.now]: the [n]-th reading is [clock n]. *)
Class PyBuiltins : Type := {
  json_loads : string -> option pyval;
  json_dumps : pyval -> string;
  float_of_str : string -> option float;
  repr_val : pyval -> string;
  clock : nat -> float;
}.

(** ** Constants *)

Definition BUFFER_SIZE : nat := 4096.
Definition MAX_DATA_POINTS : nat := 100.
Definition DATA_WINDOW : nat := 20.
Definition ALARM_THRESHOLD : float := 60.0%float.
Definition SPRINKLER_THRESHOLD : float := 65.0%float.

(** ** [collections.deque] with [maxlen] *)

Record deque (A : Type) : Type := Deque { maxlen : nat; items : list A }.
Arguments Deque {A} maxlen items.
Arguments maxlen {A} d.
Arguments items {A} d.

Definition deque_new {A : Type} (max_points : nat) : deque A :=
  Deque max_points [].

(** [dq.append(x)]: a full deque drops its leftmost item first; a deque of
    capacity [0] stays empty. *)
Definition deque_append {A : Type} (x : A) (dq : deque A) : deque A :=
  match maxlen dq with
  | O => dq
  | S _ =>
      if (length (items dq) <? maxlen dq)%nat
      then Deque (maxlen dq) (items dq ++ [x])
      else Deque (maxlen dq) (tail (items dq) ++ [x])
  end.

(** [dq[-1] if dq else default] *)
Definition deque_last {A : Type} (dq : deque A) (default : A) : A :=
  List.last (items dq) default.

(** ** [class SensorData] *)

Record SensorData : Type := mkSensorData {
  timestamps : deque float;
  smoke : deque float;
  co2 : deque float;
  fire : deque float;
  car_temp : deque float;
  car_status : pyval;
  alarm_status : bool;
  sprinkler_status : bool;
}.

Definition SensorData_init (max_points : nat) : SensorData :=
  {| timestamps := deque_new max_points;
     smoke := deque_new max_points;
     co2 := deque_new max_points;
     fire := deque_new max_points;
     car_temp := deque_new max_points;
     car_status := PStr "UNKNOWN";
     alarm_status := false;
     sprinkler_status := false |}.

Definition float_or_zero (x : option float) : float :=
  match x with None => 0.0%float | Some v => v end.

(** [float(x)] of an argument that already is a float is [x]. *)
Definition add_room (ts : float) (smoke0 co20 fire0 : option float)
    (d : SensorData) : SensorData :=
  {| timestamps := deque_append ts (timestamps d);
     smoke := deque_append (float_or_zero smoke0) (smoke d);
     co2 := deque_append (float_or_zero co20) (co2 d);
     fire := deque_append (float_or_zero fire0) (fire d);
     car_temp := car_temp d;
     car_status := car_status d;
     alarm_status := alarm_status d;
     sprinkler_status := sprinkler_status d |}.

(** [status] is [PNone] for Python's [None]. *)
Definition add_car (ts : float) (temp : option float) (status : pyval)
    (d : SensorData) : SensorData :=
  {| timestamps := deque_append ts (timestamps d);
     smoke := smoke d;
     co2 := co2 d;
     fire := fire d;
     car_temp := deque_append (float_or_zero temp) (car_temp d);
     car_status := match status with PNone => car_status d | _ => status end;
     alarm_status := alarm_status d;
     sprinkler_status := sprinkler_status d |}.

Definition set_alarm_status (b : bool) (d : SensorData) : SensorData :=
  {| timestamps := timestamps d; smoke := smoke d; co2 := co2 d;
     fire := fire d; car_temp := car_temp d; car_status := car_status d;
     alarm_status := b; sprinkler_status := sprinkler_status d |}.

Definition set_sprinkler_status (b : bool) (d : SensorData) : SensorData :=
  {| timestamps := timestamps d; smoke := smoke d; co2 := co2 d;
     fire := fire d; car_temp := car_temp d; car_status := car_status d;
     alarm_status := alarm_status d; sprinkler_status := b |}.

Definition set_car_status (v : pyval) (d : SensorData) : SensorData :=
  {| timestamps := timestamps d; smoke := smoke d; co2 := co2 d;
     fire := fire d; car_temp := car_temp d; car_status := v;
     alarm_status := alarm_status d; sprinkler_status := sprinkler_status d |}.

(** ** A Python [dict] that is iterated

    [self.clients] is a [dict] whose items the server iterates, and a
    [dict] iterates in insertion order: an assignment to a key that is
    present keeps the key's place, an assignment to a new key puts it last,
    [pop] takes the key out.  A [pydict] holds the items in that order; the
    keys of a [dict] are distinct, and the three operations keep them so. *)

Record pydict (K V : Type) : Type := PyDict { dict_items : list (K * V) }.
Arguments PyDict {K V} _.
Arguments dict_items {K V} _.

Section pydict.
Context {K V : Type} `{EqDecision K}.

(** [d.get(k)] *)
Fixpoint items_get (k : K) (l : list (K * V)) : option V :=
  match l with
  | [] => None
  | (k', v) :: l' => if decide (k = k') then Some v else items_get k l'
  end.

(** [d[k] = v] *)
Fixpoint items_set (k : K) (v : V) (l : list (K * V)) : list (K * V) :=
  match l with
  | [] => [(k, v)]
  | (k', v') :: l' =>
      if decide (k = k') then (k', v) :: l' else (k', v') :: items_set k v l'
  end.

(** [d.pop(k, None)] *)
Fixpoint items_pop (k : K) (l : list (K * V)) : list (K * V) :=
  match l with
  | [] => []
  | (k', v') :: l' =>
      if decide (k = k') then items_pop k l' else (k', v') :: items_pop k l'
  end.

#[export] Instance pydict_lookup : Lookup K V (pydict K V) :=
  λ k d, items_get k (dict_items d).
#[export] Instance pydict_insert : Insert K V (pydict K V) :=
  λ k v d, PyDict (items_set k v (dict_items d)).
#[export] Instance pydict_delete : Delete K (pydict K V) :=
  λ k d, PyDict (items_pop k (dict_items d)).
#[export] Instance pydict_empty : Empty (pydict K V) := PyDict [].
(** [len(d)] *)
#[export] Instance pydict_size : Size (pydict K V) := λ d, length (dict_items d).
#[export] Instance pydict_dom `{Countable K} : Dom (pydict K V) (gset K) :=
  λ d, list_to_set (map fst (dict_items d)).

End pydict.

(** ** The server object and its environment

    A session is the tuple [(sock, last_activity, gateway_id)] the registry
    [clients] keeps per remote address.  Sockets are numbered.  Besides the
    fields of the Python object the record carries what the server acts on:
    the clock position [ticks], the sockets already closed, the sockets
    whose peer is gone (a write to them fails), what was written to each
    socket ([outbox]) and the logger's output.  [lock_held] is [self.lock];
    [unlocked] lists the accesses to shared state made while it was free. *)

Definition addr : Type := string * Z.
Definition session : Type := nat * float * pyval.

Inductive shared : Type := Registry | EntityStore | EventLog.

Inductive log_entry : Type :=
| LogConnected (a : addr)
| LogClientError (a : addr) (e : exn)
| LogClosed (a : addr)
| LogInvalidJson (a : addr) (line : string)
| LogHeartbeat (seq gw : pyval)
| LogData (seq gw : pyval) (nsensors : nat)
| LogProcessDataError (e : exn)
| LogSent (command : string) (a : addr)
| LogSendFailed (command : string) (a : addr) (e : exn)
| LogStopping
| LogStopped.

Record CloudServer : Type := mkCloudServer {
  running : bool;
  clients : pydict addr session;
  sensor_data : gmap string SensorData;
  events : list (float * string);
  packet_count : Z;
  last_seq : pyval;
  step_mode : bool;
  wait_for_step : bool;
  step_event : bool;
  lock_held : bool;
  unlocked : list shared;
  ticks : nat;
  closed_socks : gset nat;
  broken_socks : gset nat;
  outbox : list (nat * string);
  log : list log_entry;
}.

Definition with_running (v : bool) (s : CloudServer) : CloudServer :=
  {| running := v; clients := clients s; sensor_data := sensor_data s;
     events := events s; packet_count := packet_count s; last_seq :=
     last_seq s; step_mode := step_mode s; wait_for_step := wait_for_step s;
     step_event := step_event s; lock_held := lock_held s; unlocked :=
     unlocked s; ticks := ticks s; closed_socks := closed_socks s;
     broken_socks := broken_socks s; outbox := outbox s; log := log s |}.

Definition with_clients (v : pydict addr session) (s : CloudServer) : CloudServer :=
  {| running := running s; clients := v; sensor_data := sensor_data s;
     events := events s; packet_count := packet_count s; last_seq :=
     last_seq s; step_mode := step_mode s; wait_for_step := wait_for_step s;
     step_event := step_event s; lock_held := lock_held s; unlocked :=
     unlocked s; ticks := ticks s; closed_socks := closed_socks s;
     broken_socks := broken_socks s; outbox := outbox s; log := log s |}.

Definition with_sensor_data (v : gmap string SensorData) (s : CloudServer) : CloudServer :=
  {| running := running s; clients := clients s; sensor_data := v; events :=
     events s; packet_count := packet_count s; last_seq := last_seq s;
     step_mode := step_mode s; wait_for_step := wait_for_step s; step_event
     := step_event s; lock_held := lock_held s; unlocked := unlocked s;
     ticks := ticks s; closed_socks := closed_socks s; broken_socks :=
     broken_socks s; outbox := outbox s; log := log s |}.

Definition with_events (v : list (float * string)) (s : CloudServer) : CloudServer :=
  {| running := running s; clients := clients s; sensor_data := sensor_data
     s; events := v; packet_count := packet_count s; last_seq := last_seq s;
     step_mode := step_mode s; wait_for_step := wait_for_step s; step_event
     := step_event s; lock_held := lock_held s; unlocked := unlocked s;
     ticks := ticks s; closed_socks := closed_socks s; broken_socks :=
     broken_socks s; outbox := outbox s; log := log s |}.

Definition with_packet_count (v : Z) (s : CloudServer) : CloudServer :=
  {| running := running s; clients := clients s; sensor_data := sensor_data
     s; events := events s; packet_count := v; last_seq := last_seq s;
     step_mode := step_mode s; wait_for_step := wait_for_step s; step_event
     := step_event s; lock_held := lock_held s; unlocked := unlocked s;
     ticks := ticks s; closed_socks := closed_socks s; broken_socks :=
     broken_socks s; outbox := outbox s; log := log s |}.

Definition with_last_seq (v : pyval) (s : CloudServer) : CloudServer :=
  {| running := running s; clients := clients s; sensor_data := sensor_data
     s; events := events s; packet_count := packet_count s; last_seq := v;
     step_mode := step_mode s; wait_for_step := wait_for_step s; step_event
     := step_event s; lock_held := lock_held s; unlocked := unlocked s;
     ticks := ticks s; closed_socks := closed_socks s; broken_socks :=
     broken_socks s; outbox := outbox s; log := log s |}.

Definition with_wait_for_step (v : bool) (s : CloudServer) : CloudServer :=
  {| running := running s; clients := clients s; sensor_data := sensor_data
     s; events := events s; packet_count := packet_count s; last_seq :=
     last_seq s; step_mode := step_mode s; wait_for_step := v; step_event :=
     step_event s; lock_held := lock_held s; unlocked := unlocked s; ticks
     := ticks s; closed_socks := closed_socks s; broken_socks :=
     broken_socks s; outbox := outbox s; log := log s |}.

Definition with_step_event (v : bool) (s : CloudServer) : CloudServer :=
  {| running := running s; clients := clients s; sensor_data := sensor_data
     s; events := events s; packet_count := packet_count s; last_seq :=
     last_seq s; step_mode := step_mode s; wait_for_step := wait_for_step s;
     step_event := v; lock_held := lock_held s; unlocked := unlocked s;
     ticks := ticks s; closed_socks := closed_socks s; broken_socks :=
     broken_socks s; outbox := outbox s; log := log s |}.

Definition with_lock_held (v : bool) (s : CloudServer) : CloudServer :=
  {| running := running s; clients := clients s; sensor_data := sensor_data
     s; events := events s; packet_count := packet_count s; last_seq :=
     last_seq s; step_mode := step_mode s; wait_for_step := wait_for_step s;
     step_event := step_event s; lock_held := v; unlocked := unlocked s;
     ticks := ticks s; closed_socks := closed_socks s; broken_socks :=
     broken_socks s; outbox := outbox s; log := log s |}.

Definition with_unlocked (v : list shared) (s : CloudServer) : CloudServer :=
  {| running := running s; clients := clients s; sensor_data := sensor_data
     s; events := events s; packet_count := packet_count s; last_seq :=
     last_seq s; step_mode := step_mode s; wait_for_step := wait_for_step s;
     step_event := step_event s; lock_held := lock_held s; unlocked := v;
     ticks := ticks s; closed_socks := closed_socks s; broken_socks :=
     broken_socks s; outbox := outbox s; log := log s |}.

Definition with_ticks (v : nat) (s : CloudServer) : CloudServer :=
  {| running := running s; clients := clients s; sensor_data := sensor_data
     s; events := events s; packet_count := packet_count s; last_seq :=
     last_seq s; step_mode := step_mode s; wait_for_step := wait_for_step s;
     step_event := step_event s; lock_held := lock_held s; unlocked :=
     unlocked s; ticks := v; closed_socks := closed_socks s; broken_socks :=
     broken_socks s; outbox := outbox s; log := log s |}.

Definition with_closed_socks (v : gset nat) (s : CloudServer) : CloudServer :=
  {| running := running s; clients := clients s; sensor_data := sensor_data
     s; events := events s; packet_count := packet_count s; last_seq :=
     last_seq s; step_mode := step_mode s; wait_for_step := wait_for_step s;
     step_event := step_event s; lock_held := lock_held s; unlocked :=
     unlocked s; ticks := ticks s; closed_socks := v; broken_socks :=
     broken_socks s; outbox := outbox s; log := log s |}.

Definition with_outbox (v : list (nat * string)) (s : CloudServer) : CloudServer :=
  {| running := running s; clients := clients s; sensor_data := sensor_data
     s; events := events s; packet_count := packet_count s; last_seq :=
     last_seq s; step_mode := step_mode s; wait_for_step := wait_for_step s;
     step_event := step_event s; lock_held := lock_held s; unlocked :=
     unlocked s; ticks := ticks s; closed_socks := closed_socks s;
     broken_socks := broken_socks s; outbox := v; log := log s |}.

Definition with_log (v : list log_entry) (s : CloudServer) : CloudServer :=
  {| running := running s; clients := clients s; sensor_data := sensor_data
     s; events := events s; packet_count := packet_count s; last_seq :=
     last_seq s; step_mode := step_mode s; wait_for_step := wait_for_step s;
     step_event := step_event s; lock_held := lock_held s; unlocked :=
     unlocked s; ticks := ticks s; closed_socks := closed_socks s;
     broken_socks := broken_socks s; outbox := outbox s; log := v |}.

Definition peer_gone (sock : nat) (s : CloudServer) : CloudServer :=
  {| running := running s; clients := clients s; sensor_data := sensor_data s;
     events := events s; packet_count := packet_count s; last_seq :=
     last_seq s; step_mode := step_mode s; wait_for_step := wait_for_step s;
     step_event := step_event s; lock_held := lock_held s; unlocked :=
     unlocked s; ticks := ticks s; closed_socks := closed_socks s;
     broken_socks := {[sock]} ∪ broken_socks s; outbox := outbox s;
     log := log s |}.

(** ** The state-and-exception monad *)

Definition M (A : Type) : Type := CloudServer -> outcome A * CloudServer.

#[export] Instance M_ret : MRet M := fun A a s => (Ok a, s).

#[export] Instance M_bind : MBind M := fun A B f m s =>
  match m s with
  | (Ok a, s') => f a s'
  | (Raise e, s') => (Raise e, s')
  end.

Definition raise {A : Type} (e : exn) : M A := fun s => (Raise e, s).

Definition lift {A : Type} (o : outcome A) : M A := fun s => (o, s).

Definition gets {A : Type} (f : CloudServer -> A) : M A := fun s => (Ok (f s), s).

Definition modify (f : CloudServer -> CloudServer) : M unit := fun s => (Ok tt, f s).

(** [try: body except Exception as e: handler(e)] *)
Definition try_except {A : Type} (body : M A) (handler : exn -> M A) : M A :=
  fun s =>
    match body s with
    | (Ok a, s') => (Ok a, s')
    | (Raise e, s') => handler e s'
    end.

(** The state a computation leaves behind. *)
Definition exec {A : Type} (m : M A) (s : CloudServer) : CloudServer := snd (m s).

(** [with self.lock: body] *)
Definition with_lock {A : Type} (body : M A) : M A := fun s =>
  let (r, s') := body (with_lock_held true s) in
  (r, with_lock_held false s').

(** An access to shared state; it is recorded when the lock is free. *)
Definition touch (r : shared) : M unit :=
  modify (fun s => if lock_held s then s else with_unlocked (unlocked s ++ [r]) s).

Definition logger_info (e : log_entry) : M unit :=
  modify (fun s => with_log (log s ++ [e]) s).

Section Server.
Context `{PyBuiltins}.

(** [time.time()], [datetime.datetime.now()] *)
Definition time_time : M float := fun s =>
  (Ok (clock (ticks s)), with_ticks (S (ticks s)) s).

(** [float(v)] *)
Definition py_float (v : pyval) : outcome float :=
  match v with
  | PFloat f => Ok f
  | PInt z =>
      let f := float_of_Z z in
      if is_inf f then Raise OverflowError else Ok f
  | PBool b => Ok (if b then 1.0%float else 0.0%float)
  | PStr s =>
      match float_of_str s with
      | Some f => Ok f
      | None => Raise ValueError
      end
  | PNone | PList _ | PDict _ => Raise TypeError
  end.

(** [str(v)], as an f-string formats a value *)
Definition py_str (v : pyval) : string :=
  match v with
  | PStr s => s
  | _ => repr_val v
  end.

(** [self.sensor_data[key]] *)
Definition entity (key : string) : M SensorData := fun s =>
  match sensor_data s !! key with
  | Some d => (Ok d, exec (touch EntityStore) s)
  | None => (Raise KeyError, s)
  end.

(** [self.sensor_data[key].<method or field assignment>] *)
Definition entity_update (key : string) (f : SensorData -> SensorData) : M unit :=
  d ← entity key;
  modify (fun s => with_sensor_data (<[key := f d]> (sensor_data s)) s).

Definition add_event (msg : string) : M unit :=
  now ← time_time;
  touch EventLog;;
  modify (fun s => with_events (events s ++ [(now, msg)]) s).

(** [a or b] on two membership tests *)
Definition or_else (a b : M bool) : M bool :=
  a ≫= λ x : bool, if x then mret true else b.

(** [c and b] where [c] is already evaluated *)
Definition and_then (c : bool) (b : M bool) : M bool :=
  if c then b else mret false.

Definition when (c : bool) (body : M unit) : M unit :=
  if c then body else mret tt.

(** ** [CloudServer._on_heartbeat] and [CloudServer._on_data] *)

Definition _on_heartbeat (data : pyval) (a : addr) : M unit :=
  seq ← lift (py_get data "seq" (PInt 0));
  gw ← lift (py_get data "gateway_id" (PStr "UNKNOWN"));
  logger_info (LogHeartbeat seq gw).

(** [float(sensors.get(key, default))] *)
Definition sensor_float (sensors : pyval) (key : string) (default : float) : M float :=
  v ← lift (py_get sensors key (PFloat default));
  lift (py_float v).

(** The threshold checks that follow an [add_room]; the source repeats them
    in [_on_data] and in the fire scenarios. *)
Definition check_thresholds (key : string) (smoke0 : float)
    (alarm_event sprinkler_event : string) : M unit :=
  alarm_due ← and_then (PrimFloat.leb ALARM_THRESHOLD smoke0)
                (d ← entity key; mret (negb (alarm_status d)));
  when alarm_due (
    entity_update key (set_alarm_status true);;
    add_event alarm_event);;
  sprinkler_due ← and_then (PrimFloat.leb SPRINKLER_THRESHOLD smoke0)
                    (d ← entity key; mret (negb (sprinkler_status d)));
  when sprinkler_due (
    entity_update key (set_sprinkler_status true);;
    add_event sprinkler_event).

(** The block of [_on_data] for one room; the source writes it out once for
    room 1200400 (keys [smoke1], [co2_1], [fire1]) and once for room
    1211371 (keys [smoke2], [co2_2], [fire2]). *)
Definition _on_data_room (key smoke_key co2_key fire_key : string)
    (alarm_event sprinkler_event : string) (sensors : pyval) (ts : float) : M unit :=
  present ← or_else (lift (py_contains smoke_key sensors))
              (or_else (lift (py_contains co2_key sensors))
                       (lift (py_contains fire_key sensors)));
  when present (
    smoke0 ← sensor_float sensors smoke_key 0.0;
    co20 ← sensor_float sensors co2_key 0.0;
    fire0 ← sensor_float sensors fire_key 0.0;
    entity_update key (add_room ts (Some smoke0) (Some co20) (Some fire0));;
    check_thresholds key smoke0 alarm_event sprinkler_event).

(** The block of [_on_data] for one vehicle ([car1], [car2]). *)
Definition _on_data_car (key temp_key status_key : string) (event_prefix : string)
    (sensors : pyval) (ts : float) : M unit :=
  present ← or_else (lift (py_contains temp_key sensors))
                    (lift (py_contains status_key sensors));
  when present (
    temp ← sensor_float sensors temp_key 25.0;
    status ← lift (py_get sensors status_key (PStr "UNKNOWN"));
    d ← entity key;
    let prev := car_status d in
    entity_update key (add_car ts (Some temp) status);;
    when (negb (py_eq prev status))
      (add_event (event_prefix ++ py_str prev ++ " -> " ++ py_str status))).

(** The body of the [try] in [_on_data]. *)
Definition _on_data_body (data : pyval) : M unit :=
  seq ← lift (py_get data "seq" (PInt 0));
  gw ← lift (py_get data "gateway_id" (PStr "UNKNOWN"));
  sensors ← lift (py_get data "sensors" (PDict []));
  cur ← gets last_seq;
  m ← lift (py_max cur seq);
  modify (with_last_seq m);;
  modify (λ s, with_packet_count (packet_count s + 1)%Z s);;
  n ← lift (py_len sensors);
  logger_info (LogData seq gw n);;
  ts ← time_time;
  _on_data_room "1200400" "smoke1" "co2_1" "fire1"
    "🔔 ALARM_1200400 -> ON" "💦 SPRINKLER_1200400 -> ON" sensors ts;;
  _on_data_room "1211371" "smoke2" "co2_2" "fire2"
    "🔔 ALARM_1211371 -> ON" "💦 SPRINKLER_1211371 -> ON" sensors ts;;
  _on_data_car "car1" "car1_temp" "car1_status" "🚗 Car1 " sensors ts;;
  _on_data_car "car2" "car2_temp" "car2_status" "🚙 Car2 " sensors ts.

Definition _on_data (data : pyval) : M unit :=
  try_except (_on_data_body data) (λ e, logger_info (LogProcessDataError e)).

(** ** [CloudServer._process_message] *)

Definition _process_message (sock : nat) (a : addr) (line : string) : M unit :=
  match json_loads line with
  | None => logger_info (LogInvalidJson a line)
  | Some data =>
      with_lock (
        touch Registry;;
        registered ← gets (λ s, clients s !! a);
        match registered with
        | Some (s0, _, gw) =>
            now ← time_time;
            g ← lift (py_get data "gateway_id" gw);
            modify (λ s, with_clients (<[a := (s0, now, g)]> (clients s)) s)
        | None => mret tt
        end);;
      t ← lift (py_get data "type" (PStr ""));
      if py_eq t (PStr "HEARTBEAT") then _on_heartbeat data a
      else if py_eq t (PStr "DATA") then _on_data data
      else mret tt
  end.

(** ** Sockets *)

(** [sock.sendall(data)]: fails on a closed socket or a vanished peer. *)
Definition sock_sendall (sock : nat) (data : string) : M unit := fun s =>
  if bool_decide (sock ∈ closed_socks s ∪ broken_socks s)
  then (Raise OSError, s)
  else (Ok tt, with_outbox (outbox s ++ [(sock, data)]) s).

(** [try: sock.close() except: pass] *)
Definition sock_close (sock : nat) : M unit :=
  modify (λ s, with_closed_socks ({[sock]} ∪ closed_socks s) s).

(** What one [sock.recv(BUFFER_SIZE)] does: it returns bytes (none at end of
    stream), times out, or fails with another error. *)
Inductive recv_result : Type :=
| RecvData (data : list byte)
| RecvTimeout
| RecvError (e : exn).

(** ** [bytes.decode('utf-8', errors='ignore')]

    The decoder keeps every well-formed sequence and skips what it reports
    as an error: an invalid start byte, a start byte with the continuation
    bytes that were valid before an invalid one, or a sequence cut off by
    the end of the data. *)

Definition is_cont (b : byte) : bool :=
  ((128 <=? Byte.to_N b) && (Byte.to_N b <? 192))%N.

(** Second byte of a three-byte sequence: no overlong form, no surrogate. *)
Definition second_of3 (c0 : N) (b1 : byte) : bool :=
  is_cont b1
  && negb ((c0 =? 224) && (Byte.to_N b1 <? 160))%N
  && negb ((c0 =? 237) && (160 <=? Byte.to_N b1))%N.

(** Second byte of a four-byte sequence: no overlong form, at most U+10FFFF. *)
Definition second_of4 (c0 : N) (b1 : byte) : bool :=
  is_cont b1
  && negb ((c0 =? 240) && (Byte.to_N b1 <? 144))%N
  && negb ((c0 =? 244) && (144 <=? Byte.to_N b1))%N.

(** What the decoder finds at the cursor: a well-formed sequence of [n]
    bytes, an error covering [n] bytes, or the end of the data inside a
    sequence. *)
Inductive utf8_step : Type :=
| Utf8Keep (n : nat)
| Utf8Skip (n : nat)
| Utf8End.

Definition utf8_next (bs : list byte) : utf8_step :=
  match bs with
  | [] => Utf8End
  | b0 :: r0 =>
      let c0 := Byte.to_N b0 in
      if (c0 <? 128)%N then Utf8Keep 1
      else if (c0 <? 194)%N then Utf8Skip 1
      else if (c0 <? 224)%N then
        match r0 with
        | [] => Utf8End
        | b1 :: _ => if is_cont b1 then Utf8Keep 2 else Utf8Skip 1
        end
      else if (c0 <? 240)%N then
        match r0 with
        | [] => Utf8End
        | b1 :: r1 =>
            if second_of3 c0 b1 then
              match r1 with
              | [] => Utf8End
              | b2 :: _ => if is_cont b2 then Utf8Keep 3 else Utf8Skip 2
              end
            else Utf8Skip 1
        end
      else if (c0 <? 245)%N then
        match r0 with
        | [] => Utf8End
        | b1 :: r1 =>
            if second_of4 c0 b1 then
              match r1 with
              | [] => Utf8End
              | b2 :: r2 =>
                  if is_cont b2 then
                    match r2 with
                    | [] => Utf8End
                    | b3 :: _ => if is_cont b3 then Utf8Keep 4 else Utf8Skip 3
                    end
                  else Utf8Skip 2
              end
            else Utf8Skip 1
        end
      else Utf8Skip 1
  end.

(** The decoding loop with [errors='ignore']: every round moves the cursor
    by at least one byte, so [fuel] at least the length of the data is
    never used up. *)
Fixpoint utf8_decode_loop (fuel : nat) (bs : list byte) : list byte :=
  match fuel, bs with
  | S fuel', _ :: _ =>
      match utf8_next bs with
      | Utf8Keep n => take n bs ++ utf8_decode_loop fuel' (drop n bs)
      | Utf8Skip n => utf8_decode_loop fuel' (drop n bs)
      | Utf8End => []
      end
  | _, _ => []
  end.

Definition utf8_decode_ignore (bs : list byte) : list byte :=
  utf8_decode_loop (length bs) bs.

Definition decode (data : list byte) : string :=
  string_of_list_byte (utf8_decode_ignore data).

(** ** [CloudServer._accept_loop] (one accepted connection) and
       [CloudServer._client_loop] *)

Definition _accept (sock : nat) (a : addr) : M unit :=
  with_lock (
    touch Registry;;
    now ← time_time;
    modify (λ s, with_clients (<[a := (sock, now, PStr "UNKNOWN")]> (clients s)) s));;
  logger_info (LogConnected a).

(** [buffer.split('\n', 1)] when ['\n' in buffer] *)
Fixpoint split_newline (buffer : string) : option (string * string) :=
  match buffer with
  | EmptyString => None
  | String c rest =>
      if Ascii.eqb c newline then Some (EmptyString, rest)
      else match split_newline rest with
           | Some (line, rest') => Some (String c line, rest')
           | None => None
           end
  end.

(** [while '\n' in buffer: line, buffer = buffer.split('\n', 1);
    self._process_message(sock, addr, line)].  The buffer is a local of the
    handler: when a message raises, the loop is left with the rest of the
    buffer still in it.  Every round removes a character, so [fuel] at least
    the length of the buffer is never used up. *)
Fixpoint process_lines (fuel : nat) (sock : nat) (a : addr) (buffer : string)
    (s : CloudServer) : outcome unit * string * CloudServer :=
  match fuel with
  | O => (Ok tt, buffer, s)
  | S fuel' =>
      match split_newline buffer with
      | None => (Ok tt, buffer, s)
      | Some (line, rest) =>
          match _process_message sock a line s with
          | (Ok _, s') => process_lines fuel' sock a rest s'
          | (Raise e, s') => (Raise e, rest, s')
          end
      end
  end.

(** Where a connection handler stands. *)
Inductive handler : Type :=
| Reading (buffer : string)
| WaitingForStep (buffer : string)
| Closed.

(** The [finally] of [_client_loop]. *)
Definition _client_loop_finally (sock : nat) (a : addr) : M unit :=
  sock_close sock;;
  with_lock (touch Registry;; modify (λ s, with_clients (delete a (clients s)) s));;
  logger_info (LogClosed a).

(** [if self.wait_for_step: self.step_event.wait(); self.step_event.clear();
    self.wait_for_step = False]; [None] while the event is not set. *)
Definition step_gate (s : CloudServer) : option CloudServer :=
  if wait_for_step s then
    if step_event s then Some (with_wait_for_step false (with_step_event false s))
    else None
  else Some s.

(** The [while self.running] loop of [_client_loop], fed the results of its
    successive [recv] calls; when they are used up the handler is waiting in
    [recv]. *)
Fixpoint _client_loop_from (sock : nat) (a : addr) (reads : list recv_result)
    (buffer : string) (s : CloudServer) : handler * CloudServer :=
  if negb (running s) then (Closed, exec (_client_loop_finally sock a) s)
  else
    match step_gate s with
    | None => (WaitingForStep buffer, s)
    | Some s1 =>
        match reads with
        | [] => (Reading buffer, s1)
        | RecvTimeout :: reads' => _client_loop_from sock a reads' buffer s1
        | RecvError e :: reads' =>
            _client_loop_from sock a reads' buffer
              (exec (logger_info (LogClientError a e)) s1)
        | RecvData [] :: _ => (Closed, exec (_client_loop_finally sock a) s1)
        | RecvData data :: reads' =>
            let buffer1 := buffer ++ decode data in
            match process_lines (String.length buffer1) sock a buffer1 s1 with
            | (Ok _, buffer2, s2) => _client_loop_from sock a reads' buffer2 s2
            | (Raise e, buffer2, s2) =>
                _client_loop_from sock a reads' buffer2
                  (exec (logger_info (LogClientError a e)) s2)
            end
        end
    end.

Definition _client_loop (sock : nat) (a : addr) (reads : list recv_result)
    (s : CloudServer) : handler * CloudServer :=
  _client_loop_from sock a reads "" s.

(** ** [CloudServer._send_control_all] and [CloudServer._control_device] *)

Fixpoint send_each (command msg : string) (targets : list (addr * session)) : M unit :=
  match targets with
  | [] => mret tt
  | (a, (sock, _, _)) :: targets' =>
      try_except
        (sock_sendall sock msg;; logger_info (LogSent command a))
        (λ e, logger_info (LogSendFailed command a e));;
      send_each command msg targets'
  end.

Definition control_message (command : string) (params : list (string * pyval))
    (now : float) : pyval :=
  PDict [("type", PStr "CONTROL"); ("command", PStr command);
         ("params", PDict params); ("timestamp", PFloat now)].

Definition _send_control_all (command : string) (params : list (string * pyval)) : M unit :=
  now ← time_time;
  let msg := json_dumps (control_message command params now) ++ String newline "" in
  with_lock (
    touch Registry;;
    targets ← gets (λ s, dict_items (clients s));
    send_each command msg targets).

Definition on_off (state : bool) : string := if state then "ON" else "OFF".

Definition _control_device (device : string) (state : bool) : M unit :=
  if startswith device "ALARM_" then
    let room := str_drop 6 device in
    touch EntityStore;;
    known ← gets (λ s, bool_decide (is_Some (sensor_data s !! room)));
    when known (
      entity_update room (set_alarm_status state);;
      add_event ("🔔 " ++ device ++ " -> " ++ on_off state))
  else if startswith device "SPRINK_" then
    let room := str_drop 7 device in
    touch EntityStore;;
    known ← gets (λ s, bool_decide (is_Some (sensor_data s !! room)));
    when known (
      entity_update room (set_sprinkler_status state);;
      add_event ("💦 " ++ device ++ " -> " ++ on_off state))
  else mret tt.

(** ** Scenarios *)

(** [for i in range(n): if not self.running: break; body(i)] (the pause
    [time.sleep(1)] that ends each round changes nothing here). *)
Fixpoint for_while_running (indices : list nat) (body : nat -> M unit) : M unit :=
  match indices with
  | [] => mret tt
  | i :: indices' =>
      go ← gets running;
      if go : bool then body i;; for_while_running indices' body else mret tt
  end.

(** [dq[-1] if dq else default] on a deque of an entity *)
Definition last_or (key : string) (field : SensorData -> deque float)
    (default : float) : M float :=
  d ← entity key;
  match items (field d) with
  | [] => mret default
  | _ :: _ => d' ← entity key; mret (deque_last (field d') default)
  end.

(** [min(n, x)] for an integer [n] and a float [x]: [n] unless [x < n]. *)
Definition min_int_float (n : Z) (x : float) : float :=
  if PrimFloat.ltb x (float_of_Z n) then x else float_of_Z n.

(** The body shared by [_scenario_fire1] and [_scenario_fire2]. *)
Definition scenario_fire (name key : string) (default_base : float)
    (alarm_event sprinkler_event : string) : M unit :=
  _send_control_all "SCENARIO" [("name", PStr name); ("room", PStr key)];;
  base ← last_or key smoke default_base;
  for_while_running (seq 0 30) (λ i,
    ts ← time_time;
    let val := (base + min_int_float 25 (float_of_nat i * 0.8))%float in
    entity_update key (add_room ts (Some val) (Some (val * 10.0)%float)
                                   (Some (val * 0.6)%float));;
    check_thresholds key val alarm_event sprinkler_event).

Definition _scenario_fire1 (params : list (string * pyval)) : M unit :=
  scenario_fire "fire1" "1200400" 45.0
    "🔔 ALARM_1200400 -> ON" "💦 SPRINKLER_1200400 -> ON".

Definition _scenario_fire2 (params : list (string * pyval)) : M unit :=
  scenario_fire "fire2" "1211371" 42.0
    "🔔 ALARM_1211371 -> ON" "💦 SPRINKLER_1211371 -> ON".

Definition _scenario_co2_high (params : list (string * pyval)) : M unit :=
  let room := from_option id (PStr "1200400") (assoc "room" params) in
  _send_control_all "SCENARIO" [("name", PStr "co2_high"); ("room", room)];;
  let key := if py_eq room (PStr "1200400") then "1200400" else "1211371" in
  base ← last_or key co2 800.0;
  for_while_running (seq 0 20) (λ i,
    ts ← time_time;
    let co2v := (base + 50.0 + float_of_nat (i * 25))%float in
    entity_update key (add_room ts None (Some co2v) None)).

(** The body shared by [_scenario_car1] and [_scenario_car2]. *)
Definition scenario_car (name key : string) (event_prefix : string) : M unit :=
  _send_control_all "SCENARIO" [("name", PStr name)];;
  entity_update key (set_car_status (PStr "RUNNING"));;
  add_event (event_prefix ++ "PARKED -> RUNNING");;
  base ← last_or key car_temp 25.0;
  for_while_running (seq 0 20) (λ i,
    ts ← time_time;
    let temp := (base + float_of_nat (Nat.min 60 (i * 3)))%float in
    entity_update key (add_car ts (Some temp) (PStr "RUNNING")));;
  go ← gets running;
  when go (
    entity_update key (set_car_status (PStr "OVERHEATING"));;
    add_event (event_prefix ++ "RUNNING -> OVERHEATING")).

Definition _scenario_car1 (params : list (string * pyval)) : M unit :=
  scenario_car "car1" "car1" "🚗 Car1 ".

Definition _scenario_car2 (params : list (string * pyval)) : M unit :=
  scenario_car "car2" "car2" "🚙 Car2 ".

Definition normal_room (room : string) : M unit :=
  d ← entity room;
  when (alarm_status d) (
    entity_update room (set_alarm_status false);;
    add_event ("🔔 ALARM_" ++ room ++ " -> OFF"));;
  d ← entity room;
  when (sprinkler_status d) (
    entity_update room (set_sprinkler_status false);;
    add_event ("💦 SPRINKLER_" ++ room ++ " -> OFF")).

Definition normal_car (car_key upper : string) : M unit :=
  d ← entity car_key;
  let old := car_status d in
  when (negb (py_eq old (PStr "PARKED"))) (
    entity_update car_key (set_car_status (PStr "PARKED"));;
    add_event ("🚗 " ++ upper ++ " " ++ py_str old ++ " -> PARKED")).

Definition _scenario_normal (params : list (string * pyval)) : M unit :=
  _send_control_all "SCENARIO" [("name", PStr "normal")];;
  normal_room "1200400";;
  normal_room "1211371";;
  normal_car "car1" "CAR1";;
  normal_car "car2" "CAR2".

Definition test_messages : list string :=
  ["Sensor test passed"; "Network OK"; "Gateway heartbeat stable";
   "Parameters normal"; "Automatic test sequence running"].

(** [random.choice]: the draw is read off the clock position. *)
Definition random_choice (l : list string) : M string :=
  gets (λ s, nth (ticks s `mod` length l) l "").

Definition _scenario_test (params : list (string * pyval)) : M unit :=
  _send_control_all "SCENARIO" [("name", PStr "test")];;
  add_event "Test scenario started";;
  for_while_running (seq 0 5) (λ _, random_choice test_messages ≫= add_event);;
  add_event "Test scenario completed".

(** [self.scenarios] *)
Definition scenarios (name : string) : option (list (string * pyval) -> M unit) :=
  if String.eqb name "fire1" then Some _scenario_fire1
  else if String.eqb name "fire2" then Some _scenario_fire2
  else if String.eqb name "co2_high" then Some _scenario_co2_high
  else if String.eqb name "car1" then Some _scenario_car1
  else if String.eqb name "car2" then Some _scenario_car2
  else if String.eqb name "normal" then Some _scenario_normal
  else if String.eqb name "test" then Some _scenario_test
  else None.

(** ** [CloudServer.stop], [CloudServer.__init__] *)

Fixpoint close_each (targets : list (addr * session)) : M unit :=
  match targets with
  | [] => mret tt
  | (_, (sock, _, _)) :: targets' => sock_close sock;; close_each targets'
  end.

Definition stop : M unit :=
  go ← gets running;
  when go (
    logger_info LogStopping;;
    modify (with_running false);;
    with_lock (
      touch Registry;;
      targets ← gets (λ s, dict_items (clients s));
      close_each targets);;
    logger_info LogStopped).

Definition blank (max_points : nat) : CloudServer :=
  {| running := false;
     clients := ∅;
     sensor_data :=
       <["1200400" := SensorData_init max_points]>
       (<["1211371" := SensorData_init max_points]>
       (<["car1" := SensorData_init max_points]>
       (<["car2" := SensorData_init max_points]> ∅)));
     events := [];
     packet_count := 0;
     last_seq := PInt 0;
     step_mode := false;
     wait_for_step := false;
     step_event := false;
     lock_held := false;
     unlocked := [];
     ticks := 0;
     closed_socks := ∅;
     broken_socks := ∅;
     outbox := [];
     log := [] |}.

(** The server as [CloudServer()] builds it and [start] sets it running. *)
Definition CloudServer_init : CloudServer :=
  with_running true
    (exec (add_event "Starting cloud server ...") (blank MAX_DATA_POINTS)).

(** ** Operations

    What the threads of the server do to it, one operation at a time: the
    acceptor registers a connection, a handler runs over some reads, the
    console dispatches a command, the peer of a socket goes away. *)
Inductive op : Type :=
| OpAccept (sock : nat) (a : addr)
| OpClientLoop (sock : nat) (a : addr) (reads : list recv_result)
| OpProcessMessage (sock : nat) (a : addr) (line : string)
| OpSendControlAll (command : string)
| OpScenario (name : string) (params : list (string * pyval))
| OpControlDevice (device : string) (state : bool)
| OpPeerGone (sock : nat)
| OpStop.

Definition run_op (o : op) (s : CloudServer) : CloudServer :=
  match o with
  | OpAccept sock a => exec (_accept sock a) s
  | OpClientLoop sock a reads => snd (_client_loop sock a reads s)
  | OpProcessMessage sock a line => exec (_process_message sock a line) s
  | OpSendControlAll command => exec (_send_control_all command []) s
  | OpScenario name params =>
      match scenarios name with
      | Some scenario => exec (scenario params) s
      | None => s
      end
  | OpControlDevice device state => exec (_control_device device state) s
  | OpPeerGone sock => peer_gone sock s
  | OpStop => exec stop s
  end.

(** The operations run one after another, each to its end before the next
    begins.  The threads of the server are not held to that: neither
    [_on_data] nor a scenario takes the lock, and the plots, the dashboard
    and the export read the store without it.  So [run_ops] gives the
    states between operations that do not overlap; what a thread finds
    between the statements of another thread's [add_room] is not among
    them. *)
Definition run_ops (ops : list op) (s : CloudServer) : CloudServer :=
  foldl (λ s o, run_op o s) s ops.

End Server.

(** * Specification vocabulary *)

Close Scope string_scope.
Open Scope nat_scope.

(** ** Sample ingestion on one entity *)

Inductive ingest : Type :=
| AddRoom (ts : float) (smoke0 co20 fire0 : option float)
| AddCar (ts : float) (temp : option float) (status : pyval).

Definition ingest_one (i : ingest) (d : SensorData) : SensorData :=
  match i with
  | AddRoom ts smoke0 co20 fire0 => add_room ts smoke0 co20 fire0 d
  | AddCar ts temp status => add_car ts temp status d
  end.

Definition ingest_all (l : list ingest) (d : SensorData) : SensorData :=
  foldl (λ d i, ingest_one i d) d l.

(** What an ingest appends to each sequence. *)
Definition ts_of (i : ingest) : float :=
  match i with AddRoom ts _ _ _ => ts | AddCar ts _ _ => ts end.

Definition smoke_of (i : ingest) : option float :=
  match i with AddRoom _ v _ _ => Some (float_or_zero v) | AddCar _ _ _ => None end.

Definition co2_of (i : ingest) : option float :=
  match i with AddRoom _ _ v _ => Some (float_or_zero v) | AddCar _ _ _ => None end.

Definition fire_of (i : ingest) : option float :=
  match i with AddRoom _ _ _ v => Some (float_or_zero v) | AddCar _ _ _ => None end.

Definition temp_of (i : ingest) : option float :=
  match i with AddRoom _ _ _ _ => None | AddCar _ v _ => Some (float_or_zero v) end.

(** The most recent [n] elements of a sequence, oldest first. *)
Definition lastn {A : Type} (n : nat) (xs : list A) : list A :=
  drop (length xs - n) xs.

(** Every sequence of an entity is within the capacity. *)
Definition within_capacity (d : SensorData) : Prop :=
  length (items (timestamps d)) ≤ MAX_DATA_POINTS
  ∧ length (items (smoke d)) ≤ MAX_DATA_POINTS
  ∧ length (items (co2 d)) ≤ MAX_DATA_POINTS
  ∧ length (items (fire d)) ≤ MAX_DATA_POINTS
  ∧ length (items (car_temp d)) ≤ MAX_DATA_POINTS.

Definition steps (R : relation CloudServer) {A : Type} (m : M A) : Prop :=
  ∀ s, R s (snd (m s)).

(** [R] does not look at the environment, the counters or the lock. *)
Record ignores_env (R : relation CloudServer) : Prop := {
  ig_log : ∀ v s, R s (with_log v s);
  ig_unlocked : ∀ v s, R s (with_unlocked v s);
  ig_ticks : ∀ v s, R s (with_ticks v s);
  ig_lock : ∀ v s, R s (with_lock_held v s);
  ig_outbox : ∀ v s, R s (with_outbox v s);
  ig_closed : ∀ v s, R s (with_closed_socks v s);
  ig_last_seq : ∀ v s, R s (with_last_seq v s);
  ig_packet_count : ∀ v s, R s (with_packet_count v s);
}.

(** [R] accepts the update [f] of the entity [key]. *)
Definition upd_ok (R : relation CloudServer) (key : string)
    (f : SensorData → SensorData) : Prop :=
  ∀ s d, sensor_data s !! key = Some d →
    R s (with_sensor_data (<[key := f d]> (sensor_data s)) s).

Definition is_room (key : string) : bool :=
  String.eqb key "1200400" || String.eqb key "1211371".

Definition is_car (key : string) : bool :=
  String.eqb key "car1" || String.eqb key "car2".

(** The entity updates of data ingestion and of the scenarios, except for
    switching an alarm off. *)
Inductive data_update : string → (SensorData → SensorData) → Prop :=
| du_add_room key ts a b c :
    is_room key = true → data_update key (add_room ts a b c)
| du_add_car key ts t st :
    is_car key = true → data_update key (add_car ts t st)
| du_car_status key v :
    is_car key = true → data_update key (set_car_status v)
| du_alarm_on key : data_update key (set_alarm_status true)
| du_sprinkler key b : data_update key (set_sprinkler_status b).

(** What [R] must accept for the operation [o] to step along it: switching
    an alarm off is the one update outside [data_update]. *)
Definition op_ok (R : relation CloudServer) (o : op) : Prop :=
  match o with
  | OpControlDevice device state =>
      startswith device "ALARM_" = true →
      upd_ok R (str_drop 6 device) (set_alarm_status state)
  | OpScenario name _ =>
      name = "normal"%string →
      upd_ok R "1200400" (set_alarm_status false)
      ∧ upd_ok R "1211371" (set_alarm_status false)
  | _ => True
  end.

(** [R] looks at the entity store alone. *)
Record store_only (R : relation CloudServer) : Prop := {
  so_pre : PreOrder R;
  so_env : ignores_env R;
  so_events : ∀ v s, R s (with_events v s);
  so_clients : ∀ v s, R s (with_clients v s);
  so_running : ∀ v s, R s (with_running v s);
  so_step : ∀ v s, R s (with_wait_for_step v s) ∧ R s (with_step_event v s);
  so_broken : ∀ sock s, R s (peer_gone sock s);
}.

(** [keeps I] relates [s] to [s'] when [I] passes from the store of [s] to
    the store of [s']. *)
Definition keeps (I : gmap string SensorData → Prop) : relation CloudServer :=
  λ s s', I (sensor_data s) → I (sensor_data s').

(** All five deques of an entity have the capacity the server gives them,
    and none is over it. *)
Definition entity_wf (d : SensorData) : Prop :=
  maxlen (timestamps d) = MAX_DATA_POINTS
  ∧ maxlen (smoke d) = MAX_DATA_POINTS
  ∧ maxlen (co2 d) = MAX_DATA_POINTS
  ∧ maxlen (fire d) = MAX_DATA_POINTS
  ∧ maxlen (car_temp d) = MAX_DATA_POINTS
  ∧ within_capacity d.

Definition room_aligned (d : SensorData) : Prop :=
  length (items (smoke d)) = length (items (timestamps d))
  ∧ length (items (co2 d)) = length (items (timestamps d))
  ∧ length (items (fire d)) = length (items (timestamps d)).

Definition car_aligned (d : SensorData) : Prop :=
  length (items (car_temp d)) = length (items (timestamps d)).

Definition entity_ok (key : string) (d : SensorData) : Prop :=
  entity_wf d
  ∧ (is_room key = true → room_aligned d)
  ∧ (is_car key = true → car_aligned d).

Definition four_keys : gset string :=
  {[ "1200400"%string; "1211371"%string; "car1"%string; "car2"%string ]}.

Definition store_ok (m : gmap string SensorData) : Prop :=
  dom m = four_keys ∧ map_Forall entity_ok m.



(** ** The alarm latch *)

Definition alarm_of (key : string) (s : CloudServer) : option bool :=
  alarm_status <$> sensor_data s !! key.

Definition latched (key : string) (m : gmap string SensorData) : Prop :=
  alarm_status <$> m !! key = Some true.

(** The operations that clear the alarm of [key]: the operator's
    [control ALARM_<key> off], and the reset scenario [normal] for a room. *)
Definition clears_alarm (key : string) (o : op) : bool :=
  match o with
  | OpControlDevice device state =>
      negb state && startswith device "ALARM_"
      && String.eqb (str_drop 6 device) key
  | OpScenario name _ => String.eqb name "normal" && is_room key
  | _ => false
  end.

(** The states an execution goes through, the starting state first. *)
Fixpoint run_trace `{PyBuiltins} (ops : list op) (s : CloudServer) : list CloudServer :=
  match ops with
  | [] => [s]
  | o :: ops' => s :: run_trace ops' (run_op o s)
  end.

(** The number of places where a sequence of flags goes from false to true. *)
Fixpoint rising (flags : list bool) : nat :=
  match flags with
  | false :: ((true :: _) as rest) => S (rising rest)
  | _ :: rest => rising rest
  | [] => 0
  end.

Definition alarm_on (key : string) (s : CloudServer) : bool :=
  bool_decide (alarm_of key s = Some true).

(** ** The session registry *)

Definition clients_same : relation CloudServer :=
  λ s s', clients s = clients s'.

Definition gateway_of (a : addr) (s : CloudServer) : option pyval :=
  snd <$> clients s !! a.

Definition last_activity_of (a : addr) (s : CloudServer) : option float :=
  (λ e : session, snd (fst e)) <$> clients s !! a.

(** The gateway identity after a run of decoded messages: each message
    that has a [gateway_id] key replaces it. *)
Definition latest_gateway_id (gw : pyval) (ds : list (list (string * pyval))) : pyval :=
  foldl (λ g d, from_option id g (assoc "gateway_id" d)) gw ds.

(** ** Broadcast *)

(** A write to [sock] succeeds. *)
Definition writable (s : CloudServer) (sock : nat) : bool :=
  bool_decide (sock ∉ closed_socks s ∪ broken_socks s).

(** What a broadcast of [msg] writes, target by target. *)
Definition deliveries (msg : string) (s : CloudServer)
    (targets : list (addr * session)) : list (nat * string) :=
  omap (λ e : addr * session,
          if writable s (fst (fst (snd e))) then Some (fst (fst (snd e)), msg) else None)
       targets.

(** What a broadcast logs, target by target. *)
Definition send_log (command : string) (s : CloudServer)
    (targets : list (addr * session)) : list log_entry :=
  map (λ e : addr * session,
         if writable s (fst (fst (snd e))) then LogSent command (fst e)
         else LogSendFailed command (fst e) OSError)
      targets.

(** The text of a control message. *)
Definition control_text `{PyBuiltins} (command : string)
    (params : list (string * pyval)) (now : float) : string :=
  (json_dumps (control_message command params now) ++ String newline "")%string.

(** ** Framing: the lines of a text *)

(** The newline-terminated lines of [text], in order, and the unterminated
    rest after the last newline. *)
Fixpoint lines_of (text : string) : list string * string :=
  match text with
  | EmptyString => ([], EmptyString)
  | String c rest =>
      let (ls, tl) := lines_of rest in
      if Ascii.eqb c newline then (EmptyString :: ls, tl)
      else match ls with
           | [] => ([], String c tl)
           | l :: ls' => (String c l :: ls', tl)
           end
  end.

Definition complete_lines (text : string) : list string := fst (lines_of text).

Definition trailing (text : string) : string := snd (lines_of text).

(** The state after the handler of the session [(sock, a)] has processed
    the given lines one after the other. *)
Definition process_all `{PyBuiltins} (sock : nat) (a : addr) (lines : list string)
    (s : CloudServer) : CloudServer :=
  foldl (λ s line, exec (_process_message sock a line) s) s lines.

(** A line the handler can process without an exception reaching the read
    loop: it is not JSON, or it is a JSON object. *)
Definition plain_line `{PyBuiltins} (line : string) : Prop :=
  json_loads line = None ∨ ∃ d, json_loads line = Some (PDict d).

(** The decoder stops at the end of [bs] inside a sequence that is
    well-formed so far: the next bytes could complete it. *)
Fixpoint utf8_pending_loop (fuel : nat) (bs : list byte) : bool :=
  match fuel, bs with
  | S fuel', _ :: _ =>
      match utf8_next bs with
      | Utf8Keep n | Utf8Skip n => utf8_pending_loop fuel' (drop n bs)
      | Utf8End => true
      end
  | _, _ => false
  end.

Definition utf8_pending (bs : list byte) : bool :=
  utf8_pending_loop (length bs) bs.

(** The text of successive reads, each decoded on its own. *)
Definition decode_each (chunks : list (list byte)) : string :=
  foldr (λ chunk text, decode chunk +:+ text) EmptyString chunks.

(** The flags a handler reads at the head of its loop. *)
Definition flags_same : relation CloudServer :=
  λ s s', running s' = running s ∧ wait_for_step s' = wait_for_step s.

(** ** Concurrent writers of one entity

    The threads of the server (connection handlers, scenarios) all run
    [add_room] on the shared [SensorData] objects, and neither [_on_data]
    nor a scenario takes [self.lock].  A thread can be switched out between
    any two statements of [add_room]; one [deque.append] is a single step.
    [add_room_atoms] lists the four appends of a call in program order, and
    an interleaving of two threads is a merge of their steps. *)












(** ** Worked examples: a concrete runtime

    For closed examples the library functions are instantiated: the clock
    counts its readings, [json.loads] knows the messages listed in
    [example_messages] (and rejects every other line, so the examples use
    only these lines and lines that are not JSON), and [json.dumps] renders
    a control message by its command. *)

(** A JSON text written with ['] for the quotation mark. *)
Fixpoint jq (s : string) : string :=
  match s with
  | EmptyString => EmptyString
  | String c s' =>
      String (if Ascii.eqb c "'"%char then "034"%char else c) (jq s')
  end.

Definition msg_heartbeat1 : string :=
  jq "{'type':'HEARTBEAT','gateway_id':'GW-1','seq':1}".

Definition msg_heartbeat2 : string :=
  jq "{'type':'HEARTBEAT','gateway_id':'GW-2','seq':2}".

Definition msg_data_hot : string :=
  jq "{'type':'DATA','gateway_id':'GW-1','seq':3,'sensors':{'smoke1':70.5}}".

Definition msg_data_cool : string :=
  jq "{'type':'DATA','gateway_id':'GW-1','seq':4,'sensors':{'smoke1':12.0}}".

Definition msg_car_running : string :=
  jq "{'type':'DATA','sensors':{'car1_status':'RUNNING'}}".

Definition msg_gateway_accent : string := jq "{'gateway_id':'é'}".

Definition msg_gateway_empty : string := jq "{'gateway_id':''}".

Definition msg_list : string := "[1]".

Definition example_messages : list (string * pyval) :=
  [ (msg_heartbeat1,
     PDict [("type", PStr "HEARTBEAT"); ("gateway_id", PStr "GW-1");
            ("seq", PInt 1)]);
    (msg_heartbeat2,
     PDict [("type", PStr "HEARTBEAT"); ("gateway_id", PStr "GW-2");
            ("seq", PInt 2)]);
    (msg_data_hot,
     PDict [("type", PStr "DATA"); ("gateway_id", PStr "GW-1"); ("seq", PInt 3);
            ("sensors", PDict [("smoke1", PFloat 70.5)])]);
    (msg_data_cool,
     PDict [("type", PStr "DATA"); ("gateway_id", PStr "GW-1"); ("seq", PInt 4);
            ("sensors", PDict [("smoke1", PFloat 12.0)])]);
    (msg_car_running,
     PDict [("type", PStr "DATA");
            ("sensors", PDict [("car1_status", PStr "RUNNING")])]);
    (msg_gateway_accent, PDict [("gateway_id", PStr "é")]);
    (msg_gateway_empty, PDict [("gateway_id", PStr "")]);
    (msg_list, PList [PInt 1]) ]%string.

Fixpoint lookup_message (line : string) (table : list (string * pyval)) : option pyval :=
  match table with
  | [] => None
  | (text, v) :: table' =>
      if String.eqb line text then Some v else lookup_message line table'
  end.

Definition example_builtins : PyBuiltins :=
  {| json_loads := λ line, lookup_message line example_messages;
     json_dumps := λ v,
       match v with
       | PDict (_ :: (_, PStr command) :: _) =>
           (jq "{'type': 'CONTROL', 'command': '" +:+ command +:+ jq "'}")%string
       | _ => "{}"%string
       end;
     float_of_str := λ _, None;
     repr_val := λ _, "?"%string;
     clock := float_of_nat |}.

(** The server as it starts, in the example runtime. *)
Definition example_init : CloudServer := @CloudServer_init example_builtins.

Definition example_addr : addr := ("127.0.0.1"%string, 50000%Z).

(** The example server after it accepted a connection on socket 1. *)
Definition example_accepted : CloudServer :=
  exec (@_accept example_builtins 1 example_addr) example_init.

Definition example_addr2 : addr := ("127.0.0.1"%string, 50001%Z).
Definition example_addr3 : addr := ("127.0.0.1"%string, 50002%Z).

(** Three sessions, on sockets 1, 2 and 3; the peer of socket 2 is gone. *)
Definition example_three : CloudServer :=
  @run_ops example_builtins
    [OpAccept 1 example_addr; OpAccept 2 example_addr2; OpAccept 3 example_addr3;
     OpPeerGone 2]
    example_init.

(** A heartbeat delivered in two reads. *)
Definition example_read1 : list byte :=
  list_byte_of_string (jq "{'type':'HEARTBEAT'").

Definition example_read2 : list byte :=
  list_byte_of_string (jq ",'gateway_id':'GW-1','seq':1}" +:+ String newline "").

(** A message whose gateway identity has a two-byte character, whole and cut
    between the two bytes of that character. *)
Definition accent_stream : list byte :=
  list_byte_of_string (msg_gateway_accent +:+ String newline "").

Definition accent_read1 : list byte := take 16 accent_stream.

Definition accent_read2 : list byte := drop 16 accent_stream.

(** A JSON array followed by a heartbeat, whole and cut between the two
    lines. *)
Definition list_then_heartbeat : list byte :=
  list_byte_of_string
    (msg_list +:+ String newline "" +:+ msg_heartbeat1 +:+ String newline "").

Definition list_read1 : list byte := take 4 list_then_heartbeat.

Definition list_read2 : list byte := drop 4 list_then_heartbeat.




Definition data_hot : pyval :=
  PDict [("type", PStr "DATA"); ("gateway_id", PStr "GW-1"); ("seq", PInt 3);
         ("sensors", PDict [("smoke1", PFloat 70.5)])]%string.

(** One hundred and one room samples, stamped 0.0, 1.0, ... *)
Definition example_ingests : list ingest :=
  map (λ i, AddRoom (float_of_nat i) (Some (float_of_nat (2 * i))) None None)
      (seq 0 101).


From Stdlib Require Import FloatAxioms.

(** * The views of an entity, shutdown and the console

    The methods the server runs beside ingestion: what the plots and the
    dashboard read from an entity ([SensorData.recent], [SensorData.latest],
    [_update_plots]), and what is said of them below. *)

(** ** [SensorData.recent] and [SensorData.latest] *)

(** [l[-n:]]: the last [n] items; all of them when [n] is [0]. *)
Definition slice_last {A : Type} (n : nat) (l : list A) : list A :=
  match n with
  | 0 => l
  | S _ => lastn n l
  end.

(** The dict [recent] returns: the keys [t], [smoke], [co2], [fire] and
    [car_temp]. *)
Record window : Type := Window {
  w_t : list float;
  w_smoke : list float;
  w_co2 : list float;
  w_fire : list float;
  w_car_temp : list float;
}.

(** [np.array(list(dq)[idx]) if dq else np.array([])] *)
Definition window_of (n : nat) (dq : deque float) : list float :=
  match items dq with
  | [] => []
  | _ :: _ => slice_last n (items dq)
  end.

Definition recent (d : SensorData) : window :=
  match items (timestamps d) with
  | [] => let z := [0.0%float] in Window z z z z z
  | _ :: _ =>
      let n := Nat.min DATA_WINDOW (length (items (timestamps d))) in
      Window (slice_last n (items (timestamps d)))
             (window_of n (smoke d)) (window_of n (co2 d))
             (window_of n (fire d)) (window_of n (car_temp d))
  end.

(** The dict [latest] returns. *)
Record snapshot : Type := Snapshot {
  l_smoke : float;
  l_co2 : float;
  l_fire : float;
  l_car_temp : float;
  l_car_status : pyval;
  l_alarm : bool;
  l_sprinkler : bool;
}.

Definition latest (d : SensorData) : snapshot :=
  Snapshot (deque_last (smoke d) 0.0%float) (deque_last (co2 d) 0.0%float)
           (deque_last (fire d) 0.0%float) (deque_last (car_temp d) 0.0%float)
           (car_status d) (alarm_status d) (sprinkler_status d).


(** The texts of the event log, oldest first. *)
Definition event_texts (s : CloudServer) : list string := map snd (events s).

(** ** What the methods write

    [accepts R]: the preorder [R] relates a state to the state after each
    of the writes every method makes to the server's surroundings: a line
    to the logger, an access recorded, a reading of the clock, the lock
    taken or released, a message written to a socket, a socket closed. *)
Record accepts (R : relation CloudServer) : Prop := {
  acc_pre : PreOrder R;
  acc_log : ∀ e s, R s (with_log (log s ++ [e]) s);
  acc_unlocked : ∀ r s, R s (with_unlocked (unlocked s ++ [r]) s);
  acc_ticks : ∀ s, R s (with_ticks (S (ticks s)) s);
  acc_lock : ∀ v s, R s (with_lock_held v s);
  acc_outbox : ∀ sock msg s, R s (with_outbox (outbox s ++ [(sock, msg)]) s);
  acc_closed : ∀ sock s, R s (with_closed_socks ({[sock]} ∪ closed_socks s) s);
}.

(** The writes to an entity: samples go to the rooms through [add_room]
    and to the vehicles through [add_car]; a vehicle's status is assigned;
    the two flags are assigned on any entity. *)
Inductive store_write : string → (SensorData → SensorData) → Prop :=
| sw_add_room key ts a b c :
    is_room key = true → store_write key (add_room ts a b c)
| sw_add_car key ts t st :
    is_car key = true → store_write key (add_car ts t st)
| sw_car_status key v :
    is_car key = true → store_write key (set_car_status v)
| sw_alarm key b : store_write key (set_alarm_status b)
| sw_sprinkler key b : store_write key (set_sprinkler_status b).

(** The writes to the fields of the server object, as the methods make
    them: an event appended, a session registered by the acceptor, a
    session refreshed by a message (the socket stays), a session removed,
    [last_seq] assigned, a packet counted, [running] cleared, the step gate
    passed, an entity written. *)
Record writes (R : relation CloudServer) : Prop := {
  wr_acc : accepts R;
  wr_event : ∀ e s, R s (with_events (events s ++ [e]) s);
  wr_register : ∀ a sock now s,
    R s (with_clients (<[a := (sock, now, PStr "UNKNOWN")]> (clients s)) s);
  wr_refresh : ∀ a sock t gw now g s,
    clients s !! a = Some (sock, t, gw) →
    R s (with_clients (<[a := (sock, now, g)]> (clients s)) s);
  wr_unregister : ∀ a s, R s (with_clients (delete a (clients s)) s);
  wr_last_seq : ∀ v s, R s (with_last_seq v s);
  wr_packet : ∀ s, R s (with_packet_count (packet_count s + 1)%Z s);
  wr_stop : ∀ s, R s (with_running false s);
  wr_gate : ∀ s, R s (with_wait_for_step false (with_step_event false s));
  wr_peer : ∀ sock s, R s (peer_gone sock s);
  wr_store : ∀ key f, store_write key f → upd_ok R key f;
}.

(** ** What a DATA message leaves in an entity *)

(** [sensors.get(key, default)] for a float default *)
Definition reading (sensors : list (string * pyval)) (key : string)
    (default : float) : pyval :=
  from_option id (PFloat default) (assoc key sensors).

(** One of the keys is in [sensors]. *)
Definition present (sensors : list (string * pyval)) (keys : list string) : bool :=
  existsb (λ key, bool_decide (is_Some (assoc key sensors))) keys.

(** The flags after the threshold checks on the smoke value [v]: each is
    set when [v] is at or over its threshold, and otherwise left. *)
Definition thresholds (v : float) (d : SensorData) : SensorData :=
  {| timestamps := timestamps d; smoke := smoke d; co2 := co2 d;
     fire := fire d; car_temp := car_temp d; car_status := car_status d;
     alarm_status := alarm_status d || PrimFloat.leb ALARM_THRESHOLD v;
     sprinkler_status :=
       sprinkler_status d || PrimFloat.leb SPRINKLER_THRESHOLD v |}.

(** The events the threshold checks append: one per flag that goes from
    off to on. *)
Definition threshold_events (v : float) (d : SensorData)
    (alarm_event sprinkler_event : string) : list string :=
  (if PrimFloat.leb ALARM_THRESHOLD v && negb (alarm_status d)
   then [alarm_event] else [])
  ++ (if PrimFloat.leb SPRINKLER_THRESHOLD v && negb (sprinkler_status d)
      then [sprinkler_event] else []).

(** The room after a sample of smoke [v1], co2 [v2] and fire [v3]. *)
Definition room_sample (ts v1 v2 v3 : float) (d : SensorData) : SensorData :=
  thresholds v1 (add_room ts (Some v1) (Some v2) (Some v3) d).

(** The event a vehicle block appends: the transition, when the status in
    the message is not the one the vehicle had. *)
Definition car_events `{PyBuiltins} (prefix : string) (prev status : pyval) :
    list string :=
  if py_eq prev status then []
  else [(prefix +:+ py_str prev +:+ " -> " +:+ py_str status)%string].

Definition sprinkler_of (key : string) (s : CloudServer) : option bool :=
  sprinkler_status <$> sensor_data s !! key.

(** The computation returned. *)
Definition is_Ok {A : Type} (o : outcome A) : Prop := ∃ a, o = Ok a.

(** ** What a message leaves alone *)

(** The packet counter and [last_seq] are left as they are. *)
Definition counters_same : relation CloudServer :=
  λ s s', packet_count s' = packet_count s ∧ last_seq s' = last_seq s.

(** The entity store, the event log and the two counters are left as they
    are. *)
Definition data_same : relation CloudServer :=
  λ s s', sensor_data s' = sensor_data s ∧ events s' = events s
          ∧ packet_count s' = packet_count s ∧ last_seq s' = last_seq s.

(** The registry has the same addresses, each with the same socket. *)
Definition sockets_same : relation CloudServer :=
  λ s s', ∀ a, (λ e : session, fst (fst e)) <$> clients s' !! a
               = (λ e : session, fst (fst e)) <$> clients s !! a.


(** ** Shutdown *)

(** The sockets [stop] closes: those of the sessions, added to the ones
    already closed. *)
Definition closing (targets : list (addr * session)) (closed : gset nat) : gset nat :=
  foldl (λ c (e : addr * session), {[fst (fst (snd e))]} ∪ c) closed targets.

(** ** The reset scenario and the devices *)

(** A room with both flags off, a vehicle parked. *)
Definition reset_room (d : SensorData) : SensorData :=
  set_sprinkler_status false (set_alarm_status false d).

Definition reset_room_events (room : string) (d : SensorData) : list string :=
  (if alarm_status d then [("🔔 ALARM_" +:+ room +:+ " -> OFF")%string] else [])
  ++ (if sprinkler_status d
      then [("💦 SPRINKLER_" +:+ room +:+ " -> OFF")%string] else []).

Definition reset_car_events `{PyBuiltins} (upper : string) (d : SensorData) :
    list string :=
  if py_eq (car_status d) (PStr "PARKED") then []
  else [("🚗 " +:+ upper +:+ " " +:+ py_str (car_status d) +:+ " -> PARKED")%string].

(** ** The samples of a scenario *)

(** The smoke value of round [i] of a fire scenario, and the co2 value of
    round [i] of the co2 scenario. *)
Definition fire_value (base : float) (i : nat) : float :=
  (base + min_int_float 25 (float_of_nat i * 0.8))%float.

Definition co2_value (base : float) (i : nat) : float :=
  (base + 50.0 + float_of_nat (i * 25))%float.

(** The room after the rounds of a fire scenario, stamped [stamps]. *)
Definition fire_rounds (base : float) (rounds : list (float * nat))
    (d : SensorData) : SensorData :=
  foldl (λ d (r : float * nat),
           let v := fire_value base (snd r) in
           room_sample (fst r) v (v * 10.0)%float (v * 0.6)%float d)
        d rounds.

Definition co2_rounds (base : float) (rounds : list (float * nat))
    (d : SensorData) : SensorData :=
  foldl (λ d (r : float * nat),
           add_room (fst r) None (Some (co2_value base (snd r))) None d)
        d rounds.

(** The room a co2 scenario works on. *)
Definition co2_room (params : list (string * pyval)) : string :=
  if py_eq (from_option id (PStr "1200400") (assoc "room" params)) (PStr "1200400")
  then "1200400"%string else "1211371"%string.

(** [dq[-1] if dq else default] *)
Definition last_or_default (dq : deque float) (default : float) : float :=
  match items dq with
  | [] => default
  | _ :: _ => deque_last dq default
  end.

(** The events the rounds of a fire scenario append. *)
Fixpoint fire_round_events (base : float) (rounds : list (float * nat))
    (d : SensorData) (alarm_event sprinkler_event : string) : list string :=
  match rounds with
  | [] => []
  | r :: rest =>
      let v := fire_value base (snd r) in
      threshold_events v d alarm_event sprinkler_event
      ++ fire_round_events base rest
           (room_sample (fst r) v (v * 10.0)%float (v * 0.6)%float d)
           alarm_event sprinkler_event
  end.

(** The entity store, the event log and [running] are left as they are. *)
Definition quiet : relation CloudServer :=
  λ s s', sensor_data s' = sensor_data s ∧ events s' = events s
          ∧ running s' = running s.

(** ** The console

    The console thread runs [_ui_loop]: it prints the dashboard, reads a
    line and hands it to [_process_command].  What is printed goes to the
    terminal and is not part of the state; what the dashboard reads is
    returned by [_print_dashboard].  The thread works on the server object
    and on its own surroundings: the lines still to come on standard input,
    the lines the logger gets from it, the scenario threads it started, and
    the files [_export_csv] wrote. *)

(** The library functions of the console: [str.split] on whitespace,
    [str.strip], [str.lower], [str.upper], [sorted(set(...))] on floats,
    and the two [strftime] formats of [_export_csv], of which
    [datetime.fromtimestamp] can raise. *)
Class PyConsole : Type := {
  str_split : string → list string;
  str_strip : string → string;
  str_lower : string → string;
  str_upper : string → string;
  sorted_set : list float → list float;
  strftime_file : float → string;
  fromtimestamp_str : float → outcome string;
}.

Inductive console_exn : Type :=
| ServerExn (e : exn)
| IndexError
| EOFError.

(** What [input()] does next: it returns a line, finds the end of the
    input, or fails otherwise. *)
Inductive input_result : Type :=
| InputLine (line : string)
| InputEOF
| InputError (e : exn).

Inductive console_entry : Type :=
| LogCommandError (e : console_exn)
| LogUIError (e : console_exn)
| LogUILoopError (e : console_exn)
| LogSignal.

(** A row of the exported file; an empty cell is [None]. *)
Inductive csv_row : Type :=
| HeaderRow
| DataRow (time entity : string) (smoke0 co20 fire0 temp : option float)
    (status : pyval).

Record Console : Type := mkConsole {
  server : CloudServer;
  stdin : list input_result;
  console_log : list console_entry;
  threads : list (string * list (string * pyval));
  disk_ok : bool;
  files : list (string * list csv_row);
}.

Definition with_server (v : CloudServer) (c : Console) : Console :=
  {| server := v; stdin := stdin c; console_log := console_log c;
     threads := threads c; disk_ok := disk_ok c; files := files c |}.

Definition with_stdin (v : list input_result) (c : Console) : Console :=
  {| server := server c; stdin := v; console_log := console_log c;
     threads := threads c; disk_ok := disk_ok c; files := files c |}.

Definition with_console_log (v : list console_entry) (c : Console) : Console :=
  {| server := server c; stdin := stdin c; console_log := v;
     threads := threads c; disk_ok := disk_ok c; files := files c |}.

Definition with_threads (v : list (string * list (string * pyval)))
    (c : Console) : Console :=
  {| server := server c; stdin := stdin c; console_log := console_log c;
     threads := v; disk_ok := disk_ok c; files := files c |}.

Definition with_files (v : list (string * list csv_row)) (c : Console) : Console :=
  {| server := server c; stdin := stdin c; console_log := console_log c;
     threads := threads c; disk_ok := disk_ok c; files := v |}.

(** A computation of the console thread returns, raises, or is left
    waiting in [input()] for a line that has not come. *)
Inductive cresult (A : Type) : Type :=
| Done (a : A)
| Failed (e : console_exn)
| Blocked.
Arguments Done {A} a.
Arguments Failed {A} e.
Arguments Blocked {A}.

Definition C (A : Type) : Type := Console → cresult A * Console.

#[export] Instance C_ret : MRet C := λ A a c, (Done a, c).

#[export] Instance C_bind : MBind C := λ A B f m c,
  match m c with
  | (Done a, c') => f a c'
  | (Failed e, c') => (Failed e, c')
  | (Blocked, c') => (Blocked, c')
  end.

Definition cfail {A : Type} (e : console_exn) : C A := λ c, (Failed e, c).

(** [try: body except Exception as e: handler(e)] *)
Definition ctry {A : Type} (body : C A) (handler : console_exn → C A) : C A :=
  λ c,
    match body c with
    | (Failed e, c') => handler e c'
    | r => r
    end.

(** A method of the server, run by the console thread. *)
Definition on_server {A : Type} (m : M A) : C A := λ c,
  match m (server c) with
  | (Ok a, s') => (Done a, with_server s' c)
  | (Raise e, s') => (Failed (ServerExn e), with_server s' c)
  end.

Definition cexec {A : Type} (m : C A) (c : Console) : Console := snd (m c).

(** [input()] *)
Definition console_input : C string := λ c,
  match stdin c with
  | [] => (Blocked, c)
  | InputLine line :: rest => (Done line, with_stdin rest c)
  | InputEOF :: rest => (Failed EOFError, with_stdin rest c)
  | InputError e :: rest => (Failed (ServerExn e), with_stdin rest c)
  end.

Definition console_info (e : console_entry) : C unit := λ c,
  (Done tt, with_console_log (console_log c ++ [e]) c).

Definition with_step_mode (v : bool) (s : CloudServer) : CloudServer :=
  {| running := running s; clients := clients s; sensor_data := sensor_data s;
     events := events s; packet_count := packet_count s; last_seq :=
     last_seq s; step_mode := v; wait_for_step := wait_for_step s;
     step_event := step_event s; lock_held := lock_held s; unlocked :=
     unlocked s; ticks := ticks s; closed_socks := closed_socks s;
     broken_socks := broken_socks s; outbox := outbox s; log := log s |}.

(** *** [_print_dashboard] *)

(** What the dashboard shows. *)
Record dashboard : Type := Dashboard {
  shown_active : nat;
  shown_packets : Z;
  shown_last_seq : pyval;
  shown_room1 : snapshot;
  shown_room2 : snapshot;
  shown_car1 : snapshot;
  shown_car2 : snapshot;
  shown_events : list (float * string);
}.

(** [self.events[-8:] if len(self.events) > 8 else self.events] *)
Definition recent_events (evs : list (float * string)) : list (float * string) :=
  if 8 <? length evs then slice_last 8 evs else evs.

Section ConsoleThread.
Context `{PyBuiltins} `{PyConsole}.

Definition _print_dashboard : M dashboard :=
  touch Registry;;
  active ← gets (λ s, size (clients s));
  packets ← gets packet_count;
  seq0 ← gets last_seq;
  r1 ← entity "1200400";
  r2 ← entity "1211371";
  c1 ← entity "car1";
  c2 ← entity "car2";
  touch EventLog;;
  evs ← gets events;
  mret (Dashboard active packets seq0 (latest r1) (latest r2) (latest c1)
          (latest c2) (recent_events evs)).

(** *** [_export_csv] *)

(** [min(range(len(ts)), key=lambda i: abs(ts[i] - t))]: the first index
    whose key no later one is less than. *)
Fixpoint nearest_from (best : nat) (bestv : float) (i : nat) (ts : list float)
    (t : float) : nat :=
  match ts with
  | [] => best
  | x :: rest =>
      let k := PrimFloat.abs (x - t)%float in
      if PrimFloat.ltb k bestv then nearest_from i k (S i) rest t
      else nearest_from best bestv (S i) rest t
  end.

Definition nearest (ts : list float) (t : float) : nat :=
  match ts with
  | [] => 0
  | x :: rest => nearest_from 0 (PrimFloat.abs (x - t)%float) 1 rest t
  end.

(** [(dq[idx] if dq else '')] *)
Definition cell (dq : deque float) (idx : nat) : C (option float) :=
  match items dq with
  | [] => mret None
  | _ :: _ =>
      match items dq !! idx with
      | Some v => mret (Some v)
      | None => cfail IndexError
      end
  end.

(** [open(fn, "w")], [w.writerow(row)] *)
Definition open_file (fn : string) : C unit := λ c,
  if disk_ok c then (Done tt, with_files (files c ++ [(fn, [])]) c)
  else (Failed (ServerExn OSError), c).

Definition write_row (row : csv_row) : C unit := λ c,
  match reverse (files c) with
  | [] => (Done tt, c)
  | (fn, rows) :: older =>
      (Done tt, with_files (reverse older ++ [(fn, rows ++ [row])]) c)
  end.

(** The body of the loop over the entities, for the timestamp [t]. *)
Definition export_entity (dt : string) (t : float) (ent : string) : C unit :=
  d ← on_server (entity ent);
  match items (timestamps d) with
  | [] => mret tt
  | x :: _ =>
      let idx := nearest (items (timestamps d)) t in
      if PrimFloat.ltb (PrimFloat.abs (nth idx (items (timestamps d)) x - t)%float) 2.0
      then
        sm ← cell (smoke d) idx;
        co ← cell (co2 d) idx;
        fi ← cell (fire d) idx;
        ct ← cell (car_temp d) idx;
        write_row (DataRow dt ent sm co fi ct (car_status d))
      else mret tt
  end.

Fixpoint export_entities (dt : string) (t : float) (ents : list string) : C unit :=
  match ents with
  | [] => mret tt
  | ent :: ents' => export_entity dt t ent;; export_entities dt t ents'
  end.

Fixpoint export_times (all_ts : list float) : C unit :=
  match all_ts with
  | [] => mret tt
  | t :: rest =>
      dt ← on_server (lift (fromtimestamp_str t));
      export_entities dt t ["1200400"; "1211371"; "car1"; "car2"]%string;;
      export_times rest
  end.

Definition _export_csv : C unit :=
  ctry (
    now ← on_server time_time;
    open_file ("fire_data_" +:+ strftime_file now +:+ ".csv");;
    write_row HeaderRow;;
    dA ← on_server (entity "1200400");
    dB ← on_server (entity "1211371");
    d1 ← on_server (entity "car1");
    d2 ← on_server (entity "car2");
    export_times (sorted_set (items (timestamps dA) ++ items (timestamps dB)
                              ++ items (timestamps d1) ++ items (timestamps d2)));;
    console_input;;
    mret tt)
  (λ e, console_input;; mret tt).

(** *** [_process_command] *)

(** The [params] of a scenario command: the last [room=...] word. *)
Definition room_params (words : list string) : list (string * pyval) :=
  foldl (λ params p,
           if startswith p "room=" then [("room"%string, PStr (str_drop 5 p))]
           else params)
        [] words.

(** [int(x)] of a float: what it raises. *)
Definition int_of_float_check (x : float) : C unit :=
  if PrimFloat.is_nan x then cfail (ServerExn ValueError)
  else if is_inf x then cfail (ServerExn OverflowError)
  else mret tt.

Definition scenario_announcement (name : string) (params : list (string * pyval)) :
    string :=
  ("Running scenario: " +:+ name +:+ " "
   +:+ match params with [] => "" | _ :: _ => py_str (PDict params) end)%string.

Definition command_stats : C unit :=
  now ← on_server time_time;
  on_server (touch EventLog);;
  evs ← on_server (gets events);
  match evs with
  | [] => cfail IndexError
  | (t0, _) :: _ =>
      int_of_float_check (now - t0)%float;;
      on_server (touch Registry)
  end.

(** [threading.Thread(target=self.scenarios[name], args=(params,)).start()] *)
Definition start_thread (name : string) (params : list (string * pyval)) : C unit :=
  λ c, (Done tt, with_threads (threads c ++ [(name, params)]) c).

Definition command_scenario (words : list string) : C unit :=
  match words with
  | [] => mret tt
  | w :: rest =>
      let name := str_lower w in
      let params := room_params rest in
      match scenarios name with
      | Some _ =>
          on_server (add_event (scenario_announcement name params));;
          start_thread name params
      | None => mret tt
      end
  end.

Definition process_command_body (command : string) : C unit :=
  match str_split command with
  | [] => cfail IndexError
  | w :: rest =>
      let cmd := str_lower w in
      if String.eqb cmd "help" then mret tt
      else if String.eqb cmd "step" then
        on_server (modify (with_step_mode true);;
                   modify (with_wait_for_step false))
      else if String.eqb cmd "run" then
        on_server (modify (with_step_mode false);;
                   modify (with_wait_for_step false);;
                   modify (with_step_event true))
      else if String.eqb cmd "pause-gw" then on_server (_send_control_all "PAUSE" [])
      else if String.eqb cmd "resume-gw" then on_server (_send_control_all "RESUME" [])
      else if String.eqb cmd "scenario" && (0 <? length rest) then
        command_scenario rest
      else if String.eqb cmd "control" && (1 <? length rest) then
        match rest with
        | dev :: state :: _ =>
            on_server (_control_device (str_upper dev)
                         (String.eqb (str_upper state) "ON"))
        | _ => mret tt
        end
      else if String.eqb cmd "stats" then command_stats
      else if String.eqb cmd "export" && (0 <? length rest)
              && String.eqb (str_lower (hd "" rest)) "csv" then _export_csv
      else if String.eqb cmd "events" then
        on_server (touch EventLog);; console_input;; mret tt
      else if String.eqb cmd "exit" then on_server (modify (with_running false))
      else mret tt
  end.

Definition _process_command (command : string) : C unit :=
  ctry (process_command_body command) (λ e, console_info (LogCommandError e)).

(** *** [_ui_loop] and [_signal_handler] *)

(** Where the console thread stands. *)
Inductive ui_status : Type :=
| UiWaiting
| UiEnded.

(** Every round takes a line from the input or ends the loop, so [fuel]
    over the number of lines is never used up. *)
Fixpoint ui_loop_from (fuel : nat) (c : Console) : ui_status * Console :=
  match fuel with
  | 0 => (UiWaiting, c)
  | S fuel' =>
      if negb (running (server c)) then (UiEnded, c)
      else
        match on_server _print_dashboard c with
        | (Failed e, c1) =>
            (UiEnded, with_console_log (console_log c1 ++ [LogUILoopError e]) c1)
        | (Blocked, c1) => (UiWaiting, c1)
        | (Done _, c1) =>
            match stdin c1 with
            | [] => (UiWaiting, c1)
            | InputEOF :: rest => (UiEnded, with_stdin rest c1)
            | InputError e :: rest =>
                ui_loop_from fuel'
                  (with_console_log (console_log c1 ++ [LogUIError (ServerExn e)])
                     (with_stdin rest c1))
            | InputLine cmd :: rest =>
                let c2 := with_stdin rest c1 in
                match str_strip cmd with
                | EmptyString => ui_loop_from fuel' c2
                | String _ _ =>
                    match _process_command (str_strip cmd) c2 with
                    | (Blocked, c3) => (UiWaiting, c3)
                    | (Failed EOFError, c3) => (UiEnded, c3)
                    | (Failed e, c3) =>
                        ui_loop_from fuel'
                          (with_console_log (console_log c3 ++ [LogUIError e]) c3)
                    | (Done _, c3) => ui_loop_from fuel' c3
                    end
                end
            end
        end
  end.

Definition _ui_loop (c : Console) : ui_status * Console :=
  ui_loop_from (S (length (stdin c))) c.

Definition _signal_handler : C unit :=
  console_info LogSignal;; on_server stop.

(** ** What the threads do, console included *)

(** [csteps R m]: running [m] relates the server before to the server
    after. *)
Definition csteps (R : relation CloudServer) {A : Type} (m : C A) : Prop :=
  ∀ c, R (server c) (server (snd (m c))).

Inductive action : Type :=
| ServerOp (o : op)
| Command (command : string)
| UiLoop
| Signal.

Definition run_action (a : action) (c : Console) : Console :=
  match a with
  | ServerOp o => with_server (run_op o (server c)) c
  | Command command => cexec (_process_command command) c
  | UiLoop => snd (_ui_loop c)
  | Signal => cexec _signal_handler c
  end.

(** As with [run_ops], the actions run one after another: [run_actions]
    gives the states between actions that do not overlap, not the states a
    dashboard or an export finds while a handler or a scenario is at work. *)
Definition run_actions (l : list action) (c : Console) : Console :=
  foldl (λ c a, run_action a c) c l.

(** The console of a server that just started: nothing typed yet. *)
Definition Console_init : Console :=
  mkConsole CloudServer_init [] [] [] true [].

End ConsoleThread.

(** The writes of the console commands to the server object, beside those
    of the methods they call: the three flags of the step mode. *)
Record console_writes (R : relation CloudServer) : Prop := {
  cw_writes : writes R;
  cw_step_mode : ∀ v s, R s (with_step_mode v s);
  cw_wait : ∀ s, R s (with_wait_for_step false s);
  cw_step_event : ∀ s, R s (with_step_event true s);
}.

(** ** Invariants *)

(** Nothing is removed from the event log. *)
Definition events_grow : relation CloudServer :=
  λ s s', events s `prefix_of` events s'.

(** A server that is not running stays so. *)
Definition stays_stopped : relation CloudServer :=
  λ s s', running s = false → running s' = false.

(** A server whose handlers are not told to wait stays so. *)
Definition never_waits : relation CloudServer :=
  λ s s', wait_for_step s = false → wait_for_step s' = false.

(** The packet counter does not go down. *)
Definition packets_grow : relation CloudServer :=
  λ s s', (packet_count s ≤ packet_count s')%Z.

(** Rooms hold no vehicle data and vehicles no room data: a room has no
    temperature samples and the status it was built with, a vehicle has no
    smoke, co2 or fire samples. *)
Definition kind_ok (key : string) (d : SensorData) : Prop :=
  (is_room key = true → items (car_temp d) = [] ∧ car_status d = PStr "UNKNOWN")
  ∧ (is_car key = true →
     items (smoke d) = [] ∧ items (co2 d) = [] ∧ items (fire d) = []).

Definition kinds_ok (m : gmap string SensorData) : Prop := map_Forall kind_ok m.

(** ** A console for the examples *)

(** [str.split] where the words are separated by spaces. *)
Fixpoint words_from (word text : string) : list string :=
  match text with
  | EmptyString => match word with EmptyString => [] | _ => [word] end
  | String ch text' =>
      if Ascii.eqb ch " "
      then match word with
           | EmptyString => words_from EmptyString text'
           | _ => word :: words_from EmptyString text'
           end
      else words_from (word +:+ String ch EmptyString) text'
  end.

(** The console functions on lines that are stripped and in one case
    already, under a clock that prints every time alike. *)
Definition example_console : PyConsole :=
  {| str_split := words_from EmptyString;
     str_strip := id;
     str_lower := id;
     str_upper := id;
     sorted_set := id;
     strftime_file := λ _, "now"%string;
     fromtimestamp_str := λ _, Ok "now"%string |}.

(** The console of the example server as it starts. *)
Definition example_console_init : Console := @Console_init example_builtins.

(** The console of the example server with one session, and the end of
    the input coming. *)
Definition example_console_eof : Console :=
  mkConsole example_accepted [InputEOF] [] [] true [].

(** ** What a handler that goes on reading leaves alone *)



(** ** A call of [add_room] in progress *)




(** A line that is not JSON followed by a heartbeat, in one read. *)
Definition junk_then_heartbeat : list byte :=
  list_byte_of_string
    ("not-json" +:+ String newline "" +:+ msg_heartbeat1 +:+ String newline "").

(** * Proofs *)

(** ** The insertion-ordered dict *)

Section pydict_lemmas.
Context {K V : Type} `{EqDecision K}.
Implicit Types (d : pydict K V) (k : K) (v : V).

Lemma dict_lookup_insert_eq d k v : <[k := v]> d !! k = Some v.
Proof.
  destruct d as [l]. unfold lookup, insert, pydict_lookup, pydict_insert. simpl.
  induction l as [|[k' v'] l IH]; simpl.
  - rewrite decide_True by reflexivity. reflexivity.
  - destruct (decide (k = k')) as [->|Hne]; simpl.
    + rewrite decide_True by reflexivity. reflexivity.
    + rewrite decide_False by exact Hne. exact IH.
Qed.

Lemma dict_lookup_insert_ne d k k' v : k ≠ k' → <[k := v]> d !! k' = d !! k'.
Proof.
  intros Hne. destruct d as [l].
  unfold lookup, insert, pydict_lookup, pydict_insert. simpl.
  induction l as [|[k0 v0] l IH]; simpl.
  - rewrite decide_False by congruence. reflexivity.
  - destruct (decide (k = k0)) as [->|Hk]; simpl.
    + rewrite !decide_False by congruence. reflexivity.
    + destruct (decide (k' = k0)); [reflexivity | exact IH].
Qed.

Lemma dict_lookup_delete_eq d k : delete k d !! k = None.
Proof.
  destruct d as [l]. unfold lookup, delete, pydict_lookup, pydict_delete. simpl.
  induction l as [|[k' v'] l IH]; simpl; [reflexivity|].
  destruct (decide (k = k')) as [->|Hne]; simpl; [exact IH|].
  rewrite decide_False by exact Hne. exact IH.
Qed.


Lemma dict_delete_insert_eq d k v : delete k (<[k := v]> d) = delete k d.
Proof.
  destruct d as [l]. unfold delete, insert, pydict_delete, pydict_insert. simpl.
  f_equal. induction l as [|[k' v'] l IH]; simpl.
  - rewrite decide_True by reflexivity. reflexivity.
  - destruct (decide (k = k')) as [->|Hne]; simpl.
    + rewrite decide_True by reflexivity. reflexivity.
    + rewrite decide_False by exact Hne. rewrite IH. reflexivity.
Qed.

(** An assignment to a key that is present keeps the order of the keys; an
    assignment to a new key puts it last. *)
Lemma dict_keys_insert d k v :
  map fst (dict_items (<[k := v]> d))
  = match d !! k with
    | Some _ => map fst (dict_items d)
    | None => map fst (dict_items d) ++ [k]
    end.
Proof.
  destruct d as [l]. unfold lookup, insert, pydict_lookup, pydict_insert. simpl.
  induction l as [|[k' v'] l IH]; simpl; [reflexivity|].
  destruct (decide (k = k')) as [->|Hne]; simpl; [reflexivity|].
  rewrite IH. destruct (items_get k l); reflexivity.
Qed.

(** What is bound is among the items. *)
Lemma dict_elem_of_items d k v : d !! k = Some v → (k, v) ∈ dict_items d.
Proof.
  destruct d as [l]. unfold lookup, pydict_lookup. simpl.
  induction l as [|[k' v'] l IH]; simpl; [discriminate|].
  destruct (decide (k = k')) as [->|Hne].
  - intros [= ->]. apply list_elem_of_here.
  - intros Hl. apply list_elem_of_further, IH, Hl.
Qed.

Lemma dict_elem_of_dom `{Countable K} d k : k ∈ dom d ↔ is_Some (d !! k).
Proof.
  destruct d as [l]. unfold dom, pydict_dom, lookup, pydict_lookup. simpl.
  rewrite elem_of_list_to_set.
  induction l as [|[k' v'] l IH]; simpl.
  - split; [intros Hin; inversion Hin | intros [x Hx]; discriminate].
  - rewrite elem_of_cons, IH.
    destruct (decide (k = k')) as [->|Hne].
    + split; [eauto | left; reflexivity].
    + split; [intros [?|?]; [congruence|assumption] | right; assumption].
Qed.

End pydict_lemmas.

(** ** The bounded deque *)

Lemma lastn_length {A : Type} (n : nat) (xs : list A) :
  length (lastn n xs) = Nat.min n (length xs).
Proof. unfold lastn. rewrite length_drop. lia. Qed.

Lemma lastn_nil {A : Type} (n : nat) : lastn n (@nil A) = [].
Proof. reflexivity. Qed.

Lemma tail_drop {A : Type} (k : nat) (xs : list A) :
  tail (drop k xs) = drop (S k) xs.
Proof.
  revert xs. induction k as [|k IH]; intros [|x xs]; try reflexivity.
  apply (IH xs).
Qed.

(** Appending to a deque that holds the last [n] of [xs] leaves it holding
    the last [n] of [xs ++ [x]]. *)
Lemma deque_append_lastn {A : Type} (n : nat) (x : A) (xs : list A) :
  0 < n →
  deque_append x (Deque n (lastn n xs)) = Deque n (lastn n (xs ++ [x])).
Proof.
  intros Hn. unfold deque_append. simpl.
  destruct n as [|n]; [lia|].
  rewrite lastn_length. f_equal.
  destruct (Nat.ltb_spec (Nat.min (S n) (length xs)) (S n)) as [Hlt|Hge].
  - unfold lastn. rewrite length_app. simpl.
    replace (length xs - S n) with 0 by lia.
    replace (length xs + 1 - S n) with 0 by lia.
    reflexivity.
  - unfold lastn. rewrite length_app. simpl.
    rewrite tail_drop.
    replace (length xs + 1 - S n) with (S (length xs - S n)) by lia.
    rewrite drop_app_le by lia. reflexivity.
Qed.

Lemma deque_append_maxlen {A : Type} (x : A) (dq : deque A) :
  maxlen (deque_append x dq) = maxlen dq.
Proof.
  unfold deque_append. destruct (maxlen dq) eqn:E; [exact E|].
  destruct (_ <? _)%nat; reflexivity.
Qed.

Lemma deque_append_length {A : Type} (x : A) (dq : deque A) :
  length (items dq) ≤ maxlen dq →
  length (items (deque_append x dq)) = Nat.min (maxlen dq) (S (length (items dq))).
Proof.
  intros Hle. unfold deque_append. destruct (maxlen dq) as [|n] eqn:E.
  - lia.
  - destruct (Nat.ltb_spec (length (items dq)) (S n)) as [Hlt|Hge]; simpl.
    + rewrite length_app. simpl. lia.
    + rewrite length_app. simpl.
      destruct (items dq) as [|y ys]; simpl in *; lia.
Qed.

(** ** Ingestion keeps the most recent [MAX_DATA_POINTS] samples *)

Lemma ingest_all_snoc (l : list ingest) (i : ingest) (d : SensorData) :
  ingest_all (l ++ [i]) d = ingest_one i (ingest_all l d).
Proof. unfold ingest_all. rewrite foldl_app. reflexivity. Qed.

Lemma omap_snoc {A B : Type} (f : A → option B) (l : list A) (x : A) :
  omap f (l ++ [x]) = omap f l ++ match f x with Some y => [y] | None => [] end.
Proof.
  rewrite omap_app. simpl. destruct (f x); reflexivity.
Qed.

Lemma ingest_all_retains (l : list ingest) :
  let d := ingest_all l (SensorData_init MAX_DATA_POINTS) in
  timestamps d = Deque MAX_DATA_POINTS (lastn MAX_DATA_POINTS (map ts_of l))
  ∧ smoke d = Deque MAX_DATA_POINTS (lastn MAX_DATA_POINTS (omap smoke_of l))
  ∧ co2 d = Deque MAX_DATA_POINTS (lastn MAX_DATA_POINTS (omap co2_of l))
  ∧ fire d = Deque MAX_DATA_POINTS (lastn MAX_DATA_POINTS (omap fire_of l))
  ∧ car_temp d = Deque MAX_DATA_POINTS (lastn MAX_DATA_POINTS (omap temp_of l)).
Proof.
  assert (HN : 0 < MAX_DATA_POINTS) by (unfold MAX_DATA_POINTS; lia).
  induction l as [|i l IH] using rev_ind.
  - repeat split; reflexivity.
  - simpl in *. rewrite ingest_all_snoc, map_app, !omap_snoc.
    destruct IH as (Hts & Hsm & Hco & Hfi & Hct).
    destruct i as [ts sm co fi | ts tp st]; simpl;
      rewrite ?Hts, ?Hsm, ?Hco, ?Hfi, ?Hct, ?app_nil_r;
      repeat split; try reflexivity; apply deque_append_lastn; exact HN.
Qed.

(** ** Relating the state before and after a computation

    [steps R m] says that running [m] relates the state it starts in to the
    state it leaves, whether it returns or raises.  For a preorder [R] this
    composes along the monad, so a property of a whole method follows from
    what [R] says of the field updates the method performs. *)

Section Steps.
Context `{PyBuiltins}.
Variable R : relation CloudServer.
Hypothesis R_pre : PreOrder R.
Hypothesis R_env : ignores_env R.

Lemma steps_ret {A : Type} (a : A) : steps R (mret a).
Proof. intros s. reflexivity. Qed.

Lemma steps_bind {A B : Type} (m : M A) (f : A → M B) :
  steps R m → (∀ a, steps R (f a)) → steps R (m ≫= f).
Proof.
  intros Hm Hf s. unfold mbind, M_bind. specialize (Hm s).
  destruct (m s) as [[a|e] s']; simpl in *.
  - etransitivity; [exact Hm | apply Hf].
  - exact Hm.
Qed.

Lemma steps_lift {A : Type} (o : outcome A) : steps R (lift o).
Proof. intros s. reflexivity. Qed.

Lemma steps_raise {A : Type} (e : exn) : steps R (@raise A e).
Proof. intros s. reflexivity. Qed.

Lemma steps_gets {A : Type} (f : CloudServer → A) : steps R (gets f).
Proof. intros s. reflexivity. Qed.

Lemma steps_modify (f : CloudServer → CloudServer) :
  (∀ s, R s (f s)) → steps R (modify f).
Proof. intros Hf s. apply Hf. Qed.

Lemma steps_try_except {A : Type} (body : M A) (handler : exn → M A) :
  steps R body → (∀ e, steps R (handler e)) → steps R (try_except body handler).
Proof.
  intros Hb Hh s. unfold try_except. specialize (Hb s).
  destruct (body s) as [[a|e] s']; simpl in *.
  - exact Hb.
  - etransitivity; [exact Hb | apply Hh].
Qed.

Lemma steps_with_lock {A : Type} (body : M A) :
  steps R body → steps R (with_lock body).
Proof.
  intros Hb s. unfold with_lock.
  specialize (Hb (with_lock_held true s)).
  destruct (body (with_lock_held true s)) as [r s']; simpl in *.
  etransitivity; [apply (ig_lock R R_env)|].
  etransitivity; [exact Hb | apply (ig_lock R R_env)].
Qed.

Lemma steps_touch (r : shared) : steps R (touch r).
Proof.
  intros s. unfold touch, modify. simpl.
  destruct (lock_held s); [reflexivity | apply (ig_unlocked R R_env)].
Qed.

Lemma steps_logger_info (e : log_entry) : steps R (logger_info e).
Proof. intros s. apply (ig_log R R_env). Qed.

Lemma steps_time_time : steps R time_time.
Proof. intros s. apply (ig_ticks R R_env). Qed.

Lemma steps_when (c : bool) (body : M unit) :
  steps R body → steps R (when c body).
Proof. intros Hb. destruct c; [exact Hb | apply steps_ret]. Qed.

Lemma steps_or_else (a b : M bool) :
  steps R a → steps R b → steps R (or_else a b).
Proof.
  intros Ha Hb. apply steps_bind; [exact Ha|].
  intros [|]; [apply steps_ret | exact Hb].
Qed.

Lemma steps_and_then (c : bool) (b : M bool) :
  steps R b → steps R (and_then c b).
Proof. intros Hb. destruct c; [exact Hb | apply steps_ret]. Qed.

Lemma steps_entity (key : string) : steps R (entity key).
Proof.
  intros s. unfold entity.
  destruct (sensor_data s !! key); simpl; [apply steps_touch | reflexivity].
Qed.

Lemma steps_entity_update (key : string) (f : SensorData → SensorData) :
  upd_ok R key f → steps R (entity_update key f).
Proof.
  intros Hf s. unfold entity_update, mbind, M_bind, entity.
  destruct (sensor_data s !! key) as [d|] eqn:Hd; simpl; [|reflexivity].
  etransitivity; [apply steps_touch|].
  apply Hf. unfold exec, touch, modify. simpl.
  destruct (lock_held s); exact Hd.
Qed.

Lemma steps_sock_sendall (sock : nat) (data : string) :
  steps R (sock_sendall sock data).
Proof.
  intros s. unfold sock_sendall. case_bool_decide; simpl.
  - reflexivity.
  - apply (ig_outbox R R_env).
Qed.

Lemma steps_sock_close (sock : nat) : steps R (sock_close sock).
Proof. intros s. apply (ig_closed R R_env). Qed.

End Steps.

(** One step of the search for [steps R m]: by the shape of [m]. *)
Ltac steps_rule :=
  lazymatch goal with
  | |- steps _ (mret _) => apply steps_ret
  | |- steps _ (mbind _ _) => apply steps_bind
  | |- steps _ (lift _) => apply steps_lift
  | |- steps _ (raise _) => apply steps_raise
  | |- steps _ (gets _) => apply steps_gets
  | |- steps _ (modify _) => apply steps_modify
  | |- steps _ (try_except _ _) => apply steps_try_except
  | |- steps _ (with_lock _) => apply steps_with_lock
  | |- steps _ (touch _) => apply steps_touch
  | |- steps _ (logger_info _) => apply steps_logger_info
  | |- steps _ time_time => apply steps_time_time
  | |- steps _ (when _ _) => apply steps_when
  | |- steps _ (or_else _ _) => apply steps_or_else
  | |- steps _ (and_then _ _) => apply steps_and_then
  | |- steps _ (entity _) => apply steps_entity
  | |- steps _ (entity_update _ _) => apply steps_entity_update
  | |- steps _ (sock_sendall _ _) => apply steps_sock_sendall
  | |- steps _ (sock_close _) => apply steps_sock_close
  | |- steps _ (match ?x with _ => _ end) => destruct x
  end.

Ltac steps_tac :=
  repeat first [ assumption | progress intros | steps_rule ].

Section Methods.
Context `{PyBuiltins}.
Variable R : relation CloudServer.
Hypothesis R_pre : PreOrder R.
Hypothesis R_env : ignores_env R.
Hypothesis R_events : ∀ v s, R s (with_events v s).
Hypothesis R_clients : ∀ v s, R s (with_clients v s).
Hypothesis R_running : ∀ v s, R s (with_running v s).
Hypothesis R_step : ∀ v s, R s (with_wait_for_step v s) ∧ R s (with_step_event v s).
Hypothesis R_broken : ∀ sock s, R s (peer_gone sock s).
Hypothesis R_upd : ∀ key f, data_update key f → upd_ok R key f.

Lemma add_event_steps (msg : string) : steps R (add_event msg).
Proof. unfold add_event. steps_tac. apply R_events. Qed.

Lemma on_heartbeat_steps (data : pyval) (a : addr) : steps R (_on_heartbeat data a).
Proof. unfold _on_heartbeat. steps_tac. Qed.

Lemma sensor_float_steps (sensors : pyval) (key : string) (default : float) :
  steps R (sensor_float sensors key default).
Proof. unfold sensor_float. steps_tac. Qed.

Lemma check_thresholds_steps (key : string) (v : float) (e1 e2 : string) :
  steps R (check_thresholds key v e1 e2).
Proof.
  unfold check_thresholds. steps_tac;
    first [ apply add_event_steps | apply R_upd; constructor ].
Qed.

Lemma on_data_room_steps (key k1 k2 k3 e1 e2 : string) (sensors : pyval) (ts : float) :
  is_room key = true →
  steps R (_on_data_room key k1 k2 k3 e1 e2 sensors ts).
Proof.
  intros Hk. unfold _on_data_room. steps_tac;
    first [ apply sensor_float_steps | apply check_thresholds_steps
          | apply R_upd; constructor; exact Hk ].
Qed.

Lemma on_data_car_steps (key k1 k2 prefix : string) (sensors : pyval) (ts : float) :
  is_car key = true →
  steps R (_on_data_car key k1 k2 prefix sensors ts).
Proof.
  intros Hk. unfold _on_data_car. steps_tac;
    first [ apply sensor_float_steps | apply add_event_steps
          | apply R_upd; constructor; exact Hk ].
Qed.

Lemma on_data_body_steps (data : pyval) : steps R (_on_data_body data).
Proof.
  unfold _on_data_body. steps_tac;
    first [ apply (ig_last_seq R R_env) | apply (ig_packet_count R R_env)
          | apply on_data_room_steps; reflexivity
          | apply on_data_car_steps; reflexivity ].
Qed.

Lemma on_data_steps (data : pyval) : steps R (_on_data data).
Proof. unfold _on_data. steps_tac. apply on_data_body_steps. Qed.

Lemma process_message_steps (sock : nat) (a : addr) (line : string) :
  steps R (_process_message sock a line).
Proof.
  unfold _process_message. steps_tac;
    first [ apply R_clients | apply on_heartbeat_steps | apply on_data_steps ].
Qed.

Lemma process_lines_steps (fuel sock : nat) (a : addr) (buffer : string) (s : CloudServer) :
  R s (snd (process_lines fuel sock a buffer s)).
Proof.
  revert buffer s. induction fuel as [|fuel IH]; intros buffer s; simpl.
  - reflexivity.
  - destruct (split_newline buffer) as [[line rest]|]; [|reflexivity].
    pose proof (process_message_steps sock a line s) as Hm.
    destruct (_process_message sock a line s) as [[u|e] s']; simpl in *.
    + etransitivity; [exact Hm | apply IH].
    + exact Hm.
Qed.

Lemma client_loop_finally_steps (sock : nat) (a : addr) :
  steps R (_client_loop_finally sock a).
Proof. unfold _client_loop_finally. steps_tac. apply R_clients. Qed.

Lemma step_gate_steps (s s1 : CloudServer) : step_gate s = Some s1 → R s s1.
Proof.
  unfold step_gate. intros Hg.
  destruct (wait_for_step s); [|injection Hg as <-; reflexivity].
  destruct (step_event s); [|discriminate]. injection Hg as <-.
  etransitivity; [apply (R_step false s) | apply R_step].
Qed.

Lemma client_loop_from_steps (sock : nat) (a : addr) (reads : list recv_result)
    (buffer : string) (s : CloudServer) :
  R s (snd (_client_loop_from sock a reads buffer s)).
Proof.
  revert buffer s. induction reads as [|r reads IH]; intros buffer s; simpl.
  - destruct (running s); simpl; [|apply client_loop_finally_steps].
    destruct (step_gate s) as [s1|] eqn:Hg; simpl; [|reflexivity].
    apply step_gate_steps, Hg.
  - destruct (running s); simpl; [|apply client_loop_finally_steps].
    destruct (step_gate s) as [s1|] eqn:Hg; simpl; [|reflexivity].
    apply step_gate_steps in Hg.
    destruct r as [[|b data]| |e].
    + simpl. etransitivity; [exact Hg | apply client_loop_finally_steps].
    + pose proof (process_lines_steps
        (String.length (buffer +:+ decode (b :: data))) sock a
        (buffer +:+ decode (b :: data)) s1) as Hp.
      destruct (process_lines _ sock a _ s1) as [[[u|e] buffer2] s2]; simpl in *.
      * etransitivity; [exact Hg|]. etransitivity; [exact Hp | apply IH].
      * etransitivity; [exact Hg|]. etransitivity; [exact Hp|].
        etransitivity; [apply (ig_log R R_env) | apply IH].
    + etransitivity; [exact Hg | apply IH].
    + etransitivity; [exact Hg|].
      etransitivity; [apply (ig_log R R_env) | apply IH].
Qed.

Lemma accept_steps (sock : nat) (a : addr) : steps R (_accept sock a).
Proof. unfold _accept. steps_tac. apply R_clients. Qed.

Lemma send_each_steps (command msg : string) (targets : list (addr * session)) :
  steps R (send_each command msg targets).
Proof.
  induction targets as [|[a [[sock t] gw]] targets IH]; simpl; steps_tac.
Qed.

Lemma send_control_all_steps (command : string) (params : list (string * pyval)) :
  steps R (_send_control_all command params).
Proof. unfold _send_control_all. steps_tac. apply send_each_steps. Qed.

Lemma for_while_running_steps (indices : list nat) (body : nat → M unit) :
  (∀ i, steps R (body i)) → steps R (for_while_running indices body).
Proof.
  intros Hb. induction indices as [|i indices IH]; simpl; steps_tac. apply Hb.
Qed.

Lemma last_or_steps (key : string) (field : SensorData → deque float) (default : float) :
  steps R (last_or key field default).
Proof. unfold last_or. steps_tac. Qed.

Lemma scenario_fire_steps (name key : string) (base : float) (e1 e2 : string) :
  is_room key = true → steps R (scenario_fire name key base e1 e2).
Proof.
  intros Hk. unfold scenario_fire. steps_tac;
    first [ apply send_control_all_steps | apply last_or_steps | idtac ].
  apply for_while_running_steps. intros i. steps_tac;
    first [ apply check_thresholds_steps | apply R_upd; constructor; exact Hk ].
Qed.

Lemma scenario_co2_high_steps (params : list (string * pyval)) :
  steps R (_scenario_co2_high params).
Proof.
  unfold _scenario_co2_high. steps_tac;
    first [ apply send_control_all_steps | apply last_or_steps | idtac ].
  apply for_while_running_steps. intros i. steps_tac.
  apply R_upd; constructor. destruct (py_eq _ _); reflexivity.
Qed.

Lemma scenario_car_steps (name key prefix : string) :
  is_car key = true → steps R (scenario_car name key prefix).
Proof.
  intros Hk. unfold scenario_car. steps_tac;
    first [ apply send_control_all_steps | apply last_or_steps
          | apply add_event_steps | apply R_upd; constructor; exact Hk | idtac ].
  apply for_while_running_steps. intros i. steps_tac.
  apply R_upd; constructor; exact Hk.
Qed.

Lemma scenario_test_steps (params : list (string * pyval)) :
  steps R (_scenario_test params).
Proof.
  unfold _scenario_test. steps_tac;
    first [ apply send_control_all_steps | apply add_event_steps | idtac ].
  apply for_while_running_steps. intros i. unfold random_choice. steps_tac.
  apply add_event_steps.
Qed.

Lemma close_each_steps (targets : list (addr * session)) :
  steps R (close_each targets).
Proof.
  induction targets as [|[a [[sock t] gw]] targets IH]; simpl; steps_tac.
Qed.

Lemma stop_steps : steps R stop.
Proof.
  unfold stop. steps_tac; first [ apply R_running | apply close_each_steps ].
Qed.

(** [_control_device] and [_scenario_normal] may switch an alarm off; they
    step along [R] when [R] accepts that update. *)
Lemma control_device_steps (device : string) (state : bool) :
  (startswith device "ALARM_" = true →
   upd_ok R (str_drop 6 device) (set_alarm_status state)) →
  steps R (_control_device device state).
Proof.
  intros Hoff. unfold _control_device.
  destruct (startswith device "ALARM_") eqn:Ha.
  - steps_tac; first [ apply add_event_steps | apply Hoff; reflexivity ].
  - steps_tac; first [ apply add_event_steps | apply R_upd; constructor ].
Qed.

Lemma scenario_normal_steps (params : list (string * pyval)) :
  upd_ok R "1200400" (set_alarm_status false) →
  upd_ok R "1211371" (set_alarm_status false) →
  steps R (_scenario_normal params).
Proof.
  intros HA HB. unfold _scenario_normal, normal_room, normal_car. steps_tac;
    first [ apply send_control_all_steps | apply add_event_steps
          | apply R_upd; constructor; reflexivity | assumption ].
Qed.

End Methods.

(** ** Operations and the updates they may perform *)

Lemma steps_exec (R : relation CloudServer) {A : Type} (m : M A) (s : CloudServer) :
  steps R m → R s (exec m s).
Proof. intros Hm. apply Hm. Qed.

Lemma run_op_steps `{PyBuiltins} (R : relation CloudServer) :
  store_only R →
  (∀ key f, data_update key f → upd_ok R key f) →
  ∀ o, op_ok R o → ∀ s, R s (run_op o s).
Proof.
  intros [Hpre Henv Hev Hcl Hrun Hstep Hbr] Hupd o Hok s.
  destruct o as [sock a|sock a reads|sock a line|command|name params
                |device state|sock|]; simpl.
  - apply steps_exec, accept_steps; assumption.
  - unfold _client_loop. apply client_loop_from_steps; assumption.
  - apply steps_exec, process_message_steps; assumption.
  - apply steps_exec, send_control_all_steps; assumption.
  - destruct (scenarios name) as [scenario|] eqn:Hsc; [|reflexivity].
    apply steps_exec. unfold scenarios in Hsc.
    destruct (String.eqb name "fire1");
      [injection Hsc as <-; apply scenario_fire_steps; solve [assumption | reflexivity]|].
    destruct (String.eqb name "fire2");
      [injection Hsc as <-; apply scenario_fire_steps; solve [assumption | reflexivity]|].
    destruct (String.eqb name "co2_high");
      [injection Hsc as <-; apply scenario_co2_high_steps; assumption|].
    destruct (String.eqb name "car1");
      [injection Hsc as <-; apply scenario_car_steps; solve [assumption | reflexivity]|].
    destruct (String.eqb name "car2");
      [injection Hsc as <-; apply scenario_car_steps; solve [assumption | reflexivity]|].
    destruct (String.eqb name "normal") eqn:Hn.
    { injection Hsc as <-. simpl in Hok.
      destruct Hok as [HA HB]; [apply String.eqb_eq; exact Hn|].
      apply scenario_normal_steps; assumption. }
    destruct (String.eqb name "test");
      [injection Hsc as <-; apply scenario_test_steps; assumption | discriminate].
  - apply steps_exec, control_device_steps; assumption.
  - apply Hbr.
  - apply steps_exec, stop_steps; assumption.
Qed.

Lemma run_ops_steps `{PyBuiltins} (R : relation CloudServer) :
  store_only R →
  (∀ key f, data_update key f → upd_ok R key f) →
  ∀ ops, Forall (op_ok R) ops → ∀ s, R s (run_ops ops s).
Proof.
  intros HR Hupd ops Hok. pose proof (so_pre R HR) as Hpre.
  induction Hok as [|o ops Ho Hops IH]; intros s.
  - reflexivity.
  - change (R s (run_ops ops (run_op o s))).
    etransitivity; [exact (run_op_steps R HR Hupd o Ho s) | apply IH].
Qed.

(** ** Properties of the entity store that every operation keeps *)

Lemma keeps_store_only (I : gmap string SensorData → Prop) : store_only (keeps I).
Proof.
  split; [split | split | ..]; unfold keeps.
  - intros s Hs. exact Hs.
  - intros s1 s2 s3 H12 H23 Hs. apply H23, H12, Hs.
  - intros v s Hs. exact Hs.
  - intros v s Hs. exact Hs.
  - intros v s Hs. exact Hs.
  - intros v s Hs. exact Hs.
  - intros v s Hs. exact Hs.
  - intros v s Hs. exact Hs.
  - intros v s Hs. exact Hs.
  - intros v s Hs. exact Hs.
  - intros v s Hs. exact Hs.
  - intros v s Hs. exact Hs.
  - intros v s Hs. exact Hs.
  - intros v s. split; intros Hs; exact Hs.
  - intros v s Hs. exact Hs.
Qed.

Lemma is_room_not_car (key : string) : is_room key = true → is_car key = false.
Proof.
  unfold is_room. intros Hk. apply orb_true_iff in Hk.
  destruct Hk as [Hk|Hk]; apply String.eqb_eq in Hk; subst; reflexivity.
Qed.

Lemma is_car_not_room (key : string) : is_car key = true → is_room key = false.
Proof.
  unfold is_car. intros Hk. apply orb_true_iff in Hk.
  destruct Hk as [Hk|Hk]; apply String.eqb_eq in Hk; subst; reflexivity.
Qed.

Lemma deque_append_le {A : Type} (x : A) (dq : deque A) (n : nat) :
  maxlen dq = n → length (items dq) ≤ n →
  length (items (deque_append x dq)) = Nat.min n (S (length (items dq))).
Proof. intros <- Hle. apply deque_append_length, Hle. Qed.

Lemma add_room_entity_ok (key : string) ts a b c (d : SensorData) :
  is_room key = true → entity_ok key d → entity_ok key (add_room ts a b c d).
Proof.
  intros Hk (Hwf & Hroom & _). specialize (Hroom Hk).
  destruct Hwf as (M1 & M2 & M3 & M4 & M5 & L1 & L2 & L3 & L4 & L5).
  destruct Hroom as (E1 & E2 & E3).
  unfold entity_ok, entity_wf, within_capacity, room_aligned, car_aligned.
  rewrite (is_room_not_car key Hk). simpl.
  rewrite !deque_append_maxlen.
  rewrite (deque_append_le ts _ _ M1 L1), (deque_append_le _ _ _ M2 L2),
    (deque_append_le _ _ _ M3 L3), (deque_append_le _ _ _ M4 L4).
  repeat split; try assumption; try lia; discriminate.
Qed.

Lemma add_car_entity_ok (key : string) ts t st (d : SensorData) :
  is_car key = true → entity_ok key d → entity_ok key (add_car ts t st d).
Proof.
  intros Hk (Hwf & _ & Hcar). specialize (Hcar Hk).
  destruct Hwf as (M1 & M2 & M3 & M4 & M5 & L1 & L2 & L3 & L4 & L5).
  unfold entity_ok, entity_wf, within_capacity, room_aligned, car_aligned in *.
  rewrite (is_car_not_room key Hk). simpl.
  rewrite !deque_append_maxlen.
  rewrite (deque_append_le ts _ _ M1 L1), (deque_append_le _ _ _ M5 L5).
  repeat split; try assumption; try lia; discriminate.
Qed.

Lemma store_ok_upd (key : string) (f : SensorData → SensorData) :
  (∀ d, entity_ok key d → entity_ok key (f d)) → upd_ok (keeps store_ok) key f.
Proof.
  intros Hf s d Hd [Hdom Hall]. simpl. split.
  - rewrite dom_insert_L, <- Hdom.
    assert (Hin : key ∈ dom (sensor_data s)) by (apply elem_of_dom; eauto).
    apply subseteq_union_1_L, singleton_subseteq_l, Hin.
  - apply map_Forall_insert_2; [|exact Hall]. apply Hf, (Hall key d Hd).
Qed.

Lemma store_ok_data_update (key : string) (f : SensorData → SensorData) :
  data_update key f → upd_ok (keeps store_ok) key f.
Proof.
  intros Hu. apply store_ok_upd.
  destruct Hu as [key ts a b c Hk|key ts t st Hk|key v Hk|key|key b]; intros d Hd.
  - apply add_room_entity_ok; assumption.
  - apply add_car_entity_ok; assumption.
  - exact Hd.
  - exact Hd.
  - exact Hd.
Qed.

Lemma store_ok_op_ok (o : op) : op_ok (keeps store_ok) o.
Proof.
  destruct o; simpl; try exact I.
  - intros _. split; apply store_ok_upd; intros d Hd; exact Hd.
  - intros _. apply store_ok_upd. intros d Hd. exact Hd.
Qed.

Lemma sensor_data_init `{PyBuiltins} :
  sensor_data CloudServer_init =
    <["1200400"%string := SensorData_init MAX_DATA_POINTS]>
    (<["1211371"%string := SensorData_init MAX_DATA_POINTS]>
    (<["car1"%string := SensorData_init MAX_DATA_POINTS]>
    (<["car2"%string := SensorData_init MAX_DATA_POINTS]> ∅))).
Proof. reflexivity. Qed.

Lemma SensorData_init_ok (key : string) :
  entity_ok key (SensorData_init MAX_DATA_POINTS).
Proof.
  unfold entity_ok, entity_wf, within_capacity, room_aligned, car_aligned. simpl.
  repeat split; lia.
Qed.

Lemma store_ok_init `{PyBuiltins} : store_ok (sensor_data CloudServer_init).
Proof.
  rewrite sensor_data_init. split.
  - rewrite !dom_insert_L, dom_empty_L. unfold four_keys. set_solver.
  - repeat apply map_Forall_insert_2; try apply SensorData_init_ok.
    apply map_Forall_empty.
Qed.

(** Every state the operations reach from the initial one has a sound store. *)
Lemma store_ok_reachable `{PyBuiltins} (ops : list op) :
  store_ok (sensor_data (run_ops ops CloudServer_init)).
Proof.
  apply (run_ops_steps (keeps store_ok)).
  - apply keeps_store_only.
  - apply store_ok_data_update.
  - apply Forall_forall. intros o _. apply store_ok_op_ok.
  - apply store_ok_init.
Qed.

(** ** The capacity of the sample sequences *)

Lemma lastn_cons_full {A : Type} (n : nat) (x : A) (xs : list A) :
  length xs = n → lastn n (x :: xs) = xs.
Proof.
  intros Hn. unfold lastn. simpl length.
  replace (S (length xs) - n) with 1 by lia. reflexivity.
Qed.

Lemma deque_append_full {A : Type} (x : A) (dq : deque A) :
  0 < maxlen dq → length (items dq) = maxlen dq →
  items (deque_append x dq) = tail (items dq) ++ [x].
Proof.
  intros Hpos Hfull. unfold deque_append.
  destruct (maxlen dq) as [|n] eqn:E; [lia|].
  destruct (Nat.ltb_spec (length (items dq)) (S n)); [lia | reflexivity].
Qed.

(** C2.  Starting from [SensorData()], after any sequence of [add_room] and
    [add_car] calls each of the five sequences holds exactly the most recent
    [MAX_DATA_POINTS] = 100 values appended to it, so none is longer than
    that; an append to a full sequence drops exactly its oldest item; after
    101 ingests the first timestamp (and, when 101 smoke values were
    appended, the first smoke value) is gone; and in every state the server
    reaches every entity's sequences are within the capacity. *)
Theorem sample_sequences_bounded `{PyBuiltins} :
  (∀ l : list ingest,
     let d := ingest_all l (SensorData_init MAX_DATA_POINTS) in
     items (timestamps d) = lastn MAX_DATA_POINTS (map ts_of l)
     ∧ items (smoke d) = lastn MAX_DATA_POINTS (omap smoke_of l)
     ∧ items (co2 d) = lastn MAX_DATA_POINTS (omap co2_of l)
     ∧ items (fire d) = lastn MAX_DATA_POINTS (omap fire_of l)
     ∧ items (car_temp d) = lastn MAX_DATA_POINTS (omap temp_of l)
     ∧ within_capacity d)
  ∧ (∀ (x : float) (dq : deque float),
       maxlen dq = MAX_DATA_POINTS → length (items dq) = MAX_DATA_POINTS →
       items (deque_append x dq) = tail (items dq) ++ [x])
  ∧ (∀ (i0 : ingest) (rest : list ingest),
       length rest = MAX_DATA_POINTS →
       items (timestamps (ingest_all (i0 :: rest) (SensorData_init MAX_DATA_POINTS)))
       = map ts_of rest)
  ∧ (∀ (l : list ingest) (v0 : float) (vs : list float),
       omap smoke_of l = v0 :: vs → length vs = MAX_DATA_POINTS →
       items (smoke (ingest_all l (SensorData_init MAX_DATA_POINTS))) = vs)
  ∧ (∀ (ops : list op) (key : string) (d : SensorData),
       sensor_data (run_ops ops CloudServer_init) !! key = Some d →
       within_capacity d).
Proof.
  split; [|split; [|split; [|split]]].
  - intros l d. destruct (ingest_all_retains l) as (Hts & Hsm & Hco & Hfi & Hct).
    subst d. unfold within_capacity. rewrite Hts, Hsm, Hco, Hfi, Hct. simpl.
    rewrite !lastn_length. repeat split; lia.
  - intros x dq Hmax Hfull. apply deque_append_full; rewrite Hmax.
    + unfold MAX_DATA_POINTS. lia.
    + exact Hfull.
  - intros i0 rest Hlen.
    destruct (ingest_all_retains (i0 :: rest)) as (Hts & _). cbv zeta in Hts.
    rewrite Hts. cbn [items map]. apply lastn_cons_full.
    rewrite length_map. exact Hlen.
  - intros l v0 vs Hl Hlen.
    destruct (ingest_all_retains l) as (_ & Hsm & _). cbv zeta in Hsm.
    rewrite Hsm, Hl. cbn [items]. apply lastn_cons_full, Hlen.
  - intros ops key d Hd.
    destruct (store_ok_reachable ops) as [_ Hall].
    destruct (Hall key d Hd) as [Hwf _]. apply Hwf.
Qed.

Lemma sample_sequences_bounded_witness :
  items (timestamps (ingest_all example_ingests (SensorData_init MAX_DATA_POINTS)))
  = map ts_of (tail example_ingests).
Proof.
  destruct (@sample_sequences_bounded example_builtins) as (_ & _ & Hgone & _).
  apply (Hgone (AddRoom (float_of_nat 0) (Some (float_of_nat 0)) None None)
               (tail example_ingests)).
  vm_compute. reflexivity.
Defined.

(** ** Alignment of an entity's sequences *)

Lemma store_ok_lookup (m : gmap string SensorData) (key : string) :
  store_ok m → key ∈ four_keys → ∃ d, m !! key = Some d ∧ entity_ok key d.
Proof.
  intros [Hdom Hall] Hk. rewrite <- Hdom in Hk.
  apply elem_of_dom in Hk as [d Hd]. exists d. split; [exact Hd|].
  apply (Hall key d Hd).
Qed.


(** ** Reading off what a computation returned *)

Lemma bind_Ok_inv {A B : Type} (m : M A) (f : A → M B) (s s2 : CloudServer) (b : B) :
  (m ≫= f) s = (Ok b, s2) → ∃ a s1, m s = (Ok a, s1) ∧ f a s1 = (Ok b, s2).
Proof.
  unfold mbind, M_bind. destruct (m s) as [[a|e] s1]; intros Hb.
  - exists a, s1. split; [reflexivity | exact Hb].
  - discriminate.
Qed.

Lemma lift_Ok_inv {A : Type} (o : outcome A) (s s1 : CloudServer) (a : A) :
  lift o s = (Ok a, s1) → o = Ok a ∧ s1 = s.
Proof. unfold lift. intros Hl. injection Hl as -> ->. split; reflexivity. Qed.

Lemma sensor_data_touch (r : shared) (s : CloudServer) :
  sensor_data (exec (touch r) s) = sensor_data s.
Proof. unfold exec, touch, modify. simpl. destruct (lock_held s); reflexivity. Qed.

Lemma entity_Ok_inv (key : string) (s s1 : CloudServer) (d : SensorData) :
  entity key s = (Ok d, s1) →
  sensor_data s !! key = Some d ∧ sensor_data s1 = sensor_data s.
Proof.
  unfold entity. destruct (sensor_data s !! key) as [d'|]; intros He.
  - injection He as -> <-. split; [reflexivity | apply sensor_data_touch].
  - discriminate.
Qed.

Lemma entity_update_Ok_inv (key : string) (f : SensorData → SensorData)
    (s s1 : CloudServer) (u : unit) :
  entity_update key f s = (Ok u, s1) →
  ∃ d, sensor_data s !! key = Some d
       ∧ sensor_data s1 = <[key := f d]> (sensor_data s).
Proof.
  unfold entity_update. intros Hu.
  apply bind_Ok_inv in Hu as (d & s0 & He & Hm).
  apply entity_Ok_inv in He as [Hd Hs0]. exists d. split; [exact Hd|].
  unfold modify in Hm. injection Hm as Hm. subst s1.
  cbn [sensor_data with_sensor_data]. rewrite Hs0. reflexivity.
Qed.

(** ** The alarm latch *)

Lemma latched_upd_keep (k key : string) (f : SensorData → SensorData) :
  (∀ d, alarm_status d = true → alarm_status (f d) = true) →
  upd_ok (keeps (latched k)) key f.
Proof.
  intros Hf s d Hd. unfold keeps, latched. simpl.
  destruct (decide (key = k)) as [->|Hne].
  - rewrite lookup_insert_eq, Hd. simpl. intros Hl. f_equal. apply Hf. congruence.
  - rewrite lookup_insert_ne by exact Hne. intros Hl. exact Hl.
Qed.

Lemma latched_upd_other (k key : string) (f : SensorData → SensorData) :
  key ≠ k → upd_ok (keeps (latched k)) key f.
Proof.
  intros Hne s d Hd. unfold keeps, latched. simpl.
  rewrite lookup_insert_ne by exact Hne. intros Hl. exact Hl.
Qed.

Lemma latched_data_update (k key : string) (f : SensorData → SensorData) :
  data_update key f → upd_ok (keeps (latched k)) key f.
Proof.
  intros Hu. apply latched_upd_keep.
  destruct Hu; intros d Hd; simpl; solve [exact Hd | reflexivity].
Qed.

Lemma latched_op_ok (k : string) (o : op) :
  clears_alarm k o = false → op_ok (keeps (latched k)) o.
Proof.
  destruct o as [| | | |name params|device state| |]; simpl; try (intros; exact I).
  - intros Hc ->. simpl in Hc.
    assert (Hk1 : "1200400"%string ≠ k) by (intros <-; discriminate).
    assert (Hk2 : "1211371"%string ≠ k) by (intros <-; discriminate).
    split; apply latched_upd_other; assumption.
  - intros Hc Hp. rewrite Hp, andb_true_r in Hc.
    destruct state; simpl in Hc.
    + apply latched_upd_keep. intros d _. reflexivity.
    + apply latched_upd_other. apply String.eqb_neq. exact Hc.
Qed.

(** Once latched, the alarm of [k] stays on along operations that do not
    clear it. *)
Lemma latched_run_ops `{PyBuiltins} (k : string) (ops : list op) (s : CloudServer) :
  Forall (λ o, clears_alarm k o = false) ops →
  alarm_of k s = Some true → alarm_of k (run_ops ops s) = Some true.
Proof.
  intros Hops. apply (run_ops_steps (keeps (latched k))).
  - apply keeps_store_only.
  - apply latched_data_update.
  - eapply Forall_impl; [exact Hops|]. intros o Ho. apply latched_op_ok, Ho.
Qed.

Lemma latched_steps `{PyBuiltins} {A : Type} (k : string) (m : M A)
    (s s1 : CloudServer) (r : outcome A) :
  steps (keeps (latched k)) m → m s = (r, s1) →
  alarm_of k s = Some true → alarm_of k s1 = Some true.
Proof. intros Hm Hr. specialize (Hm s). rewrite Hr in Hm. exact Hm. Qed.

Ltac latched_premises k :=
  pose proof (so_pre _ (keeps_store_only (latched k)));
  pose proof (so_env _ (keeps_store_only (latched k)));
  pose proof (so_events _ (keeps_store_only (latched k)));
  pose proof (latched_data_update k).

Lemma check_thresholds_latches `{PyBuiltins} (key : string) (v : float)
    (e1 e2 : string) (s s1 : CloudServer) (u : unit) :
  PrimFloat.leb ALARM_THRESHOLD v = true →
  check_thresholds key v e1 e2 s = (Ok u, s1) →
  alarm_of key s1 = Some true.
Proof.
  intros Hv Hc. unfold check_thresholds in Hc. rewrite Hv in Hc.
  cbn [and_then] in Hc.
  apply bind_Ok_inv in Hc as (due & s2 & Hdue & Hc).
  apply bind_Ok_inv in Hdue as (d & s2' & He & Hr).
  injection Hr as <- ->.
  apply entity_Ok_inv in He as [Hd Hs2].
  apply bind_Ok_inv in Hc as (u1 & s3 & Hw & Hrest).
  assert (H3 : alarm_of key s3 = Some true).
  { destruct (alarm_status d) eqn:Hal; cbn [negb when] in Hw.
    - injection Hw as _ <-. unfold alarm_of. rewrite Hs2, Hd. simpl. congruence.
    - apply bind_Ok_inv in Hw as (u2 & s4 & Hu & Hev).
      apply entity_update_Ok_inv in Hu as (d' & _ & Hs4).
      latched_premises key.
      eapply (latched_steps key (add_event e1)); [|exact Hev|].
      + apply add_event_steps; assumption.
      + unfold alarm_of. rewrite Hs4, lookup_insert_eq. reflexivity. }
  latched_premises key.
  eapply (latched_steps key); [|exact Hrest|exact H3].
  steps_tac; first [ apply add_event_steps; assumption
                   | apply latched_data_update; constructor ].
Qed.

Lemma sensor_float_run `{PyBuiltins} (sensors : list (string * pyval)) (key : string)
    (default : float) (x : pyval) (v : float) (s : CloudServer) :
  assoc key sensors = Some x → py_float x = Ok v →
  sensor_float (PDict sensors) key default s = (Ok v, s).
Proof.
  intros Hx Hv. unfold sensor_float, mbind, M_bind, lift. simpl.
  rewrite Hx. simpl. rewrite Hv. reflexivity.
Qed.

(** The block of a room latches the alarm when it runs to its end on a
    smoke value at or above the threshold. *)
Lemma on_data_room_latches `{PyBuiltins} (key k1 k2 k3 e1 e2 : string)
    (sensors : list (string * pyval)) (ts : float) (x : pyval) (v : float)
    (s s1 : CloudServer) (u : unit) :
  assoc k1 sensors = Some x → py_float x = Ok v →
  PrimFloat.leb ALARM_THRESHOLD v = true →
  _on_data_room key k1 k2 k3 e1 e2 (PDict sensors) ts s = (Ok u, s1) →
  alarm_of key s1 = Some true.
Proof.
  intros Hx Hv Hth Hr. unfold _on_data_room in Hr.
  apply bind_Ok_inv in Hr as (present & s0 & Hp & Hr).
  assert (present = true ∧ s0 = s) as [-> ->].
  { unfold or_else, mbind, M_bind, lift in Hp. simpl in Hp.
    rewrite Hx in Hp. rewrite bool_decide_true in Hp by eauto.
    injection Hp as <- <-. split; reflexivity. }
  cbn [when] in Hr.
  apply bind_Ok_inv in Hr as (smoke0 & s2 & Hs & Hr).
  rewrite (sensor_float_run sensors k1 _ x v s Hx Hv) in Hs.
  injection Hs as <- <-.
  apply bind_Ok_inv in Hr as (co20 & s3 & _ & Hr).
  apply bind_Ok_inv in Hr as (fire0 & s4 & _ & Hr).
  apply bind_Ok_inv in Hr as (u1 & s5 & _ & Hr).
  eapply check_thresholds_latches; eassumption.
Qed.

Lemma on_data_body_latches_room1 `{PyBuiltins} (data : pyval)
    (sensors : list (string * pyval)) (x : pyval) (v : float) (s s1 : CloudServer) :
  py_get data "sensors" (PDict []) = Ok (PDict sensors) →
  assoc "smoke1" sensors = Some x → py_float x = Ok v →
  PrimFloat.leb ALARM_THRESHOLD v = true →
  _on_data_body data s = (Ok tt, s1) →
  alarm_of "1200400" s1 = Some true.
Proof.
  intros Hsen Hx Hv Hth Hb. unfold _on_data_body in Hb.
  apply bind_Ok_inv in Hb as (seq0 & sa & _ & Hb).
  apply bind_Ok_inv in Hb as (gw & sb & _ & Hb).
  apply bind_Ok_inv in Hb as (sv & sc & Hsv & Hb).
  apply lift_Ok_inv in Hsv as [Hsv _]. rewrite Hsen in Hsv. injection Hsv as <-.
  apply bind_Ok_inv in Hb as (cur & sd & _ & Hb).
  apply bind_Ok_inv in Hb as (m & se & _ & Hb).
  apply bind_Ok_inv in Hb as (u1 & sf & _ & Hb).
  apply bind_Ok_inv in Hb as (u2 & sg & _ & Hb).
  apply bind_Ok_inv in Hb as (n & sh & _ & Hb).
  apply bind_Ok_inv in Hb as (u3 & si & _ & Hb).
  apply bind_Ok_inv in Hb as (ts & sj & _ & Hb).
  apply bind_Ok_inv in Hb as (u4 & sk & Hroom & Hb).
  pose proof (on_data_room_latches _ _ _ _ _ _ _ _ _ _ _ _ _ Hx Hv Hth Hroom) as Ha.
  latched_premises "1200400"%string.
  eapply (latched_steps "1200400"); [|exact Hb|exact Ha].
  steps_tac; first [ apply on_data_room_steps; solve [assumption | reflexivity]
                   | apply on_data_car_steps; solve [assumption | reflexivity] ].
Qed.

Lemma on_data_body_latches_room2 `{PyBuiltins} (data : pyval)
    (sensors : list (string * pyval)) (x : pyval) (v : float) (s s1 : CloudServer) :
  py_get data "sensors" (PDict []) = Ok (PDict sensors) →
  assoc "smoke2" sensors = Some x → py_float x = Ok v →
  PrimFloat.leb ALARM_THRESHOLD v = true →
  _on_data_body data s = (Ok tt, s1) →
  alarm_of "1211371" s1 = Some true.
Proof.
  intros Hsen Hx Hv Hth Hb. unfold _on_data_body in Hb.
  apply bind_Ok_inv in Hb as (seq0 & sa & _ & Hb).
  apply bind_Ok_inv in Hb as (gw & sb & _ & Hb).
  apply bind_Ok_inv in Hb as (sv & sc & Hsv & Hb).
  apply lift_Ok_inv in Hsv as [Hsv _]. rewrite Hsen in Hsv. injection Hsv as <-.
  apply bind_Ok_inv in Hb as (cur & sd & _ & Hb).
  apply bind_Ok_inv in Hb as (m & se & _ & Hb).
  apply bind_Ok_inv in Hb as (u1 & sf & _ & Hb).
  apply bind_Ok_inv in Hb as (u2 & sg & _ & Hb).
  apply bind_Ok_inv in Hb as (n & sh & _ & Hb).
  apply bind_Ok_inv in Hb as (u3 & si & _ & Hb).
  apply bind_Ok_inv in Hb as (ts & sj & _ & Hb).
  apply bind_Ok_inv in Hb as (u4 & sk & _ & Hb).
  apply bind_Ok_inv in Hb as (u5 & sl & Hroom & Hb).
  pose proof (on_data_room_latches _ _ _ _ _ _ _ _ _ _ _ _ _ Hx Hv Hth Hroom) as Ha.
  latched_premises "1211371"%string.
  eapply (latched_steps "1211371"); [|exact Hb|exact Ha].
  steps_tac; apply on_data_car_steps; solve [assumption | reflexivity].
Qed.

(** *** At most one rising edge *)

Lemma run_trace_head `{PyBuiltins} (ops : list op) (s : CloudServer) :
  ∃ rest, run_trace ops s = s :: rest.
Proof. destruct ops; simpl; eauto. Qed.

Lemma latched_run_op `{PyBuiltins} (k : string) (o : op) (s : CloudServer) :
  clears_alarm k o = false →
  alarm_on k s = true → alarm_on k (run_op o s) = true.
Proof.
  intros Ho Hs. unfold alarm_on in *.
  apply bool_decide_eq_true in Hs. apply bool_decide_eq_true.
  apply (latched_run_ops k [o] s); [|exact Hs].
  constructor; [exact Ho | constructor].
Qed.

Lemma latched_run_trace `{PyBuiltins} (k : string) (ops : list op) (s : CloudServer) :
  Forall (λ o, clears_alarm k o = false) ops →
  alarm_on k s = true →
  Forall (λ st, alarm_on k st = true) (run_trace ops s).
Proof.
  intros Hops. revert s. induction Hops as [|o ops Ho Hops IH]; intros s Hs; simpl.
  - constructor; [exact Hs | constructor].
  - constructor; [exact Hs|]. apply IH, latched_run_op; assumption.
Qed.

Lemma rising_all_true (flags : list bool) :
  Forall (λ b, b = true) flags → rising flags = 0.
Proof.
  induction 1 as [|b flags Hb Hflags IH]; [reflexivity|].
  subst b. simpl. exact IH.
Qed.

Lemma rising_at_most_once `{PyBuiltins} (k : string) (ops : list op) (s : CloudServer) :
  Forall (λ o, clears_alarm k o = false) ops →
  rising (map (alarm_on k) (run_trace ops s)) ≤ 1.
Proof.
  intros Hops. revert s. induction Hops as [|o ops Ho Hops IH]; intros s.
  - simpl. destruct (alarm_on k s); simpl; lia.
  - cbn [run_trace map]. specialize (IH (run_op o s)).
    destruct (alarm_on k s) eqn:Hs.
    + rewrite rising_all_true; [lia|].
      apply Forall_cons. split; [reflexivity|].
      apply Forall_map.
      apply (latched_run_trace k ops (run_op o s) Hops).
      apply latched_run_op; assumption.
    + destruct (run_trace_head ops (run_op o s)) as [rest Hrest].
      rewrite Hrest in *. cbn [map] in *.
      destruct (alarm_on k (run_op o s)) eqn:Hs'.
      * cbn [rising]. rewrite rising_all_true; [lia|].
        pose proof (latched_run_trace k ops (run_op o s) Hops Hs') as Hall.
        rewrite Hrest in Hall. apply Forall_cons in Hall as [_ Hall].
        apply Forall_map. exact Hall.
      * cbn [rising]. cbn [rising] in IH. exact IH.
Qed.

(** ** Running a computation forward *)

Lemma run_bind {A B : Type} (m : M A) (f : A → M B) (s s1 : CloudServer) (a : A) :
  m s = (Ok a, s1) → (m ≫= f) s = f a s1.
Proof. intros Hm. unfold mbind, M_bind. rewrite Hm. reflexivity. Qed.

Lemma entity_run `{PyBuiltins} (key : string) (s : CloudServer) (d : SensorData) :
  sensor_data s !! key = Some d →
  entity key s = (Ok d, exec (touch EntityStore) s).
Proof. intros Hd. unfold entity. rewrite Hd. reflexivity. Qed.

Lemma entity_update_run `{PyBuiltins} (key : string) (f : SensorData → SensorData)
    (s : CloudServer) (d : SensorData) :
  sensor_data s !! key = Some d →
  ∃ s1, entity_update key f s = (Ok tt, s1)
        ∧ sensor_data s1 = <[key := f d]> (sensor_data s).
Proof.
  intros Hd. unfold entity_update. rewrite (run_bind _ _ _ _ _ (entity_run key s d Hd)).
  eexists. split; [reflexivity|].
  cbn [sensor_data with_sensor_data]. rewrite sensor_data_touch. reflexivity.
Qed.

Lemma add_event_run `{PyBuiltins} (msg : string) (s : CloudServer) :
  ∃ s1, add_event msg s = (Ok tt, s1) ∧ sensor_data s1 = sensor_data s.
Proof.
  eexists. split; [reflexivity|].
  cbn [sensor_data with_events].
  etransitivity; [apply sensor_data_touch | reflexivity].
Qed.

(** A broadcast never raises and leaves the entity store alone. *)
Lemma send_each_run `{PyBuiltins} (command msg : string)
    (targets : list (addr * session)) (s : CloudServer) :
  ∃ s1, send_each command msg targets s = (Ok tt, s1)
        ∧ sensor_data s1 = sensor_data s ∧ lock_held s1 = lock_held s.
Proof.
  revert s. induction targets as [|[a [[sock t] gw]] targets IH]; intros s.
  - exists s. repeat split.
  - cbn [send_each].
    assert (∃ s0, try_except (sock_sendall sock msg;; logger_info (LogSent command a))
                    (λ e, logger_info (LogSendFailed command a e)) s = (Ok tt, s0)
                  ∧ sensor_data s0 = sensor_data s ∧ lock_held s0 = lock_held s)
      as (s0 & Hs0 & Hd0 & Hl0).
    { unfold try_except, mbind, M_bind, sock_sendall.
      case_bool_decide; eexists; repeat split. }
    rewrite (run_bind _ _ _ _ _ Hs0).
    destruct (IH s0) as (s1 & Hs1 & Hd1 & Hl1).
    exists s1. rewrite Hs1, Hd1, Hl1, Hd0, Hl0. repeat split.
Qed.

Lemma send_control_all_run `{PyBuiltins} (command : string)
    (params : list (string * pyval)) (s : CloudServer) :
  ∃ s1, _send_control_all command params s = (Ok tt, s1)
        ∧ sensor_data s1 = sensor_data s.
Proof.
  unfold _send_control_all, with_lock, mbind, M_bind, time_time, touch, modify, gets.
  cbn [lock_held with_lock_held with_ticks].
  match goal with |- context [send_each ?c ?m ?t ?s0] =>
    destruct (send_each_run c m t s0) as (s1 & Hs1 & Hd1 & _); rewrite Hs1
  end.
  eexists. split; [reflexivity|]. cbn [sensor_data with_lock_held]. rewrite Hd1.
  reflexivity.
Qed.

(** *** Clearing the latch *)

Lemma control_device_alarm `{PyBuiltins} (room : string) (state : bool)
    (s : CloudServer) (d : SensorData) :
  sensor_data s !! room = Some d →
  alarm_of room (exec (_control_device ("ALARM_" +:+ room) state) s) = Some state.
Proof.
  intros Hd. unfold _control_device.
  change (startswith ("ALARM_" +:+ room) "ALARM_") with true.
  change (str_drop 6 ("ALARM_" +:+ room)) with room.
  cbv iota. unfold exec.
  rewrite (run_bind (touch EntityStore) _ s (exec (touch EntityStore) s) tt eq_refl).
  rewrite (run_bind (gets _) _ _ _ _ eq_refl).
  rewrite bool_decide_true by (rewrite sensor_data_touch, Hd; eauto).
  cbn [when].
  destruct (entity_update_run room (set_alarm_status state)
              (exec (touch EntityStore) s) d) as (s1 & Hs1 & Hd1).
  { rewrite sensor_data_touch. exact Hd. }
  rewrite (run_bind _ _ _ _ _ Hs1).
  destruct (add_event_run ("🔔 " +:+ ("ALARM_" +:+ room) +:+ " -> " +:+ on_off state) s1)
    as (s2 & Hs2 & Hd2).
  rewrite Hs2. cbn [snd]. unfold alarm_of.
  rewrite Hd2, Hd1, lookup_insert_eq. reflexivity.
Qed.

Lemma when_update_event_run `{PyBuiltins} (c : bool) (key msg : string)
    (f : SensorData → SensorData) (s : CloudServer) (d : SensorData) :
  sensor_data s !! key = Some d →
  ∃ s1, when c (entity_update key f;; add_event msg) s = (Ok tt, s1)
        ∧ sensor_data s1 = if c then <[key := f d]> (sensor_data s) else sensor_data s.
Proof.
  intros Hd. destruct c; cbn [when].
  - destruct (entity_update_run key f s d Hd) as (s1 & Hs1 & Hd1).
    rewrite (run_bind _ _ _ _ _ Hs1).
    destruct (add_event_run msg s1) as (s2 & Hs2 & Hd2).
    exists s2. split; [exact Hs2 | congruence].
  - exists s. split; reflexivity.
Qed.

Lemma normal_room_run `{PyBuiltins} (room : string) (s : CloudServer) (d : SensorData) :
  sensor_data s !! room = Some d →
  ∃ s1 d1, normal_room room s = (Ok tt, s1)
           ∧ sensor_data s1 !! room = Some d1 ∧ alarm_status d1 = false
           ∧ ∀ k, k ≠ room → sensor_data s1 !! k = sensor_data s !! k.
Proof.
  intros Hd. unfold normal_room.
  rewrite (run_bind _ _ _ _ _ (entity_run room s d Hd)).
  destruct (when_update_event_run (alarm_status d) room
              ("🔔 ALARM_" +:+ room +:+ " -> OFF") (set_alarm_status false)
              (exec (touch EntityStore) s) d) as (s1 & Hs1 & Hd1).
  { rewrite sensor_data_touch. exact Hd. }
  rewrite (run_bind _ _ _ _ _ Hs1). rewrite sensor_data_touch in Hd1.
  assert (∃ d1, sensor_data s1 !! room = Some d1 ∧ alarm_status d1 = false
                ∧ ∀ k, k ≠ room → sensor_data s1 !! k = sensor_data s !! k)
    as (d1 & Hl1 & Ha1 & Hk1).
  { rewrite Hd1. destruct (alarm_status d) eqn:Ha.
    - exists (set_alarm_status false d). rewrite lookup_insert_eq.
      repeat split. intros k Hk. apply lookup_insert_ne. congruence.
    - exists d. repeat split; assumption. }
  rewrite (run_bind _ _ _ _ _ (entity_run room s1 d1 Hl1)).
  destruct (when_update_event_run (sprinkler_status d1) room
              ("💦 SPRINKLER_" +:+ room +:+ " -> OFF") (set_sprinkler_status false)
              (exec (touch EntityStore) s1) d1) as (s2 & Hs2 & Hd2).
  { rewrite sensor_data_touch. exact Hl1. }
  rewrite sensor_data_touch in Hd2. rewrite Hs2.
  destruct (sprinkler_status d1).
  - exists s2, (set_sprinkler_status false d1). rewrite Hd2, lookup_insert_eq.
    repeat split; [exact Ha1|]. intros k Hk.
    rewrite lookup_insert_ne by congruence. apply Hk1, Hk.
  - exists s2, d1. rewrite Hd2. repeat split; assumption.
Qed.

Lemma normal_car_run `{PyBuiltins} (car upper : string) (s : CloudServer) (d : SensorData) :
  sensor_data s !! car = Some d →
  ∃ s1, normal_car car upper s = (Ok tt, s1)
        ∧ ∀ k, k ≠ car → sensor_data s1 !! k = sensor_data s !! k.
Proof.
  intros Hd. unfold normal_car.
  rewrite (run_bind _ _ _ _ _ (entity_run car s d Hd)).
  destruct (when_update_event_run (negb (py_eq (car_status d) (PStr "PARKED"))) car
              ("🚗 " +:+ upper +:+ " " +:+ py_str (car_status d) +:+ " -> PARKED")
              (set_car_status (PStr "PARKED"))
              (exec (touch EntityStore) s) d) as (s1 & Hs1 & Hd1).
  { rewrite sensor_data_touch. exact Hd. }
  rewrite sensor_data_touch in Hd1. exists s1. split; [exact Hs1|].
  intros k Hk. rewrite Hd1. destruct (negb _); [|reflexivity].
  apply lookup_insert_ne. congruence.
Qed.

(** The reset scenario switches the alarm of both rooms off. *)
Lemma scenario_normal_clears `{PyBuiltins} (params : list (string * pyval))
    (room : string) (s : CloudServer) :
  store_ok (sensor_data s) → is_room room = true →
  alarm_of room (exec (_scenario_normal params) s) = Some false.
Proof.
  intros Hok Hroom. unfold _scenario_normal, exec.
  destruct (send_control_all_run "SCENARIO" [("name"%string, PStr "normal")] s)
    as (s0 & Hs0 & Hd0).
  rewrite (run_bind _ _ _ _ _ Hs0). rewrite <- Hd0 in Hok.
  destruct (store_ok_lookup _ "1200400" Hok) as (dA & HA & _);
    [unfold four_keys; set_solver|].
  destruct (store_ok_lookup _ "1211371" Hok) as (dB & HB & _);
    [unfold four_keys; set_solver|].
  destruct (store_ok_lookup _ "car1" Hok) as (d1 & H1 & _);
    [unfold four_keys; set_solver|].
  destruct (store_ok_lookup _ "car2" Hok) as (d2 & H2 & _);
    [unfold four_keys; set_solver|].
  destruct (normal_room_run "1200400" s0 dA HA) as (sA & dA' & HsA & HlA & HaA & HkA).
  rewrite (run_bind _ _ _ _ _ HsA).
  rewrite <- (HkA "1211371") in HB by discriminate.
  destruct (normal_room_run "1211371" sA dB HB) as (sB & dB' & HsB & HlB & HaB & HkB).
  rewrite (run_bind _ _ _ _ _ HsB).
  rewrite <- (HkA "car1"), <- (HkB "car1") in H1 by discriminate.
  destruct (normal_car_run "car1" "CAR1" sB d1 H1) as (s1 & Hs1 & Hk1).
  rewrite (run_bind _ _ _ _ _ Hs1).
  rewrite <- (HkA "car2"), <- (HkB "car2"), <- (Hk1 "car2") in H2 by discriminate.
  destruct (normal_car_run "car2" "CAR2" s1 d2 H2) as (s2 & Hs2 & Hk2).
  rewrite Hs2. cbn [snd]. unfold alarm_of.
  unfold is_room in Hroom. apply orb_true_iff in Hroom.
  destruct Hroom as [Hr|Hr]; apply String.eqb_eq in Hr; subst room.
  - rewrite Hk2, Hk1, HkB, HlA by discriminate. simpl. rewrite HaA. reflexivity.
  - rewrite Hk2, Hk1, HlB by discriminate. simpl. rewrite HaB. reflexivity.
Qed.

Lemma on_data_body_Ok `{PyBuiltins} (data : pyval) (s s1 : CloudServer) :
  _on_data_body data s = (Ok tt, s1) → exec (_on_data data) s = s1.
Proof. intros Hb. unfold exec, _on_data, try_except. rewrite Hb. reflexivity. Qed.

(** C1.  For room 1200400 (smoke key [smoke1]) and room 1211371 (smoke key
    [smoke2]): when [_on_data] processes a message to its end whose sensors
    carry a smoke value at or above [ALARM_THRESHOLD], the room's
    [alarm_status] is true afterwards; once true it stays true along every
    sequence of server operations (further DATA of any values, scenarios,
    broadcasts, ...) that contains neither [control ALARM_<room> off] nor the
    scenario [normal]; along such a sequence the flag goes from false to
    true at most once; and those two operations do set it false. *)
Theorem alarm_latch `{PyBuiltins} (room smoke_key : string) :
  (room, smoke_key) ∈ [("1200400", "smoke1"); ("1211371", "smoke2")] →
  (∀ (data : pyval) (sensors : list (string * pyval)) (x : pyval) (v : float)
     (s s1 : CloudServer),
     py_get data "sensors" (PDict []) = Ok (PDict sensors) →
     assoc smoke_key sensors = Some x → py_float x = Ok v →
     PrimFloat.leb ALARM_THRESHOLD v = true →
     _on_data_body data s = (Ok tt, s1) →
     exec (_on_data data) s = s1 ∧ alarm_of room s1 = Some true)
  ∧ (∀ (s : CloudServer) (ops : list op),
       alarm_of room s = Some true →
       Forall (λ o, clears_alarm room o = false) ops →
       alarm_of room (run_ops ops s) = Some true)
  ∧ (∀ (s : CloudServer) (ops : list op),
       Forall (λ o, clears_alarm room o = false) ops →
       rising (map (alarm_on room) (run_trace ops s)) ≤ 1)
  ∧ (∀ (ops0 : list op) (params : list (string * pyval)),
       let s := run_ops ops0 CloudServer_init in
       alarm_of room (exec (_control_device ("ALARM_" +:+ room) false) s) = Some false
       ∧ alarm_of room (exec (_scenario_normal params) s) = Some false).
Proof.
  intros Hroom.
  assert (Hcases : (room = "1200400" ∧ smoke_key = "smoke1")
                   ∨ (room = "1211371" ∧ smoke_key = "smoke2")).
  { apply elem_of_cons in Hroom as [Heq|Hroom]; [left; split; congruence|].
    apply elem_of_cons in Hroom as [Heq|Hroom]; [right; split; congruence|].
    apply elem_of_nil in Hroom. contradiction. }
  assert (Hisroom : is_room room = true)
    by (destruct Hcases as [[-> _]|[-> _]]; reflexivity).
  split; [|split; [|split]].
  - intros data sensors x v s s1 Hsen Hx Hv Hth Hb.
    split; [apply on_data_body_Ok, Hb|].
    destruct Hcases as [[-> ->]|[-> ->]].
    + eapply on_data_body_latches_room1; eassumption.
    + eapply on_data_body_latches_room2; eassumption.
  - intros s ops Hs Hops. apply latched_run_ops; assumption.
  - intros s ops Hops. apply rising_at_most_once, Hops.
  - intros ops0 params s.
    pose proof (store_ok_reachable ops0) as Hok. fold s in Hok.
    split.
    + destruct (store_ok_lookup _ room Hok) as (d & Hd & _).
      { unfold four_keys. destruct Hcases as [[-> _]|[-> _]]; set_solver. }
      apply (control_device_alarm room false s d Hd).
    + apply scenario_normal_clears; assumption.
Qed.

Lemma alarm_latch_witness :
  alarm_of "1200400"
    (exec
       (@_on_data_body example_builtins
          (PDict [("type", PStr "DATA"); ("gateway_id", PStr "GW-1"); ("seq", PInt 3);
                  ("sensors", PDict [("smoke1", PFloat 70.5)])]))
       example_init)
  = Some true.
Proof.
  pose proof (@alarm_latch example_builtins "1200400" "smoke1") as Hlatch.
  destruct Hlatch as (Hon & _).
  - constructor.
  - eapply (Hon (PDict [("type"%string, PStr "DATA"); ("gateway_id"%string, PStr "GW-1");
                        ("seq"%string, PInt 3);
                        ("sensors"%string, PDict [("smoke1"%string, PFloat 70.5)])])
                [("smoke1"%string, PFloat 70.5)] (PFloat 70.5) 70.5%float example_init).
    + reflexivity.
    + reflexivity.
    + reflexivity.
    + reflexivity.
    + vm_compute. reflexivity.
Defined.

(** ** The session registry under message processing *)

Lemma clients_same_pre : PreOrder clients_same.
Proof.
  split.
  - intros s. reflexivity.
  - intros s1 s2 s3 H12 H23. unfold clients_same in *. congruence.
Qed.

Lemma clients_same_env : ignores_env clients_same.
Proof. split; intros v s; reflexivity. Qed.

Lemma clients_same_upd (key : string) (f : SensorData → SensorData) :
  upd_ok clients_same key f.
Proof. intros s d _. reflexivity. Qed.

(** Neither handler of a decoded message touches the registry. *)
Lemma on_data_clients `{PyBuiltins} (data : pyval) (s : CloudServer) :
  clients (exec (_on_data data) s) = clients s.
Proof.
  symmetry. apply (on_data_steps clients_same clients_same_pre clients_same_env).
  - intros v s0. reflexivity.
  - intros key f _. apply clients_same_upd.
Qed.

Lemma on_heartbeat_clients `{PyBuiltins} (data : pyval) (a : addr) (s : CloudServer) :
  clients (exec (_on_heartbeat data a) s) = clients s.
Proof.
  symmetry. apply (on_heartbeat_steps clients_same clients_same_pre clients_same_env).
Qed.

(** What [_process_message] does to the registry entry of a registered
    session on a line that decodes to a JSON object. *)
Lemma process_message_registry `{PyBuiltins} (sock : nat) (a : addr) (line : string)
    (d : list (string * pyval)) (s : CloudServer) (sk : nat) (t : float) (gw : pyval) :
  json_loads line = Some (PDict d) →
  clients s !! a = Some (sk, t, gw) →
  clients (exec (_process_message sock a line) s)
  = <[a := (sk, clock (ticks s), from_option id gw (assoc "gateway_id" d))]> (clients s).
Proof.
  intros Hj Hc. unfold exec, _process_message. rewrite Hj.
  match goal with |- context [with_lock ?body] =>
    assert (Hlock : ∃ s1, with_lock body s = (Ok tt, s1)
                          ∧ clients s1 = <[a := (sk, clock (ticks s),
                               from_option id gw (assoc "gateway_id" d))]> (clients s))
  end.
  { unfold with_lock, mbind, M_bind, touch, modify, gets.
    cbn [lock_held with_lock_held clients fst snd]. rewrite Hc.
    eexists. split; reflexivity. }
  destruct Hlock as (s1 & Hs1 & Hc1).
  rewrite (run_bind _ _ _ _ _ Hs1).
  rewrite (run_bind (lift (py_get (PDict d) "type" (PStr ""))) _ s1 s1 _ eq_refl).
  rewrite <- Hc1.
  destruct (py_eq _ (PStr "HEARTBEAT")); [apply on_heartbeat_clients|].
  destruct (py_eq _ (PStr "DATA")); [apply on_data_clients | reflexivity].
Qed.

Lemma process_message_registry_other `{PyBuiltins} (sock : nat) (a a' : addr)
    (line : string) (d : list (string * pyval)) (s : CloudServer)
    (sk : nat) (t : float) (gw : pyval) :
  json_loads line = Some (PDict d) →
  clients s !! a = Some (sk, t, gw) → a' ≠ a →
  clients (exec (_process_message sock a line) s) !! a' = clients s !! a'.
Proof.
  intros Hj Hc Hne. rewrite (process_message_registry sock a line d s sk t gw Hj Hc).
  apply dict_lookup_insert_ne. congruence.
Qed.

(** C7, as the code has it.  For a registered session, a line that decodes
    to a JSON object sets the session's last-activity time to the clock
    reading taken while the line is processed and its gateway identity to
    the message's [gateway_id] when the message has that key -- whatever the
    value, also an empty one or one that differs from an earlier message --
    and leaves the identity as it was otherwise.  After a run of such
    messages the identity is therefore that of the latest message that
    carried a [gateway_id]; the other sessions are untouched. *)
Theorem gateway_identity_latest `{PyBuiltins} (sock : nat) (a : addr) :
  (∀ (s : CloudServer) (sk : nat) (t : float) (gw : pyval) (line : string)
     (d : list (string * pyval)),
     clients s !! a = Some (sk, t, gw) →
     json_loads line = Some (PDict d) →
     clients (exec (_process_message sock a line) s)
     = <[a := (sk, clock (ticks s), from_option id gw (assoc "gateway_id" d))]>
         (clients s))
  ∧ (∀ (lines : list string) (ds : list (list (string * pyval)))
       (s : CloudServer) (sk : nat) (t : float) (gw : pyval),
       clients s !! a = Some (sk, t, gw) →
       Forall2 (λ line d, json_loads line = Some (PDict d)) lines ds →
       let s' := run_ops (map (OpProcessMessage sock a) lines) s in
       (∃ t', clients s' !! a = Some (sk, t', latest_gateway_id gw ds))
       ∧ ∀ a', a' ≠ a → clients s' !! a' = clients s !! a').
Proof.
  split.
  - intros s sk t gw line d Hc Hj. eapply process_message_registry; eassumption.
  - intros lines ds s sk t gw Hc Hall. revert s t gw Hc.
    induction Hall as [|line d lines ds Hj Hall IH]; intros s t gw Hc s'.
    + subst s'. simpl. split; [exists t; exact Hc | reflexivity].
    + subst s'. cbn [map].
      change (run_ops (OpProcessMessage sock a line :: map (OpProcessMessage sock a) lines) s)
        with (run_ops (map (OpProcessMessage sock a) lines)
                (exec (_process_message sock a line) s)).
      pose proof (process_message_registry sock a line d s sk t gw Hj Hc) as Hreg.
      assert (Hc' : clients (exec (_process_message sock a line) s) !! a
                    = Some (sk, clock (ticks s),
                            from_option id gw (assoc "gateway_id" d)))
        by (rewrite Hreg; apply dict_lookup_insert_eq).
      destruct (IH _ _ _ Hc') as [Hgw Hother].
      split; [exact Hgw|].
      intros a' Hne. rewrite (Hother a' Hne), Hreg.
      apply dict_lookup_insert_ne. congruence.
Qed.

Lemma gateway_identity_latest_witness :
  clients (exec (@_process_message example_builtins 1 example_addr msg_heartbeat1)
             example_accepted)
  = <[example_addr := (1, @clock example_builtins (ticks example_accepted), PStr "GW-1")]>
      (clients example_accepted).
Proof.
  destruct (@gateway_identity_latest example_builtins 1 example_addr) as [Hone _].
  apply (Hone example_accepted 1 (float_of_nat 1) (PStr "UNKNOWN") msg_heartbeat1
           [("type"%string, PStr "HEARTBEAT"); ("gateway_id"%string, PStr "GW-1");
            ("seq"%string, PInt 1)]).
  - vm_compute. reflexivity.
  - vm_compute. reflexivity.
Defined.

(** C7 as stated fails: a session whose first message says [GW-1] and whose
    second says [GW-2] is recorded as [GW-2]. *)
Lemma first_gateway_id_not_retained :
  gateway_of example_addr
    (@run_ops example_builtins [OpProcessMessage 1 example_addr msg_heartbeat1]
       example_accepted)
  = Some (PStr "GW-1")
  ∧ gateway_of example_addr
      (@run_ops example_builtins
         [OpProcessMessage 1 example_addr msg_heartbeat1;
          OpProcessMessage 1 example_addr msg_heartbeat2]
         example_accepted)
    = Some (PStr "GW-2").
Proof. split; vm_compute; reflexivity. Qed.

(** ** Broadcasting a control message *)

Lemma deliveries_cons (msg : string) (s : CloudServer) (a : addr) (sock : nat)
    (t : float) (gw : pyval) (targets : list (addr * session)) :
  deliveries msg s ((a, (sock, t, gw)) :: targets)
  = (if writable s sock then [(sock, msg)] else []) ++ deliveries msg s targets.
Proof. unfold deliveries. simpl. destruct (writable s sock); reflexivity. Qed.

Lemma send_log_cons (command : string) (s : CloudServer) (a : addr) (sock : nat)
    (t : float) (gw : pyval) (targets : list (addr * session)) :
  send_log command s ((a, (sock, t, gw)) :: targets)
  = (if writable s sock then LogSent command a else LogSendFailed command a OSError)
    :: send_log command s targets.
Proof. reflexivity. Qed.

Lemma writable_same (s s0 : CloudServer) (sock : nat) :
  closed_socks s0 = closed_socks s → broken_socks s0 = broken_socks s →
  writable s0 sock = writable s sock.
Proof. intros Hc Hb. unfold writable. rewrite Hc, Hb. reflexivity. Qed.

Lemma deliveries_same (msg : string) (s s0 : CloudServer)
    (targets : list (addr * session)) :
  closed_socks s0 = closed_socks s → broken_socks s0 = broken_socks s →
  deliveries msg s0 targets = deliveries msg s targets.
Proof. intros Hc Hb. unfold deliveries, writable. rewrite Hc, Hb. reflexivity. Qed.

Lemma send_log_same (command : string) (s s0 : CloudServer)
    (targets : list (addr * session)) :
  closed_socks s0 = closed_socks s → broken_socks s0 = broken_socks s →
  send_log command s0 targets = send_log command s targets.
Proof. intros Hc Hb. unfold send_log, writable. rewrite Hc, Hb. reflexivity. Qed.

(** One guarded write: it is delivered or its failure is logged, and the
    loop goes on either way. *)
Lemma send_one_effect `{PyBuiltins} (command msg : string) (a : addr) (sock : nat)
    (s : CloudServer) :
  ∃ s0,
    try_except (sock_sendall sock msg;; logger_info (LogSent command a))
      (λ e, logger_info (LogSendFailed command a e)) s = (Ok tt, s0)
    ∧ clients s0 = clients s
    ∧ closed_socks s0 = closed_socks s
    ∧ broken_socks s0 = broken_socks s
    ∧ outbox s0 = outbox s ++ (if writable s sock then [(sock, msg)] else [])
    ∧ log s0 = log s ++ [if writable s sock then LogSent command a
                          else LogSendFailed command a OSError].
Proof.
  unfold try_except, mbind, M_bind, sock_sendall, writable.
  destruct (decide (sock ∈ closed_socks s ∪ broken_socks s)) as [Hin|Hout].
  - rewrite (bool_decide_true _ Hin).
    rewrite bool_decide_false by tauto.
    eexists. rewrite app_nil_r. repeat split.
  - rewrite (bool_decide_false _ Hout).
    rewrite bool_decide_true by exact Hout.
    eexists. repeat split.
Qed.

Lemma send_each_effect `{PyBuiltins} (command msg : string)
    (targets : list (addr * session)) (s : CloudServer) :
  ∃ s1, send_each command msg targets s = (Ok tt, s1)
        ∧ clients s1 = clients s
        ∧ closed_socks s1 = closed_socks s
        ∧ broken_socks s1 = broken_socks s
        ∧ outbox s1 = outbox s ++ deliveries msg s targets
        ∧ log s1 = log s ++ send_log command s targets.
Proof.
  revert s. induction targets as [|[a [[sock t] gw]] targets IH]; intros s.
  - exists s. unfold deliveries, send_log. simpl. rewrite !app_nil_r. repeat split.
  - cbn [send_each].
    destruct (send_one_effect command msg a sock s)
      as (s0 & Hs0 & Hc0 & Hcl0 & Hbr0 & Hout0 & Hlog0).
    rewrite (run_bind _ _ _ _ _ Hs0).
    destruct (IH s0) as (s1 & Hs1 & Hc1 & Hcl1 & Hbr1 & Hout1 & Hlog1).
    exists s1. split; [exact Hs1|].
    rewrite Hc1, Hcl1, Hbr1, Hout1, Hlog1, Hc0, Hcl0, Hbr0, Hout0, Hlog0.
    rewrite deliveries_cons, send_log_cons.
    rewrite (deliveries_same msg s s0 targets Hcl0 Hbr0).
    rewrite (send_log_same command s s0 targets Hcl0 Hbr0).
    rewrite <- !app_assoc. repeat split.
Qed.

Lemma send_control_all_effect `{PyBuiltins} (command : string)
    (params : list (string * pyval)) (s : CloudServer) :
  let msg := control_text command params (clock (ticks s)) in
  let targets := dict_items (clients s) in
  ∃ s1, _send_control_all command params s = (Ok tt, s1)
        ∧ clients s1 = clients s
        ∧ outbox s1 = outbox s ++ deliveries msg s targets
        ∧ log s1 = log s ++ send_log command s targets.
Proof.
  intros msg targets.
  unfold _send_control_all, with_lock, mbind, M_bind, time_time, touch, modify, gets.
  cbn [lock_held with_lock_held with_ticks clients].
  match goal with |- context [send_each ?c ?m ?t ?s0] =>
    destruct (send_each_effect c m t s0) as (s1 & Hs1 & Hc1 & _ & _ & Hout1 & Hlog1);
    rewrite Hs1
  end.
  eexists. split; [reflexivity|].
  cbn [clients outbox log with_lock_held]. rewrite Hc1, Hout1, Hlog1.
  repeat split.
Qed.




(** ** The connection handler *)

Lemma step_gate_free (s : CloudServer) :
  wait_for_step s = false → step_gate s = Some s.
Proof. intros Hw. unfold step_gate. rewrite Hw. reflexivity. Qed.

Lemma client_loop_finally_effect `{PyBuiltins} (sock : nat) (a : addr) (s : CloudServer) :
  let s' := exec (_client_loop_finally sock a) s in
  clients s' = delete a (clients s)
  ∧ closed_socks s' = {[sock]} ∪ closed_socks s
  ∧ sensor_data s' = sensor_data s
  ∧ events s' = events s
  ∧ outbox s' = outbox s
  ∧ log s' = log s ++ [LogClosed a].
Proof. repeat split. Qed.




(** ** Scenarios against the data path *)

(** C8, evaluated.  The server starts with car1 in status UNKNOWN.  The
    scenario [car1] then logs the transition as PARKED -> RUNNING, where
    [_on_data] fed the same status logs UNKNOWN -> RUNNING; and run again on
    a car that is already RUNNING the scenario logs PARKED -> RUNNING once
    more, where [_on_data] logs nothing for an unchanged status. *)
Theorem scenario_car1_event_not_the_transition :
  let data := PDict [("type", PStr "DATA");
                     ("sensors", PDict [("car1_status", PStr "RUNNING")])] in
  let by_scenario := exec (@_scenario_car1 example_builtins []) example_init in
  let by_data := exec (@_on_data example_builtins data) example_init in
  (car_status <$> sensor_data example_init !! "car1") = Some (PStr "UNKNOWN")
  ∧ map snd (events by_scenario)
    = ["Starting cloud server ..."; "🚗 Car1 PARKED -> RUNNING";
       "🚗 Car1 RUNNING -> OVERHEATING"]
  ∧ map snd (events by_data)
    = ["Starting cloud server ..."; "🚗 Car1 UNKNOWN -> RUNNING"]
  ∧ (car_status <$> sensor_data by_data !! "car1") = Some (PStr "RUNNING")
  ∧ map snd (events (exec (@_on_data example_builtins data) by_data))
    = map snd (events by_data)
  ∧ map snd (events (exec (@_scenario_car1 example_builtins []) by_data))
    = map snd (events by_data)
      ++ ["🚗 Car1 PARKED -> RUNNING"; "🚗 Car1 RUNNING -> OVERHEATING"].
Proof. vm_compute. repeat split. Qed.

(** ** Framing: lines and the receive buffer *)

Lemma lines_of_cons (c : ascii) (rest : string) :
  lines_of (String c rest)
  = if Ascii.eqb c newline then (EmptyString :: complete_lines rest, trailing rest)
    else match complete_lines rest with
         | [] => ([], String c (trailing rest))
         | l :: ls' => (String c l :: ls', trailing rest)
         end.
Proof.
  cbn [lines_of]. unfold complete_lines, trailing.
  destruct (lines_of rest) as [ls tl]. reflexivity.
Qed.

Lemma complete_lines_cons (c : ascii) (rest : string) :
  complete_lines (String c rest)
  = if Ascii.eqb c newline then EmptyString :: complete_lines rest
    else match complete_lines rest with
         | [] => []
         | l :: ls' => String c l :: ls'
         end.
Proof.
  unfold complete_lines at 1. rewrite lines_of_cons.
  destruct (Ascii.eqb c newline); [reflexivity|].
  destruct (complete_lines rest); reflexivity.
Qed.

Lemma trailing_cons (c : ascii) (rest : string) :
  trailing (String c rest)
  = if Ascii.eqb c newline then trailing rest
    else match complete_lines rest with
         | [] => String c (trailing rest)
         | _ :: _ => trailing rest
         end.
Proof.
  unfold trailing at 1. rewrite lines_of_cons.
  destruct (Ascii.eqb c newline); [reflexivity|].
  destruct (complete_lines rest); reflexivity.
Qed.

Lemma split_newline_None (text : string) :
  split_newline text = None → complete_lines text = [] ∧ trailing text = text.
Proof.
  induction text as [|c rest IH]; intros Hs.
  - split; reflexivity.
  - cbn [split_newline] in Hs. rewrite complete_lines_cons, trailing_cons.
    destruct (Ascii.eqb c newline); [discriminate|].
    destruct (split_newline rest) as [[l r]|]; [discriminate|].
    destruct (IH eq_refl) as [Hcl Htr]. rewrite Hcl, Htr. split; reflexivity.
Qed.

Lemma split_newline_Some (text line rest : string) :
  split_newline text = Some (line, rest) →
  complete_lines text = line :: complete_lines rest
  ∧ trailing text = trailing rest
  ∧ String.length rest < String.length text.
Proof.
  revert line. induction text as [|c text IH]; intros line Hs.
  - discriminate.
  - cbn [split_newline] in Hs. rewrite complete_lines_cons, trailing_cons.
    destruct (Ascii.eqb c newline).
    + injection Hs as <- <-. simpl. repeat split. lia.
    + destruct (split_newline text) as [[l r]|]; [|discriminate].
      injection Hs as <- <-.
      destruct (IH l eq_refl) as (Hcl & Htr & Hlen).
      rewrite Hcl, Htr. simpl. repeat split. lia.
Qed.

Lemma lines_of_app (t1 t2 : string) :
  complete_lines (t1 +:+ t2)
  = complete_lines t1 ++ complete_lines (trailing t1 +:+ t2)
  ∧ trailing (t1 +:+ t2) = trailing (trailing t1 +:+ t2).
Proof.
  induction t1 as [|c r IH].
  - split; reflexivity.
  - destruct IH as [IHc IHt].
    change (String c r +:+ t2) with (String c (r +:+ t2)).
    rewrite (complete_lines_cons c (r +:+ t2)), (trailing_cons c (r +:+ t2)).
    rewrite (complete_lines_cons c r), (trailing_cons c r).
    rewrite IHc, IHt.
    destruct (Ascii.eqb c newline) eqn:Hc.
    + split; reflexivity.
    + destruct (complete_lines r) as [|l ls'] eqn:Hr; cbn [app].
      * change (String c (trailing r) +:+ t2) with (String c (trailing r +:+ t2)).
        rewrite complete_lines_cons, trailing_cons, Hc.
        destruct (complete_lines (trailing r +:+ t2)); split; reflexivity.
      * split; reflexivity.
Qed.

Lemma lines_of_trailing (text : string) :
  complete_lines (trailing text) = [] ∧ trailing (trailing text) = trailing text.
Proof.
  induction text as [|c r [IHc IHt]].
  - split; reflexivity.
  - rewrite trailing_cons.
    destruct (Ascii.eqb c newline) eqn:Hc.
    + split; assumption.
    + destruct (complete_lines r) as [|l ls'] eqn:Hr.
      * rewrite complete_lines_cons, trailing_cons, Hc, IHc, IHt.
        split; reflexivity.
      * split; assumption.
Qed.

Lemma append_nil_r (s : string) : s +:+ "" = s.
Proof.
  induction s as [|c s IH]; [reflexivity|].
  change (String c (s +:+ "") = String c s). f_equal. exact IH.
Qed.

Lemma append_assoc (s1 s2 s3 : string) : (s1 +:+ s2) +:+ s3 = s1 +:+ (s2 +:+ s3).
Proof.
  induction s1 as [|c s1 IH]; [reflexivity|].
  change (String c ((s1 +:+ s2) +:+ s3) = String c (s1 +:+ (s2 +:+ s3))).
  f_equal. exact IH.
Qed.

Lemma process_all_app `{PyBuiltins} (sock : nat) (a : addr) (l1 l2 : list string)
    (s : CloudServer) :
  process_all sock a (l1 ++ l2) s = process_all sock a l2 (process_all sock a l1 s).
Proof. unfold process_all. apply foldl_app. Qed.

(** *** Lines that raise nothing *)

Lemma on_data_returns `{PyBuiltins} (data : pyval) (s : CloudServer) :
  fst (_on_data data s) = Ok tt.
Proof.
  unfold _on_data, try_except.
  destruct (_on_data_body data s) as [[[]|e] s1]; reflexivity.
Qed.

(** A line that is not JSON, or is a JSON object, is processed without an
    exception. *)
Lemma process_message_returns `{PyBuiltins} (sock : nat) (a : addr) (line : string)
    (s : CloudServer) :
  plain_line line → fst (_process_message sock a line s) = Ok tt.
Proof.
  intros [Hnone|[d Hd]]; unfold _process_message.
  - rewrite Hnone. reflexivity.
  - rewrite Hd.
    match goal with |- context [with_lock ?body] =>
      assert (Hlock : ∃ s1, with_lock body s = (Ok tt, s1))
    end.
    { unfold with_lock, mbind, M_bind, touch, modify, gets.
      cbn [lock_held with_lock_held clients fst snd].
      destruct (clients s !! a) as [[[s0 t] gw]|]; eexists; reflexivity. }
    destruct Hlock as (s1 & Hs1).
    rewrite (run_bind _ _ _ _ _ Hs1).
    rewrite (run_bind (lift (py_get (PDict d) "type" (PStr ""))) _ s1 s1 _ eq_refl).
    destruct (py_eq _ (PStr "HEARTBEAT")); [reflexivity|].
    destruct (py_eq _ (PStr "DATA")); [apply on_data_returns | reflexivity].
Qed.

Lemma process_message_plain `{PyBuiltins} (sock : nat) (a : addr) (line : string)
    (s : CloudServer) :
  plain_line line →
  _process_message sock a line s = (Ok tt, exec (_process_message sock a line) s).
Proof.
  intros Hp. pose proof (process_message_returns sock a line s Hp) as Hr.
  unfold exec. destruct (_process_message sock a line s) as [r s1].
  simpl in *. rewrite Hr. reflexivity.
Qed.

(** *** The flags of the handler's loop *)

Lemma flags_same_pre : PreOrder flags_same.
Proof.
  split.
  - intros s. split; reflexivity.
  - intros s1 s2 s3 [H1 H2] [H3 H4]. split; congruence.
Qed.

Lemma flags_same_env : ignores_env flags_same.
Proof. split; intros v s; split; reflexivity. Qed.

Lemma process_message_flags `{PyBuiltins} (sock : nat) (a : addr) (line : string)
    (s : CloudServer) :
  flags_same s (exec (_process_message sock a line) s).
Proof.
  apply (process_message_steps flags_same flags_same_pre flags_same_env).
  - intros v s0. split; reflexivity.
  - intros v s0. split; reflexivity.
  - intros key f _ s0 d _. split; reflexivity.
Qed.

Lemma process_all_flags `{PyBuiltins} (sock : nat) (a : addr) (lines : list string)
    (s : CloudServer) :
  flags_same s (process_all sock a lines s).
Proof.
  revert s. induction lines as [|line lines IH]; intros s.
  - split; reflexivity.
  - change (process_all sock a (line :: lines) s)
      with (process_all sock a lines (exec (_process_message sock a line) s)).
    destruct (process_message_flags sock a line s) as [H1 H2].
    destruct (IH (exec (_process_message sock a line) s)) as [H3 H4].
    split; congruence.
Qed.

(** *** Draining the buffer *)

(** With fuel for every character, and lines that raise nothing, the inner
    loop processes each complete line of the buffer once, in order, and
    leaves the unterminated rest in the buffer. *)
Lemma process_lines_all `{PyBuiltins} (fuel sock : nat) (a : addr) (text : string)
    (s : CloudServer) :
  String.length text ≤ fuel →
  Forall plain_line (complete_lines text) →
  process_lines fuel sock a text s
  = (Ok tt, trailing text, process_all sock a (complete_lines text) s).
Proof.
  revert text s. induction fuel as [|fuel IH]; intros text s Hlen Hplain.
  - destruct text; [reflexivity | simpl in Hlen; lia].
  - cbn [process_lines].
    destruct (split_newline text) as [[line rest]|] eqn:Hs.
    + apply split_newline_Some in Hs as (Hcl & Htr & Hshort).
      rewrite Hcl in Hplain. apply Forall_cons in Hplain as [Hline Hrest].
      rewrite (process_message_plain sock a line s Hline).
      rewrite (IH rest _ ltac:(lia) Hrest), Hcl, Htr. reflexivity.
    + apply split_newline_None in Hs as [Hcl Htr]. rewrite Hcl, Htr. reflexivity.
Qed.

(** *** Decoding read by read *)

Ltac utf8_cases :=
  repeat match goal with
  | H : context [if ?c then _ else _] |- _ => destruct c
  | |- context [if ?c then _ else _] => destruct c
  end.

(** What the decoder finds at the cursor depends on the bytes of the
    sequence alone, unless the data end inside it. *)
Lemma utf8_next_app (bs ys : list byte) :
  utf8_next bs ≠ Utf8End → utf8_next (bs ++ ys) = utf8_next bs.
Proof.
  intros Hn.
  destruct bs as [|b0 [|b1 [|b2 [|b3 r]]]]; cbn [app utf8_next] in *;
    cbv zeta in *; utf8_cases; solve [reflexivity | congruence].
Qed.

Lemma utf8_next_keep (bs : list byte) (n : nat) :
  utf8_next bs = Utf8Keep n → 0 < n ≤ length bs.
Proof.
  intros Hn.
  destruct bs as [|b0 [|b1 [|b2 [|b3 r]]]]; cbn [utf8_next length] in *;
    cbv zeta in *; utf8_cases; try discriminate;
    injection Hn as <-; lia.
Qed.

Lemma utf8_next_skip (bs : list byte) (n : nat) :
  utf8_next bs = Utf8Skip n → 0 < n ≤ length bs.
Proof.
  intros Hn.
  destruct bs as [|b0 [|b1 [|b2 [|b3 r]]]]; cbn [utf8_next length] in *;
    cbv zeta in *; utf8_cases; try discriminate;
    injection Hn as <-; lia.
Qed.

(** Fuel beyond the length of the data changes nothing. *)
Lemma utf8_decode_loop_fuel (fuel : nat) (bs : list byte) :
  length bs ≤ fuel → utf8_decode_loop fuel bs = utf8_decode_ignore bs.
Proof.
  unfold utf8_decode_ignore.
  remember (length bs) as n eqn:Hn. assert (Hle : length bs ≤ n) by lia.
  clear Hn. revert fuel bs Hle.
  induction n as [|n IH]; intros fuel bs Hle Hfuel.
  - destruct bs; [destruct fuel; reflexivity | simpl in Hle; lia].
  - destruct bs as [|b r]; [destruct fuel; reflexivity|].
    destruct fuel as [|fuel]; [lia|].
    cbn [utf8_decode_loop].
    destruct (utf8_next (b :: r)) as [k|k|] eqn:Hk; [| |reflexivity].
    + apply utf8_next_keep in Hk.
      assert (length (drop k (b :: r)) ≤ n)
        by (rewrite length_drop; simpl in *; lia).
      rewrite (IH fuel) by lia. reflexivity.
    + apply utf8_next_skip in Hk.
      assert (length (drop k (b :: r)) ≤ n)
        by (rewrite length_drop; simpl in *; lia).
      rewrite (IH fuel) by lia. reflexivity.
Qed.

Lemma utf8_decode_loop_app (fuel : nat) (xs ys : list byte) :
  length xs ≤ fuel → utf8_pending_loop fuel xs = false →
  utf8_decode_ignore (xs ++ ys) = utf8_decode_loop fuel xs ++ utf8_decode_ignore ys.
Proof.
  revert xs. induction fuel as [|fuel IH]; intros xs Hle Hp.
  - destruct xs; [reflexivity | simpl in Hle; lia].
  - destruct xs as [|b r]; [reflexivity|].
    cbn [utf8_decode_loop utf8_pending_loop] in *.
    unfold utf8_decode_ignore at 1.
    change (length ((b :: r) ++ ys)) with (S (length (r ++ ys))).
    change ((b :: r) ++ ys) with (b :: (r ++ ys)).
    cbn [utf8_decode_loop].
    change (b :: (r ++ ys)) with ((b :: r) ++ ys).
    destruct (utf8_next (b :: r)) as [k|k|] eqn:Hk; [| |discriminate].
    + rewrite utf8_next_app, Hk by congruence.
      apply utf8_next_keep in Hk.
      rewrite take_app_le, drop_app_le by lia.
      rewrite utf8_decode_loop_fuel
        by (rewrite length_app, length_drop; simpl in *; rewrite length_app; lia).
      rewrite (IH (drop k (b :: r)))
        by (try rewrite length_drop; simpl in *; first [lia | assumption]).
      rewrite app_assoc. reflexivity.
    + rewrite utf8_next_app, Hk by congruence.
      apply utf8_next_skip in Hk.
      rewrite drop_app_le by lia.
      rewrite utf8_decode_loop_fuel
        by (rewrite length_app, length_drop; simpl in *; rewrite length_app; lia).
      rewrite (IH (drop k (b :: r)))
        by (try rewrite length_drop; simpl in *; first [lia | assumption]).
      reflexivity.
Qed.

(** Where a read does not stop inside a sequence, decoding it and what
    follows separately gives what decoding them together gives. *)
Lemma utf8_decode_app (xs ys : list byte) :
  utf8_pending xs = false →
  utf8_decode_ignore (xs ++ ys) = utf8_decode_ignore xs ++ utf8_decode_ignore ys.
Proof.
  intros Hp. apply (utf8_decode_loop_app (length xs)); [lia | exact Hp].
Qed.

Lemma string_of_list_byte_app (l1 l2 : list byte) :
  string_of_list_byte (l1 ++ l2) = string_of_list_byte l1 +:+ string_of_list_byte l2.
Proof.
  unfold string_of_list_byte.
  induction l1 as [|b l1 IH]; [reflexivity|].
  cbn [app List.map string_of_list_ascii].
  change (String (ascii_of_byte b) (string_of_list_ascii (List.map ascii_of_byte l1))
          +:+ string_of_list_ascii (List.map ascii_of_byte l2))
    with (String (ascii_of_byte b)
            (string_of_list_ascii (List.map ascii_of_byte l1)
             +:+ string_of_list_ascii (List.map ascii_of_byte l2))).
  f_equal. exact IH.
Qed.

Lemma decode_app (xs ys : list byte) :
  utf8_pending xs = false → decode (xs ++ ys) = decode xs +:+ decode ys.
Proof.
  intros Hp. unfold decode. rewrite utf8_decode_app by exact Hp.
  apply string_of_list_byte_app.
Qed.

Lemma decode_concat (chunks : list (list byte)) :
  Forall (λ chunk, utf8_pending chunk = false) chunks →
  decode (concat chunks) = decode_each chunks.
Proof.
  induction 1 as [|chunk chunks Hp Hall IH]; [reflexivity|].
  cbn [concat decode_each foldr]. rewrite decode_app by exact Hp.
  rewrite IH. reflexivity.
Qed.

(** *** The read loop *)

Lemma no_lines_trailing (text : string) :
  complete_lines text = [] → trailing text = text.
Proof.
  induction text as [|c r IH]; [reflexivity|].
  rewrite complete_lines_cons, trailing_cons.
  destruct (Ascii.eqb c newline); [discriminate|].
  destruct (complete_lines r); [|discriminate].
  intros _. rewrite IH; reflexivity.
Qed.

Lemma decode_each_cons (chunk : list byte) (chunks : list (list byte)) :
  decode_each (chunk :: chunks) = decode chunk +:+ decode_each chunks.
Proof. reflexivity. Qed.

(** Fed successive non-empty reads, a running handler whose buffer holds no
    complete line processes the complete lines of buffer-plus-reads once
    each, in order, and ends waiting in [recv] with the unterminated rest. *)
Lemma client_loop_feed `{PyBuiltins} (sock : nat) (a : addr)
    (chunks : list (list byte)) (buffer : string) (s : CloudServer) :
  running s = true → wait_for_step s = false →
  complete_lines buffer = [] →
  Forall (λ chunk, chunk ≠ []) chunks →
  Forall plain_line (complete_lines (buffer +:+ decode_each chunks)) →
  _client_loop_from sock a (map RecvData chunks) buffer s
  = (Reading (trailing (buffer +:+ decode_each chunks)),
     process_all sock a (complete_lines (buffer +:+ decode_each chunks)) s).
Proof.
  intros Hrun Hwait Hbuf Hne. revert buffer s Hrun Hwait Hbuf.
  induction Hne as [|chunk chunks Hchunk Hne IH]; intros buffer s Hrun Hwait Hbuf Hplain.
  - cbn [map _client_loop_from]. change (decode_each []) with EmptyString in *.
    rewrite Hrun, (step_gate_free s Hwait). cbn [negb].
    rewrite append_nil_r, Hbuf, (no_lines_trailing buffer Hbuf). reflexivity.
  - cbn [map]. rewrite decode_each_cons in Hplain |- *.
    destruct chunk as [|b chunk]; [congruence|].
    cbn [_client_loop_from]. rewrite Hrun, (step_gate_free s Hwait). cbn [negb].
    rewrite <- (append_assoc buffer (decode (b :: chunk)) (decode_each chunks))
      in Hplain |- *.
    destruct (lines_of_app (buffer +:+ decode (b :: chunk)) (decode_each chunks))
      as [Hcl Htr].
    rewrite Hcl in Hplain. apply Forall_app in Hplain as [Hplain1 Hplain2].
    rewrite (process_lines_all _ sock a (buffer +:+ decode (b :: chunk)) s
               (le_n _) Hplain1).
    destruct (process_all_flags sock a
                (complete_lines (buffer +:+ decode (b :: chunk))) s) as [Hrun' Hwait'].
    rewrite IH.
    + rewrite Hcl, Htr, process_all_app. reflexivity.
    + rewrite Hrun'. exact Hrun.
    + rewrite Hwait'. exact Hwait.
    + apply lines_of_trailing.
    + exact Hplain2.
Qed.

(** What the read loop does get right.  Take a byte stream cut into successive
    non-empty reads, none of which stops inside a multi-byte UTF-8
    sequence, and whose newline-terminated lines are each either not JSON
    or a JSON object.  A running handler that starts with an empty buffer
    then processes exactly the complete lines of the decoded stream, each
    once and in order, however the stream is cut, and is left waiting in
    [recv] with the unterminated rest in its buffer: the same outcome as
    for the stream delivered in one read. *)
Theorem read_loop_reassembles `{PyBuiltins} (sock : nat) (a : addr)
    (chunks : list (list byte)) (s : CloudServer) :
  running s = true → wait_for_step s = false →
  Forall (λ chunk, chunk ≠ []) chunks →
  Forall (λ chunk, utf8_pending chunk = false) chunks →
  Forall plain_line (complete_lines (decode (concat chunks))) →
  _client_loop sock a (map RecvData chunks) s
  = (Reading (trailing (decode (concat chunks))),
     process_all sock a (complete_lines (decode (concat chunks))) s).
Proof.
  intros Hrun Hwait Hne Hclean Hplain. unfold _client_loop.
  rewrite (decode_concat chunks Hclean) in *.
  apply (client_loop_feed sock a chunks "" s Hrun Hwait eq_refl Hne Hplain).
Qed.

Lemma read_loop_reassembles_witness :
  @_client_loop example_builtins 1 example_addr
    [RecvData example_read1; RecvData example_read2] example_accepted
  = (Reading "",
     @process_all example_builtins 1 example_addr [msg_heartbeat1] example_accepted).
Proof.
  apply (@read_loop_reassembles example_builtins 1 example_addr
           [example_read1; example_read2] example_accepted).
  - reflexivity.
  - reflexivity.
  - repeat constructor; discriminate.
  - repeat constructor.
  - replace (complete_lines (decode (concat [example_read1; example_read2])))
      with [msg_heartbeat1] by (vm_compute; reflexivity).
    constructor; [|constructor].
    right. eexists. vm_compute. reflexivity.
Defined.


(** ** Lines that are not JSON *)

Lemma lines_of_terminated (line : string) :
  complete_lines line = [] →
  complete_lines (line +:+ String newline "") = [line]
  ∧ trailing (line +:+ String newline "") = "".
Proof.
  induction line as [|c r IH]; intros Hline.
  - split; reflexivity.
  - change (String c r +:+ String newline "")
      with (String c (r +:+ String newline "")).
    rewrite complete_lines_cons in Hline.
    rewrite complete_lines_cons, trailing_cons.
    destruct (Ascii.eqb c newline); [discriminate|].
    destruct (complete_lines r) eqn:Hr; [|discriminate].
    destruct (IH eq_refl) as [-> ->]. split; reflexivity.
Qed.

(** C3.  A line that [json.loads] rejects is logged and dropped:
    [_process_message] returns without an exception and changes nothing
    but the log, so the session stays in the registry, no socket is closed
    and no entity, event or counter is touched; and a running handler that
    reads such a line (with its newline) is left reading, with an empty
    buffer. *)
Theorem malformed_line_discarded `{PyBuiltins} (sock : nat) (a : addr)
    (line : string) (s : CloudServer) :
  json_loads line = None →
  _process_message sock a line s
  = (Ok tt, with_log (log s ++ [LogInvalidJson a line]) s)
  ∧ (let s' := exec (_process_message sock a line) s in
     clients s' = clients s
     ∧ closed_socks s' = closed_socks s
     ∧ sensor_data s' = sensor_data s
     ∧ events s' = events s
     ∧ packet_count s' = packet_count s
     ∧ last_seq s' = last_seq s
     ∧ outbox s' = outbox s)
  ∧ (∀ data : list byte,
       running s = true → wait_for_step s = false →
       decode data = line +:+ String newline "" →
       complete_lines line = [] →
       _client_loop sock a [RecvData data] s
       = (Reading "", with_log (log s ++ [LogInvalidJson a line]) s)).
Proof.
  intros Hj.
  assert (Hrun : _process_message sock a line s
                 = (Ok tt, with_log (log s ++ [LogInvalidJson a line]) s)).
  { unfold _process_message. rewrite Hj. reflexivity. }
  split; [exact Hrun|]. split.
  - unfold exec. rewrite Hrun. repeat split.
  - intros data Hgo Hwait Hdata Hline.
    assert (Hne : data ≠ []).
    { intros ->. destruct line; discriminate. }
    pose proof (lines_of_terminated line Hline) as Hcl.
    destruct Hcl as [Hcl Htr].
    pose proof (client_loop_feed sock a [data] "" s Hgo Hwait eq_refl) as Hfeed.
    cbn [map] in Hfeed. unfold _client_loop. rewrite Hfeed.
    + change ("" +:+ decode_each [data]) with (decode data +:+ "").
      rewrite append_nil_r, Hdata, Hcl, Htr.
      unfold process_all. cbn [foldl]. unfold exec. rewrite Hrun. reflexivity.
    + constructor; [exact Hne | constructor].
    + change ("" +:+ decode_each [data]) with (decode data +:+ "").
      rewrite append_nil_r, Hdata, Hcl.
      constructor; [left; exact Hj | constructor].
Qed.

Lemma malformed_line_discarded_witness :
  @_process_message example_builtins 1 example_addr "not-json" example_accepted
  = (Ok tt,
     with_log (log example_accepted ++ [LogInvalidJson example_addr "not-json"])
       example_accepted).
Proof.
  destruct (@malformed_line_discarded example_builtins 1 example_addr "not-json"
              example_accepted) as (Hrun & _).
  - reflexivity.
  - exact Hrun.
Defined.

(** ** Interleaved writers of one entity *)












Lemma SensorData_init_wf : entity_wf (SensorData_init MAX_DATA_POINTS).
Proof. apply (SensorData_init_ok "1200400"). Qed.



(** * More of the server *)

(** ** What the plots and the dashboard read *)

Lemma slice_last_lastn {A : Type} (n : nat) (l : list A) :
  0 < n → slice_last n l = lastn n l.
Proof. destruct n; [lia | reflexivity]. Qed.

(** The window of the window: the last [DATA_WINDOW] of what the deque
    kept are the last [DATA_WINDOW] of what was appended. *)
Lemma lastn_window {A : Type} (total : nat) (ys : list A) :
  length ys ≤ total → 0 < total →
  lastn (Nat.min DATA_WINDOW (Nat.min MAX_DATA_POINTS total))
        (lastn MAX_DATA_POINTS ys)
  = lastn DATA_WINDOW ys.
Proof.
  unfold DATA_WINDOW, MAX_DATA_POINTS, lastn. intros Hle Hpos.
  rewrite length_drop, drop_drop. f_equal. lia.
Qed.

Lemma window_of_lastn (total : nat) (ys : list float) :
  length ys ≤ total → 0 < total →
  window_of (Nat.min DATA_WINDOW (Nat.min MAX_DATA_POINTS total))
            (Deque MAX_DATA_POINTS (lastn MAX_DATA_POINTS ys))
  = lastn DATA_WINDOW ys.
Proof.
  intros Hle Hpos. unfold window_of. cbn [items].
  destruct (lastn MAX_DATA_POINTS ys) as [|y r] eqn:E.
  - assert (Hlen : length (lastn MAX_DATA_POINTS ys) = 0) by (rewrite E; reflexivity).
    rewrite lastn_length in Hlen. unfold MAX_DATA_POINTS in Hlen.
    destruct ys; [reflexivity | simpl in Hlen; lia].
  - rewrite <- E, slice_last_lastn by (unfold DATA_WINDOW, MAX_DATA_POINTS; lia).
    apply lastn_window; assumption.
Qed.

Lemma length_omap_le {A B : Type} (f : A → option B) (l : list A) :
  length (omap f l) ≤ length l.
Proof.
  induction l as [|x l IH]; [reflexivity|].
  cbn [omap list_omap]. destruct (f x); simpl; lia.
Qed.

(** X1.  [recent] of an entity that was never fed is the placeholder
    [[0.0]] in every series; after any ingests (at least one) its [t] holds
    the [DATA_WINDOW] = 20 newest timestamps and every other series the 20
    newest values appended to it, oldest first. *)
Theorem recent_returns_newest :
  recent (SensorData_init MAX_DATA_POINTS)
  = Window [0.0%float] [0.0%float] [0.0%float] [0.0%float] [0.0%float]
  ∧ ∀ l : list ingest, l ≠ [] →
      recent (ingest_all l (SensorData_init MAX_DATA_POINTS))
      = Window (lastn DATA_WINDOW (map ts_of l))
               (lastn DATA_WINDOW (omap smoke_of l))
               (lastn DATA_WINDOW (omap co2_of l))
               (lastn DATA_WINDOW (omap fire_of l))
               (lastn DATA_WINDOW (omap temp_of l)).
Proof.
  split; [reflexivity|]. intros l Hl.
  destruct (ingest_all_retains l) as (Hts & Hsm & Hco & Hfi & Hct).
  cbv zeta in Hts, Hsm, Hco, Hfi, Hct.
  assert (Hpos : 0 < length l) by (destruct l; [congruence | simpl; lia]).
  unfold recent. rewrite Hts, Hsm, Hco, Hfi, Hct. cbn [items].
  destruct (lastn MAX_DATA_POINTS (map ts_of l)) as [|t0 r] eqn:E.
  { assert (Hlen : length (lastn MAX_DATA_POINTS (map ts_of l)) = 0)
      by (rewrite E; reflexivity).
    rewrite lastn_length, length_map in Hlen. unfold MAX_DATA_POINTS in Hlen. lia. }
  rewrite <- E, lastn_length, length_map. cbv zeta.
  rewrite slice_last_lastn by (unfold DATA_WINDOW, MAX_DATA_POINTS; lia).
  rewrite (lastn_window (length l)) by (rewrite ?length_map; lia).
  rewrite !(window_of_lastn (length l)) by (try apply length_omap_le; lia).
  reflexivity.
Qed.

Lemma recent_returns_newest_witness :
  w_t (recent (ingest_all example_ingests (SensorData_init MAX_DATA_POINTS)))
  = lastn DATA_WINDOW (map ts_of example_ingests).
Proof.
  destruct recent_returns_newest as [_ Hnew].
  rewrite (Hnew example_ingests); [reflexivity|].
  vm_compute. discriminate.
Defined.

(** ** The writes of each method

    [steps R m] for a preorder [R] that accepts the writes [m] makes.  Every
    lemma of this section asks of [R] only the writes its method performs,
    so what a method leaves alone follows by choosing [R]. *)

Section Footprint.
Context `{PyBuiltins}.
Variable R : relation CloudServer.
Hypothesis R_acc : accepts R.
Hypothesis R_event : ∀ e s, R s (with_events (events s ++ [e]) s).
Hypothesis R_register : ∀ a sock now s,
  R s (with_clients (<[a := (sock, now, PStr "UNKNOWN")]> (clients s)) s).
Hypothesis R_refresh : ∀ a sock t gw now g s,
  clients s !! a = Some (sock, t, gw) →
  R s (with_clients (<[a := (sock, now, g)]> (clients s)) s).
Hypothesis R_unregister : ∀ a s, R s (with_clients (delete a (clients s)) s).
Hypothesis R_last_seq : ∀ v s, R s (with_last_seq v s).
Hypothesis R_packet : ∀ s, R s (with_packet_count (packet_count s + 1)%Z s).
Hypothesis R_stop : ∀ s, R s (with_running false s).
Hypothesis R_gate : ∀ s, R s (with_wait_for_step false (with_step_event false s)).
Hypothesis R_store : ∀ key f, store_write key f → upd_ok R key f.

Lemma fp_with_lock {A : Type} (body : M A) :
  steps R body → steps R (with_lock body).
Proof.
  pose proof (acc_pre R R_acc) as Hpre.
  intros Hb s. unfold with_lock.
  specialize (Hb (with_lock_held true s)).
  destruct (body (with_lock_held true s)) as [r s']; simpl in *.
  etransitivity; [apply (acc_lock R R_acc)|].
  etransitivity; [exact Hb | apply (acc_lock R R_acc)].
Qed.

Lemma fp_touch (r : shared) : steps R (touch r).
Proof.
  pose proof (acc_pre R R_acc) as Hpre.
  intros s. unfold touch, modify. simpl.
  destruct (lock_held s); [reflexivity | apply (acc_unlocked R R_acc)].
Qed.

Lemma fp_logger_info (e : log_entry) : steps R (logger_info e).
Proof. intros s. apply (acc_log R R_acc). Qed.

Lemma fp_time_time : steps R time_time.
Proof. intros s. apply (acc_ticks R R_acc). Qed.

Lemma fp_entity (key : string) : steps R (entity key).
Proof.
  pose proof (acc_pre R R_acc) as Hpre.
  intros s. unfold entity.
  destruct (sensor_data s !! key); simpl; [apply fp_touch | reflexivity].
Qed.

Lemma fp_entity_update (key : string) (f : SensorData → SensorData) :
  upd_ok R key f → steps R (entity_update key f).
Proof.
  pose proof (acc_pre R R_acc) as Hpre.
  intros Hf s. unfold entity_update, mbind, M_bind, entity.
  destruct (sensor_data s !! key) as [d|] eqn:Hd; simpl; [|reflexivity].
  etransitivity; [apply fp_touch|].
  apply Hf. unfold exec, touch, modify. simpl.
  destruct (lock_held s); exact Hd.
Qed.

Lemma fp_sock_sendall (sock : nat) (data : string) :
  steps R (sock_sendall sock data).
Proof.
  pose proof (acc_pre R R_acc) as Hpre.
  intros s. unfold sock_sendall. case_bool_decide; simpl.
  - reflexivity.
  - apply (acc_outbox R R_acc).
Qed.

Lemma fp_sock_close (sock : nat) : steps R (sock_close sock).
Proof. intros s. apply (acc_closed R R_acc). Qed.

Lemma fp_add_event (msg : string) : steps R (add_event msg).
Proof.
  pose proof (acc_pre R R_acc) as Hpre. unfold add_event.
  apply steps_bind; [exact Hpre | apply fp_time_time|]. intros now.
  apply steps_bind; [exact Hpre | apply fp_touch|]. intros _.
  apply steps_modify. intros s. apply R_event.
Qed.

End Footprint.

(** One step of the search for [steps R m] under [accepts R]. *)
Ltac fp_rule :=
  lazymatch goal with
  | |- steps _ (mret _) => apply steps_ret
  | |- steps _ (mbind _ _) => apply steps_bind
  | |- steps _ (lift _) => apply steps_lift
  | |- steps _ (raise _) => apply steps_raise
  | |- steps _ (gets _) => apply steps_gets
  | |- steps _ (modify _) => apply steps_modify
  | |- steps _ (try_except _ _) => apply steps_try_except
  | |- steps _ (with_lock _) => apply fp_with_lock
  | |- steps _ (touch _) => apply fp_touch
  | |- steps _ (logger_info _) => apply fp_logger_info
  | |- steps _ time_time => apply fp_time_time
  | |- steps _ (when _ _) => apply steps_when
  | |- steps _ (or_else _ _) => apply steps_or_else
  | |- steps _ (and_then _ _) => apply steps_and_then
  | |- steps _ (entity _) => apply fp_entity
  | |- steps _ (entity_update _ _) => apply fp_entity_update
  | |- steps _ (sock_sendall _ _) => apply fp_sock_sendall
  | |- steps _ (sock_close _) => apply fp_sock_close
  | |- steps _ (add_event _) => apply fp_add_event
  | |- steps _ (match ?x with _ => _ end) => destruct x
  | |- PreOrder _ => solve [eauto using acc_pre]
  end.

Ltac fp_tac :=
  repeat first [ assumption | progress intros | fp_rule ].

Section FootprintMethods.
Context `{PyBuiltins}.
Variable R : relation CloudServer.
Hypothesis R_acc : accepts R.
Hypothesis R_event : ∀ e s, R s (with_events (events s ++ [e]) s).
Hypothesis R_register : ∀ a sock now s,
  R s (with_clients (<[a := (sock, now, PStr "UNKNOWN")]> (clients s)) s).
Hypothesis R_refresh : ∀ a sock t gw now g s,
  clients s !! a = Some (sock, t, gw) →
  R s (with_clients (<[a := (sock, now, g)]> (clients s)) s).
Hypothesis R_unregister : ∀ a s, R s (with_clients (delete a (clients s)) s).
Hypothesis R_last_seq : ∀ v s, R s (with_last_seq v s).
Hypothesis R_packet : ∀ s, R s (with_packet_count (packet_count s + 1)%Z s).
Hypothesis R_stop : ∀ s, R s (with_running false s).
Hypothesis R_gate : ∀ s, R s (with_wait_for_step false (with_step_event false s)).
Hypothesis R_store : ∀ key f, store_write key f → upd_ok R key f.

Lemma on_heartbeat_fp (data : pyval) (a : addr) : steps R (_on_heartbeat data a).
Proof. unfold _on_heartbeat. fp_tac. Qed.

Lemma sensor_float_fp (sensors : pyval) (key : string) (default : float) :
  steps R (sensor_float sensors key default).
Proof. unfold sensor_float. fp_tac. Qed.

Lemma check_thresholds_fp (key : string) (v : float) (e1 e2 : string) :
  steps R (check_thresholds key v e1 e2).
Proof. unfold check_thresholds. fp_tac; apply R_store; constructor. Qed.

Lemma on_data_room_fp (key k1 k2 k3 e1 e2 : string) (sensors : pyval) (ts : float) :
  is_room key = true →
  steps R (_on_data_room key k1 k2 k3 e1 e2 sensors ts).
Proof.
  intros Hk. unfold _on_data_room. fp_tac;
    first [ apply sensor_float_fp | apply check_thresholds_fp
          | apply R_store; constructor; exact Hk ].
Qed.

Lemma on_data_car_fp (key k1 k2 prefix : string) (sensors : pyval) (ts : float) :
  is_car key = true →
  steps R (_on_data_car key k1 k2 prefix sensors ts).
Proof.
  intros Hk. unfold _on_data_car. fp_tac;
    first [ apply sensor_float_fp | apply R_store; constructor; exact Hk ].
Qed.

(** What follows the counting in [_on_data]. *)
Lemma on_data_blocks_fp (sensors : pyval) (ts : float) :
  steps R (
    _on_data_room "1200400" "smoke1" "co2_1" "fire1"
      "🔔 ALARM_1200400 -> ON" "💦 SPRINKLER_1200400 -> ON" sensors ts;;
    _on_data_room "1211371" "smoke2" "co2_2" "fire2"
      "🔔 ALARM_1211371 -> ON" "💦 SPRINKLER_1211371 -> ON" sensors ts;;
    _on_data_car "car1" "car1_temp" "car1_status" "🚗 Car1 " sensors ts;;
    _on_data_car "car2" "car2_temp" "car2_status" "🚙 Car2 " sensors ts).
Proof.
  fp_tac; first [ apply on_data_room_fp; reflexivity
                | apply on_data_car_fp; reflexivity ].
Qed.

Lemma on_data_body_fp (data : pyval) : steps R (_on_data_body data).
Proof.
  unfold _on_data_body. fp_tac;
    first [ apply R_last_seq | apply R_packet
          | apply on_data_room_fp; reflexivity
          | apply on_data_car_fp; reflexivity ].
Qed.

Lemma on_data_fp (data : pyval) : steps R (_on_data data).
Proof. unfold _on_data. fp_tac. apply on_data_body_fp. Qed.

Lemma process_message_fp (sock : nat) (a : addr) (line : string) :
  steps R (_process_message sock a line).
Proof.
  pose proof (acc_pre R R_acc) as Hpre. unfold _process_message.
  destruct (json_loads line) as [data|]; [|fp_tac].
  apply steps_bind; [exact Hpre | |].
  - apply fp_with_lock; [assumption|].
    apply steps_bind; [exact Hpre | apply fp_touch; assumption|]. intros _.
    intros s. unfold mbind, M_bind, gets.
    destruct (clients s !! a) as [[[s0 t] gw]|] eqn:Ha; [|reflexivity].
    unfold time_time, lift. cbn [fst snd].
    destruct (py_get data "gateway_id" gw) as [g|e]; cbn [fst snd modify].
    + etransitivity; [apply (acc_ticks R R_acc)|].
      apply (R_refresh a s0 t gw). exact Ha.
    + apply (acc_ticks R R_acc).
  - intros _. fp_tac; first [ apply on_heartbeat_fp | apply on_data_fp ].
Qed.

Lemma process_lines_fp (fuel sock : nat) (a : addr) (buffer : string) (s : CloudServer) :
  R s (snd (process_lines fuel sock a buffer s)).
Proof.
  pose proof (acc_pre R R_acc) as Hpre.
  revert buffer s. induction fuel as [|fuel IH]; intros buffer s; simpl.
  - reflexivity.
  - destruct (split_newline buffer) as [[line rest]|]; [|reflexivity].
    pose proof (process_message_fp sock a line s) as Hm.
    destruct (_process_message sock a line s) as [[u|e] s']; simpl in *.
    + etransitivity; [exact Hm | apply IH].
    + exact Hm.
Qed.

Lemma client_loop_finally_fp (sock : nat) (a : addr) :
  steps R (_client_loop_finally sock a).
Proof. unfold _client_loop_finally. fp_tac. apply R_unregister. Qed.

Lemma step_gate_fp (s s1 : CloudServer) : step_gate s = Some s1 → R s s1.
Proof.
  pose proof (acc_pre R R_acc) as Hpre.
  unfold step_gate. intros Hg.
  destruct (wait_for_step s); [|injection Hg as <-; reflexivity].
  destruct (step_event s); [|discriminate]. injection Hg as <-.
  apply R_gate.
Qed.

Lemma client_loop_from_fp (sock : nat) (a : addr) (reads : list recv_result)
    (buffer : string) (s : CloudServer) :
  R s (snd (_client_loop_from sock a reads buffer s)).
Proof.
  pose proof (acc_pre R R_acc) as Hpre.
  revert buffer s. induction reads as [|r reads IH]; intros buffer s; simpl.
  - destruct (running s); simpl; [|apply client_loop_finally_fp].
    destruct (step_gate s) as [s1|] eqn:Hg; simpl; [|reflexivity].
    apply step_gate_fp, Hg.
  - destruct (running s); simpl; [|apply client_loop_finally_fp].
    destruct (step_gate s) as [s1|] eqn:Hg; simpl; [|reflexivity].
    apply step_gate_fp in Hg.
    destruct r as [[|b data]| |e].
    + simpl. etransitivity; [exact Hg | apply client_loop_finally_fp].
    + pose proof (process_lines_fp
        (String.length (buffer +:+ decode (b :: data))) sock a
        (buffer +:+ decode (b :: data)) s1) as Hp.
      destruct (process_lines _ sock a _ s1) as [[[u|e] buffer2] s2]; simpl in *.
      * etransitivity; [exact Hg|]. etransitivity; [exact Hp | apply IH].
      * etransitivity; [exact Hg|]. etransitivity; [exact Hp|].
        etransitivity; [apply (acc_log R R_acc) | apply IH].
    + etransitivity; [exact Hg | apply IH].
    + etransitivity; [exact Hg|].
      etransitivity; [apply (acc_log R R_acc) | apply IH].
Qed.

Lemma accept_fp (sock : nat) (a : addr) : steps R (_accept sock a).
Proof. unfold _accept. fp_tac. apply R_register. Qed.

Lemma send_each_fp (command msg : string) (targets : list (addr * session)) :
  steps R (send_each command msg targets).
Proof.
  induction targets as [|[a [[sock t] gw]] targets IH]; simpl; fp_tac.
Qed.

Lemma send_control_all_fp (command : string) (params : list (string * pyval)) :
  steps R (_send_control_all command params).
Proof. unfold _send_control_all. fp_tac. apply send_each_fp. Qed.

Lemma for_while_running_fp (indices : list nat) (body : nat → M unit) :
  (∀ i, steps R (body i)) → steps R (for_while_running indices body).
Proof.
  intros Hb. induction indices as [|i indices IH]; simpl; fp_tac. apply Hb.
Qed.

Lemma last_or_fp (key : string) (field : SensorData → deque float) (default : float) :
  steps R (last_or key field default).
Proof. unfold last_or. fp_tac. Qed.

Lemma scenario_fire_fp (name key : string) (base : float) (e1 e2 : string) :
  is_room key = true → steps R (scenario_fire name key base e1 e2).
Proof.
  intros Hk. unfold scenario_fire. fp_tac;
    first [ apply send_control_all_fp | apply last_or_fp | idtac ].
  apply for_while_running_fp. intros i. fp_tac;
    first [ apply check_thresholds_fp | apply R_store; constructor; exact Hk ].
Qed.

Lemma scenario_co2_high_fp (params : list (string * pyval)) :
  steps R (_scenario_co2_high params).
Proof.
  unfold _scenario_co2_high. fp_tac;
    first [ apply send_control_all_fp | apply last_or_fp | idtac ].
  apply for_while_running_fp. intros i. fp_tac.
  apply R_store; constructor. destruct (py_eq _ _); reflexivity.
Qed.

Lemma scenario_car_fp (name key prefix : string) :
  is_car key = true → steps R (scenario_car name key prefix).
Proof.
  intros Hk. unfold scenario_car. fp_tac;
    first [ apply send_control_all_fp | apply last_or_fp
          | apply R_store; constructor; exact Hk | idtac ].
  apply for_while_running_fp. intros i. fp_tac.
  apply R_store; constructor; exact Hk.
Qed.

Lemma scenario_test_fp (params : list (string * pyval)) :
  steps R (_scenario_test params).
Proof.
  unfold _scenario_test. fp_tac; first [ apply send_control_all_fp | idtac ].
  apply for_while_running_fp. intros i. unfold random_choice. fp_tac.
Qed.

Lemma scenario_normal_fp (params : list (string * pyval)) :
  steps R (_scenario_normal params).
Proof.
  unfold _scenario_normal, normal_room, normal_car. fp_tac;
    first [ apply send_control_all_fp | apply R_store; constructor; reflexivity ].
Qed.

Lemma close_each_fp (targets : list (addr * session)) :
  steps R (close_each targets).
Proof.
  induction targets as [|[a [[sock t] gw]] targets IH]; simpl; fp_tac.
Qed.

Lemma stop_fp : steps R stop.
Proof.
  unfold stop. fp_tac; first [ apply R_stop | apply close_each_fp ].
Qed.

Lemma control_device_fp (device : string) (state : bool) :
  steps R (_control_device device state).
Proof. unfold _control_device. fp_tac; apply R_store; constructor. Qed.

Lemma scenarios_fp (name : string) (params : list (string * pyval))
    (scenario : list (string * pyval) → M unit) :
  scenarios name = Some scenario → steps R (scenario params).
Proof.
  unfold scenarios. intros Hsc.
  destruct (String.eqb name "fire1");
    [injection Hsc as <-; apply scenario_fire_fp; reflexivity|].
  destruct (String.eqb name "fire2");
    [injection Hsc as <-; apply scenario_fire_fp; reflexivity|].
  destruct (String.eqb name "co2_high");
    [injection Hsc as <-; apply scenario_co2_high_fp|].
  destruct (String.eqb name "car1");
    [injection Hsc as <-; apply scenario_car_fp; reflexivity|].
  destruct (String.eqb name "car2");
    [injection Hsc as <-; apply scenario_car_fp; reflexivity|].
  destruct (String.eqb name "normal");
    [injection Hsc as <-; apply scenario_normal_fp|].
  destruct (String.eqb name "test");
    [injection Hsc as <-; apply scenario_test_fp | discriminate].
Qed.

End FootprintMethods.



Lemma deque_last_append {A : Type} (x default : A) (dq : deque A) :
  0 < maxlen dq → deque_last (deque_append x dq) default = x.
Proof.
  intros Hpos. unfold deque_last, deque_append.
  destruct (maxlen dq); [lia|].
  destruct (_ <? _); cbn [items]; apply last_last.
Qed.

Lemma deque_append_zero {A : Type} (x : A) (dq : deque A) :
  maxlen dq = 0 → deque_append x dq = dq.
Proof. intros Hz. unfold deque_append. rewrite Hz. reflexivity. Qed.

(** X3.  [latest] after an ingest shows what was ingested: after
    [add_room] the three room values (0.0 for one not given), after
    [add_car] the temperature and the status (the previous status when
    none is given); the other fields are as before.  A [SensorData] built
    with capacity 0 keeps nothing, and [latest] keeps showing 0.0. *)
Theorem latest_returns_last_ingest (d : SensorData) :
  entity_wf d →
  (∀ ts a b c,
     latest (add_room ts a b c d)
     = Snapshot (float_or_zero a) (float_or_zero b) (float_or_zero c)
         (l_car_temp (latest d)) (car_status d) (alarm_status d)
         (sprinkler_status d))
  ∧ (∀ ts t st,
       latest (add_car ts t st d)
       = Snapshot (l_smoke (latest d)) (l_co2 (latest d)) (l_fire (latest d))
           (float_or_zero t)
           (match st with PNone => car_status d | _ => st end)
           (alarm_status d) (sprinkler_status d))
  ∧ (∀ ts a b c,
       latest (add_room ts a b c (SensorData_init 0))
       = Snapshot 0.0 0.0 0.0 0.0 (PStr "UNKNOWN") false false).
Proof.
  intros (M1 & M2 & M3 & M4 & M5 & _).
  assert (Hpos : 0 < MAX_DATA_POINTS) by (unfold MAX_DATA_POINTS; lia).
  split; [|split].
  - intros ts a b c. unfold latest, add_room.
    cbn [smoke co2 fire car_temp car_status alarm_status sprinkler_status
         l_car_temp].
    rewrite !deque_last_append by (rewrite ?M2, ?M3, ?M4; exact Hpos).
    reflexivity.
  - intros ts t st. unfold latest, add_car.
    cbn [smoke co2 fire car_temp car_status alarm_status sprinkler_status
         l_smoke l_co2 l_fire].
    rewrite deque_last_append by (rewrite M5; exact Hpos).
    reflexivity.
  - intros ts a b c. reflexivity.
Qed.

Lemma latest_returns_last_ingest_witness :
  latest (add_room 1.0 (Some 70.5%float) None None (SensorData_init MAX_DATA_POINTS))
  = Snapshot 70.5 0.0 0.0 0.0 (PStr "UNKNOWN") false false.
Proof.
  destruct (latest_returns_last_ingest (SensorData_init MAX_DATA_POINTS))
    as (Hroom & _).
  - exact SensorData_init_wf.
  - apply (Hroom 1.0%float (Some 70.5%float) None None).
Defined.

(** ** What a DATA message leaves in an entity *)

Lemma events_touch (r : shared) (s : CloudServer) :
  events (exec (touch r) s) = events s.
Proof. unfold exec, touch, modify. simpl. destruct (lock_held s); reflexivity. Qed.

Lemma entity_update_write `{PyBuiltins} (key : string) (f : SensorData → SensorData)
    (s : CloudServer) (d : SensorData) :
  sensor_data s !! key = Some d →
  ∃ s1, entity_update key f s = (Ok tt, s1)
        ∧ sensor_data s1 = <[key := f d]> (sensor_data s)
        ∧ events s1 = events s.
Proof.
  intros Hd. unfold entity_update. rewrite (run_bind _ _ _ _ _ (entity_run key s d Hd)).
  eexists. split; [reflexivity|].
  cbn [sensor_data events with_sensor_data].
  rewrite sensor_data_touch, events_touch. split; reflexivity.
Qed.

Lemma add_event_write `{PyBuiltins} (msg : string) (s : CloudServer) :
  ∃ s1, add_event msg s = (Ok tt, s1)
        ∧ sensor_data s1 = sensor_data s
        ∧ event_texts s1 = event_texts s ++ [msg].
Proof.
  eexists. split; [reflexivity|]. unfold event_texts.
  cbn [sensor_data events with_events].
  change (exec (touch EventLog) ?x) with (exec (touch EventLog) x).
  split.
  - etransitivity; [apply sensor_data_touch | reflexivity].
  - rewrite map_app. f_equal.
    etransitivity; [apply f_equal, events_touch | reflexivity].
Qed.

(** [when c: entity.<field> = ...; self.add_event(msg)] *)
Lemma when_write_event `{PyBuiltins} (c : bool) (key msg : string)
    (f : SensorData → SensorData) (s : CloudServer) (d : SensorData) :
  sensor_data s !! key = Some d →
  ∃ s1, when c (entity_update key f;; add_event msg) s = (Ok tt, s1)
        ∧ sensor_data s1 = (if c then <[key := f d]> (sensor_data s) else sensor_data s)
        ∧ event_texts s1 = event_texts s ++ (if c then [msg] else []).
Proof.
  intros Hd. destruct c; cbn [when].
  - destruct (entity_update_write key f s d Hd) as (s1 & Hs1 & Hd1 & He1).
    rewrite (run_bind _ _ _ _ _ Hs1).
    destruct (add_event_write msg s1) as (s2 & Hs2 & Hd2 & He2).
    exists s2. split; [exact Hs2|]. split; [congruence|].
    rewrite He2. unfold event_texts. rewrite He1. reflexivity.
  - exists s. rewrite app_nil_r. repeat split.
Qed.

(** [c and not entity.<flag>] *)
Lemma flag_due_run `{PyBuiltins} (c : bool) (key : string)
    (flag : SensorData → bool) (s : CloudServer) (d : SensorData) :
  sensor_data s !! key = Some d →
  ∃ s1, and_then c (d ← entity key; mret (negb (flag d))) s
        = (Ok (c && negb (flag d)), s1)
        ∧ sensor_data s1 = sensor_data s ∧ events s1 = events s.
Proof.
  intros Hd. destruct c; cbn [and_then andb].
  - rewrite (run_bind _ _ _ _ _ (entity_run key s d Hd)).
    eexists. split; [reflexivity|].
    rewrite sensor_data_touch, events_touch. split; reflexivity.
  - exists s. repeat split.
Qed.

Lemma thresholds_insert (key : string) (v : float) (d : SensorData)
    (m : gmap string SensorData) :
  m !! key = Some d →
  let m1 := if PrimFloat.leb ALARM_THRESHOLD v && negb (alarm_status d)
            then <[key := set_alarm_status true d]> m else m in
  let d1 := if PrimFloat.leb ALARM_THRESHOLD v && negb (alarm_status d)
            then set_alarm_status true d else d in
  m1 !! key = Some d1
  ∧ (if PrimFloat.leb SPRINKLER_THRESHOLD v && negb (sprinkler_status d1)
     then <[key := set_sprinkler_status true d1]> m1 else m1)
    = <[key := thresholds v d]> m.
Proof.
  intros Hd. cbv zeta. destruct d as [ts sm co fi ct cs al sp].
  unfold thresholds, set_alarm_status, set_sprinkler_status.
  cbn [alarm_status sprinkler_status timestamps smoke co2 fire car_temp car_status].
  destruct (PrimFloat.leb ALARM_THRESHOLD v), (PrimFloat.leb SPRINKLER_THRESHOLD v),
    al, sp; cbn [andb orb negb alarm_status sprinkler_status];
    rewrite ?lookup_insert_eq, ?insert_insert_eq;
    (split; [first [exact Hd | reflexivity]|]);
    first [reflexivity | symmetry; apply insert_id; exact Hd].
Qed.

(** The threshold checks on an entity that is in the store. *)
Lemma check_thresholds_run `{PyBuiltins} (key : string) (v : float)
    (e1 e2 : string) (s : CloudServer) (d : SensorData) :
  sensor_data s !! key = Some d →
  ∃ s1, check_thresholds key v e1 e2 s = (Ok tt, s1)
        ∧ sensor_data s1 = <[key := thresholds v d]> (sensor_data s)
        ∧ event_texts s1 = event_texts s ++ threshold_events v d e1 e2.
Proof.
  intros Hd. unfold check_thresholds.
  destruct (flag_due_run (PrimFloat.leb ALARM_THRESHOLD v) key alarm_status s d Hd)
    as (s1 & Hs1 & Hd1 & He1).
  rewrite (run_bind _ _ _ _ _ Hs1).
  destruct (when_write_event (PrimFloat.leb ALARM_THRESHOLD v && negb (alarm_status d))
              key e1 (set_alarm_status true) s1 d) as (s2 & Hs2 & Hd2 & He2).
  { rewrite Hd1. exact Hd. }
  rewrite (run_bind _ _ _ _ _ Hs2).
  destruct (thresholds_insert key v d (sensor_data s) Hd) as [Hl Hfinal].
  cbv zeta in Hl, Hfinal.
  set (d1 := if PrimFloat.leb ALARM_THRESHOLD v && negb (alarm_status d)
             then set_alarm_status true d else d) in *.
  assert (Hd2' : sensor_data s2 !! key = Some d1) by (rewrite Hd2, Hd1; exact Hl).
  destruct (flag_due_run (PrimFloat.leb SPRINKLER_THRESHOLD v) key sprinkler_status
              s2 d1 Hd2') as (s3 & Hs3 & Hd3 & He3).
  rewrite (run_bind _ _ _ _ _ Hs3).
  destruct (when_write_event
              (PrimFloat.leb SPRINKLER_THRESHOLD v && negb (sprinkler_status d1))
              key e2 (set_sprinkler_status true) s3 d1) as (s4 & Hs4 & Hd4 & He4).
  { rewrite Hd3. exact Hd2'. }
  exists s4. split; [exact Hs4|]. split.
  - rewrite Hd4, Hd3, Hd2, Hd1. exact Hfinal.
  - rewrite He4. unfold event_texts at 1. rewrite He3. fold (event_texts s2).
    rewrite He2. unfold event_texts at 1. rewrite He1. fold (event_texts s).
    unfold threshold_events. rewrite <- app_assoc. do 2 f_equal.
    assert (sprinkler_status d1 = sprinkler_status d) as ->; [|reflexivity].
    subst d1. destruct (_ && _); reflexivity.
Qed.

Lemma present_run `{PyBuiltins} (sensors : list (string * pyval))
    (k1 k2 k3 : string) (s : CloudServer) :
  or_else (lift (py_contains k1 (PDict sensors)))
    (or_else (lift (py_contains k2 (PDict sensors)))
             (lift (py_contains k3 (PDict sensors)))) s
  = (Ok (present sensors [k1; k2; k3]), s).
Proof.
  unfold or_else, mbind, M_bind, lift, present. cbn [py_contains existsb].
  destruct (bool_decide (is_Some (assoc k1 sensors)));
    destruct (bool_decide (is_Some (assoc k2 sensors)));
    destruct (bool_decide (is_Some (assoc k3 sensors))); reflexivity.
Qed.

Lemma present2_run `{PyBuiltins} (sensors : list (string * pyval))
    (k1 k2 : string) (s : CloudServer) :
  or_else (lift (py_contains k1 (PDict sensors)))
          (lift (py_contains k2 (PDict sensors))) s
  = (Ok (present sensors [k1; k2]), s).
Proof.
  unfold or_else, mbind, M_bind, lift, present. cbn [py_contains existsb].
  destruct (bool_decide (is_Some (assoc k1 sensors)));
    destruct (bool_decide (is_Some (assoc k2 sensors))); reflexivity.
Qed.

Lemma sensor_float_reading `{PyBuiltins} (sensors : list (string * pyval))
    (key : string) (default : float) (s : CloudServer) :
  sensor_float (PDict sensors) key default s
  = (py_float (reading sensors key default), s).
Proof.
  unfold sensor_float, mbind, M_bind, lift, reading. cbn [py_get]. reflexivity.
Qed.

(** The block of a room, run on a message that has one of its keys and
    whose three readings [float] accepts. *)
Lemma on_data_room_run `{PyBuiltins} (key k1 k2 k3 e1 e2 : string)
    (sensors : list (string * pyval)) (ts : float) (s : CloudServer)
    (d : SensorData) (v1 v2 v3 : float) :
  present sensors [k1; k2; k3] = true →
  sensor_data s !! key = Some d →
  py_float (reading sensors k1 0.0) = Ok v1 →
  py_float (reading sensors k2 0.0) = Ok v2 →
  py_float (reading sensors k3 0.0) = Ok v3 →
  ∃ s1, _on_data_room key k1 k2 k3 e1 e2 (PDict sensors) ts s = (Ok tt, s1)
        ∧ sensor_data s1 = <[key := room_sample ts v1 v2 v3 d]> (sensor_data s)
        ∧ event_texts s1
          = event_texts s
            ++ threshold_events v1 (add_room ts (Some v1) (Some v2) (Some v3) d) e1 e2.
Proof.
  intros Hp Hd H1 H2 H3. unfold _on_data_room.
  rewrite (run_bind _ _ _ _ _ (present_run sensors k1 k2 k3 s)), Hp. cbn [when].
  rewrite (run_bind _ _ s s v1) by (rewrite sensor_float_reading, H1; reflexivity).
  rewrite (run_bind _ _ s s v2) by (rewrite sensor_float_reading, H2; reflexivity).
  rewrite (run_bind _ _ s s v3) by (rewrite sensor_float_reading, H3; reflexivity).
  destruct (entity_update_write key (add_room ts (Some v1) (Some v2) (Some v3)) s d Hd)
    as (s1 & Hs1 & Hd1 & He1).
  rewrite (run_bind _ _ _ _ _ Hs1).
  destruct (check_thresholds_run key v1 e1 e2 s1
              (add_room ts (Some v1) (Some v2) (Some v3) d)) as (s2 & Hs2 & Hd2 & He2).
  { rewrite Hd1. apply lookup_insert_eq. }
  exists s2. split; [exact Hs2|]. split.
  - rewrite Hd2, Hd1, insert_insert_eq. reflexivity.
  - rewrite He2. unfold event_texts at 1. rewrite He1. reflexivity.
Qed.

(** X4.  The block of [_on_data] for one room.  When the message has none
    of the room's three keys the block does nothing.  When it has one and
    [float] accepts the three readings (0.0 stands for an absent key), the
    room gets one sample, the timestamp and the three values appended to
    their sequences, each flag is set when the smoke value is at or over
    its threshold, and one event is appended for each flag that went from
    off to on; no other entity changes.  When [float] rejects a reading,
    the block raises before anything is stored. *)
Theorem on_data_room_block `{PyBuiltins} (key k1 k2 k3 e1 e2 : string)
    (sensors : list (string * pyval)) (ts : float) (s : CloudServer) :
  let block := _on_data_room key k1 k2 k3 e1 e2 (PDict sensors) ts in
  (present sensors [k1; k2; k3] = false → block s = (Ok tt, s))
  ∧ (∀ d v1 v2 v3,
       present sensors [k1; k2; k3] = true →
       sensor_data s !! key = Some d →
       py_float (reading sensors k1 0.0) = Ok v1 →
       py_float (reading sensors k2 0.0) = Ok v2 →
       py_float (reading sensors k3 0.0) = Ok v3 →
       fst (block s) = Ok tt
       ∧ sensor_data (exec block s)
         = <[key := room_sample ts v1 v2 v3 d]> (sensor_data s)
       ∧ event_texts (exec block s)
         = event_texts s ++ threshold_events v1 d e1 e2)
  ∧ (∀ e, present sensors [k1; k2; k3] = true →
       (py_float (reading sensors k1 0.0) = Raise e
        ∨ (is_Ok (py_float (reading sensors k1 0.0))
           ∧ py_float (reading sensors k2 0.0) = Raise e)
        ∨ (is_Ok (py_float (reading sensors k1 0.0))
           ∧ is_Ok (py_float (reading sensors k2 0.0))
           ∧ py_float (reading sensors k3 0.0) = Raise e)) →
       block s = (Raise e, s)).
Proof.
  cbv zeta. split; [|split].
  - intros Hp. unfold _on_data_room.
    rewrite (run_bind _ _ _ _ _ (present_run sensors k1 k2 k3 s)), Hp. reflexivity.
  - intros d v1 v2 v3 Hp Hd H1 H2 H3.
    destruct (on_data_room_run key k1 k2 k3 e1 e2 sensors ts s d v1 v2 v3
                Hp Hd H1 H2 H3) as (s1 & Hs1 & Hd1 & He1).
    unfold exec. rewrite Hs1. cbn [fst snd]. repeat split; assumption.
  - intros e Hp Herr. unfold _on_data_room.
    rewrite (run_bind _ _ _ _ _ (present_run sensors k1 k2 k3 s)), Hp. cbn [when].
    destruct Herr as [E1|[[[v1 E1] E2]|[[v1 E1] [[v2 E2] E3]]]].
    + unfold mbind, M_bind. rewrite sensor_float_reading, E1. reflexivity.
    + rewrite (run_bind _ _ s s v1) by (rewrite sensor_float_reading, E1; reflexivity).
      unfold mbind, M_bind. rewrite sensor_float_reading, E2. reflexivity.
    + rewrite (run_bind _ _ s s v1) by (rewrite sensor_float_reading, E1; reflexivity).
      rewrite (run_bind _ _ s s v2) by (rewrite sensor_float_reading, E2; reflexivity).
      unfold mbind, M_bind. rewrite sensor_float_reading, E3. reflexivity.
Qed.

Lemma on_data_room_block_witness :
  sensor_data
    (exec (@_on_data_room example_builtins "1200400" "smoke1" "co2_1" "fire1"
             "alarm on" "sprinkler on" (PDict [("smoke1"%string, PFloat 70.5)]) 1.0)
          example_init)
  = <["1200400"%string := room_sample 1.0 70.5 0.0 0.0 (SensorData_init MAX_DATA_POINTS)]>
      (sensor_data example_init).
Proof.
  destruct (@on_data_room_block example_builtins "1200400" "smoke1" "co2_1" "fire1"
              "alarm on" "sprinkler on" [("smoke1"%string, PFloat 70.5)] 1.0
              example_init) as (_ & Hrun & _).
  destruct (Hrun (SensorData_init MAX_DATA_POINTS) 70.5%float 0.0%float 0.0%float)
    as (_ & Hstore & _).
  - vm_compute. reflexivity.
  - vm_compute. reflexivity.
  - reflexivity.
  - reflexivity.
  - reflexivity.
  - exact Hstore.
Defined.

(** The block of a vehicle, run on a message that has one of its keys and
    whose temperature [float] accepts. *)
Lemma on_data_car_run `{PyBuiltins} (key k1 k2 prefix : string)
    (sensors : list (string * pyval)) (ts : float) (s : CloudServer)
    (d : SensorData) (t : float) :
  present sensors [k1; k2] = true →
  sensor_data s !! key = Some d →
  py_float (reading sensors k1 25.0) = Ok t →
  ∃ s1, _on_data_car key k1 k2 prefix (PDict sensors) ts s = (Ok tt, s1)
        ∧ sensor_data s1
          = <[key := add_car ts (Some t)
                       (from_option id (PStr "UNKNOWN") (assoc k2 sensors)) d]>
              (sensor_data s)
        ∧ event_texts s1
          = event_texts s
            ++ car_events prefix (car_status d)
                 (from_option id (PStr "UNKNOWN") (assoc k2 sensors)).
Proof.
  intros Hp Hd Ht. unfold _on_data_car.
  rewrite (run_bind _ _ _ _ _ (present2_run sensors k1 k2 s)), Hp. cbn [when].
  rewrite (run_bind _ _ s s t) by (rewrite sensor_float_reading, Ht; reflexivity).
  rewrite (run_bind (lift (py_get (PDict sensors) k2 (PStr "UNKNOWN"))) _ s s
             (from_option id (PStr "UNKNOWN") (assoc k2 sensors)) eq_refl).
  rewrite (run_bind _ _ _ _ _ (entity_run key s d Hd)). cbv zeta.
  destruct (entity_update_write key
              (add_car ts (Some t) (from_option id (PStr "UNKNOWN") (assoc k2 sensors)))
              (exec (touch EntityStore) s) d) as (s1 & Hs1 & Hd1 & He1).
  { rewrite sensor_data_touch. exact Hd. }
  rewrite (run_bind _ _ _ _ _ Hs1).
  rewrite sensor_data_touch in Hd1. rewrite events_touch in He1.
  unfold car_events.
  destruct (py_eq (car_status d) (from_option id (PStr "UNKNOWN") (assoc k2 sensors)));
    cbn [negb when].
  - exists s1. split; [reflexivity|]. split; [exact Hd1|].
    rewrite app_nil_r. unfold event_texts. rewrite He1. reflexivity.
  - match goal with |- context [add_event ?msg s1] =>
      destruct (add_event_write msg s1) as (s2 & Hs2 & Hd2 & He2)
    end.
    exists s2. split; [exact Hs2|]. split; [congruence|].
    rewrite He2. unfold event_texts at 1. rewrite He1. reflexivity.
Qed.

(** X5.  The block of [_on_data] for one vehicle.  When the message has
    neither the temperature nor the status key the block does nothing.
    When it has one and [float] accepts the temperature (25.0 stands for an
    absent key), the vehicle gets the timestamp and the temperature
    appended and takes the status of the message, where ['UNKNOWN'] stands
    for an absent key and JSON [null] leaves the status as it was; one
    event is appended when the status of the message is not equal to the
    one the vehicle had, and none otherwise; no other entity changes.  So
    a message with a temperature and no status resets the status to
    ['UNKNOWN']. *)
Theorem on_data_car_block `{PyBuiltins} (key k1 k2 prefix : string)
    (sensors : list (string * pyval)) (ts : float) (s : CloudServer) :
  let block := _on_data_car key k1 k2 prefix (PDict sensors) ts in
  let status := from_option id (PStr "UNKNOWN") (assoc k2 sensors) in
  (present sensors [k1; k2] = false → block s = (Ok tt, s))
  ∧ (∀ d t,
       present sensors [k1; k2] = true →
       sensor_data s !! key = Some d →
       py_float (reading sensors k1 25.0) = Ok t →
       fst (block s) = Ok tt
       ∧ sensor_data (exec block s)
         = <[key := add_car ts (Some t) status d]> (sensor_data s)
       ∧ event_texts (exec block s)
         = event_texts s ++ car_events prefix (car_status d) status
       ∧ (assoc k2 sensors = None →
          car_status <$> sensor_data (exec block s) !! key = Some (PStr "UNKNOWN"))
       ∧ (assoc k2 sensors = Some PNone →
          car_status <$> sensor_data (exec block s) !! key = Some (car_status d))).
Proof.
  cbv zeta. split.
  - intros Hp. unfold _on_data_car.
    rewrite (run_bind _ _ _ _ _ (present2_run sensors k1 k2 s)), Hp. reflexivity.
  - intros d t Hp Hd Ht.
    destruct (on_data_car_run key k1 k2 prefix sensors ts s d t Hp Hd Ht)
      as (s1 & Hs1 & Hd1 & He1).
    unfold exec. rewrite Hs1. cbn [fst snd].
    split; [reflexivity|]. split; [exact Hd1|]. split; [exact He1|].
    rewrite Hd1, lookup_insert_eq. split; intros ->; reflexivity.
Qed.

Lemma on_data_car_block_witness :
  car_status
    <$> sensor_data
          (exec (@_on_data_car example_builtins "car1" "car1_temp" "car1_status"
                   "Car1 " (PDict [("car1_temp"%string, PFloat 31.5)]) 1.0)
                example_init) !! "car1"%string
  = Some (PStr "UNKNOWN").
Proof.
  destruct (@on_data_car_block example_builtins "car1" "car1_temp" "car1_status"
              "Car1 " [("car1_temp"%string, PFloat 31.5)] 1.0 example_init)
    as (_ & Hrun).
  destruct (Hrun (SensorData_init MAX_DATA_POINTS) 31.5%float)
    as (_ & _ & _ & Hunknown & _).
  - vm_compute. reflexivity.
  - vm_compute. reflexivity.
  - reflexivity.
  - apply Hunknown. reflexivity.
Defined.

(** *** The two thresholds *)

(** A value at or over the sprinkler threshold is at or over the alarm
    threshold. *)
Lemma sprinkler_over_alarm (v : float) :
  PrimFloat.leb SPRINKLER_THRESHOLD v = true →
  PrimFloat.leb ALARM_THRESHOLD v = true.
Proof.
  rewrite !leb_spec.
  replace (Prim2SF SPRINKLER_THRESHOLD)
    with (S754_finite false 4573968371548160 (-46)) by (vm_compute; reflexivity).
  replace (Prim2SF ALARM_THRESHOLD)
    with (S754_finite false 8444249301319680 (-47)) by (vm_compute; reflexivity).
  unfold SFleb, SFcompare.
  destruct (Prim2SF v) as [sg|sg| |sg m e]; try (intros Hv; exact Hv).
  destruct sg; [intros Hv; exact Hv|].
  destruct (Z.compare_spec (-46) e) as [He|He|He];
    destruct (Z.compare_spec (-47) e) as [He'|He'|He']; try lia;
    try reflexivity; try discriminate.
Qed.

(** X6.  The threshold checks that follow every room sample, in
    [_on_data] and in the fire scenarios.  A smoke value at or over the
    sprinkler threshold leaves both the sprinkler and the alarm on, since
    it is at or over the alarm threshold too; a value that is not at or
    over the alarm threshold, a lower one or a NaN, changes neither flag
    and appends no event. *)
Theorem sprinkler_sample_sets_alarm `{PyBuiltins} (key : string) (v : float)
    (e1 e2 : string) (s : CloudServer) (d : SensorData) :
  sensor_data s !! key = Some d →
  let s' := exec (check_thresholds key v e1 e2) s in
  (PrimFloat.leb SPRINKLER_THRESHOLD v = true →
   alarm_of key s' = Some true ∧ sprinkler_of key s' = Some true)
  ∧ (PrimFloat.leb ALARM_THRESHOLD v = false →
     alarm_of key s' = Some (alarm_status d)
     ∧ sprinkler_of key s' = Some (sprinkler_status d)
     ∧ event_texts s' = event_texts s).
Proof.
  intros Hd. cbv zeta.
  destruct (check_thresholds_run key v e1 e2 s d Hd) as (s1 & Hs1 & Hd1 & He1).
  unfold exec, alarm_of, sprinkler_of. rewrite Hs1. cbn [snd].
  rewrite Hd1, lookup_insert_eq. cbn [fmap option_fmap option_map thresholds
    alarm_status sprinkler_status].
  split.
  - intros Hv. rewrite Hv, (sprinkler_over_alarm v Hv), !orb_true_r.
    split; reflexivity.
  - intros Hv.
    assert (Hs : PrimFloat.leb SPRINKLER_THRESHOLD v = false).
    { destruct (PrimFloat.leb SPRINKLER_THRESHOLD v) eqn:E; [|reflexivity].
      rewrite (sprinkler_over_alarm v E) in Hv. discriminate. }
    rewrite He1. unfold threshold_events. rewrite Hv, Hs, !orb_false_r.
    cbn [andb app]. rewrite app_nil_r. repeat split.
Qed.

Lemma sprinkler_sample_sets_alarm_witness :
  alarm_of "1200400"
    (exec (@check_thresholds example_builtins "1200400" 70.5 "alarm on" "sprinkler on")
          example_init)
  = Some true.
Proof.
  destruct (@sprinkler_sample_sets_alarm example_builtins "1200400" 70.5%float
              "alarm on" "sprinkler on" example_init
              (SensorData_init MAX_DATA_POINTS)) as (Hover & _).
  - vm_compute. reflexivity.
  - destruct Hover as [Halarm _]; [reflexivity | exact Halarm].
Defined.

(** ** Counting and dispatch *)

Lemma counters_same_accepts : accepts counters_same.
Proof.
  split; [split|..]; unfold counters_same.
  - intros s. split; reflexivity.
  - intros s1 s2 s3 [H1 H2] [H3 H4]. split; congruence.
  - intros e s. split; reflexivity.
  - intros r s. split; reflexivity.
  - intros s. split; reflexivity.
  - intros v s. split; reflexivity.
  - intros sock msg s. split; reflexivity.
  - intros sock s. split; reflexivity.
Qed.

Section Counting.
Context `{PyBuiltins}.
Variable R : relation CloudServer.
Hypothesis R_acc : accepts R.
Hypothesis R_event : ∀ e s, R s (with_events (events s ++ [e]) s).
Hypothesis R_store : ∀ key f, store_write key f → upd_ok R key f.

(** What follows the counting in the body of [_on_data]. *)
Lemma on_data_tail_fp (seq0 gw sensors : pyval) :
  steps R (
    n ← lift (py_len sensors);
    logger_info (LogData seq0 gw n);;
    ts ← time_time;
    _on_data_room "1200400" "smoke1" "co2_1" "fire1"
      "🔔 ALARM_1200400 -> ON" "💦 SPRINKLER_1200400 -> ON" sensors ts;;
    _on_data_room "1211371" "smoke2" "co2_2" "fire2"
      "🔔 ALARM_1211371 -> ON" "💦 SPRINKLER_1211371 -> ON" sensors ts;;
    _on_data_car "car1" "car1_temp" "car1_status" "🚗 Car1 " sensors ts;;
    _on_data_car "car2" "car2_temp" "car2_status" "🚙 Car2 " sensors ts).
Proof.
  fp_tac; first [ apply on_data_room_fp; solve [assumption | reflexivity]
                | apply on_data_car_fp; solve [assumption | reflexivity] ].
Qed.

End Counting.

(** X7.  [_on_data] counts a message before it looks at the readings: for
    a JSON object whose [seq] is an integer (or absent, which reads as 0),
    processed when [last_seq] is an integer, the packet counter grows by
    one and [last_seq] becomes the larger of the two, whatever [sensors]
    holds and whether or not the readings are stored. *)
Theorem on_data_counts `{PyBuiltins} (d : list (string * pyval)) (a b : Z)
    (s : CloudServer) :
  last_seq s = PInt a →
  from_option id (PInt 0) (assoc "seq" d) = PInt b →
  let s' := exec (_on_data (PDict d)) s in
  packet_count s' = (packet_count s + 1)%Z ∧ last_seq s' = PInt (Z.max a b).
Proof.
  intros Hcur Hseq. cbv zeta.
  assert (Hbody : counters_same
            (with_packet_count (packet_count s + 1)%Z
               (with_last_seq (PInt (Z.max a b)) s))
            (snd (_on_data_body (PDict d) s))).
  { unfold _on_data_body.
    rewrite (run_bind (lift (py_get (PDict d) "seq" (PInt 0))) _ s s (PInt b))
      by (unfold lift; cbn [py_get]; rewrite Hseq; reflexivity).
    rewrite (run_bind (lift (py_get (PDict d) "gateway_id" (PStr "UNKNOWN"))) _ s s
               _ eq_refl).
    rewrite (run_bind (lift (py_get (PDict d) "sensors" (PDict []))) _ s s _ eq_refl).
    rewrite (run_bind (gets last_seq) _ s s _ eq_refl), Hcur.
    rewrite (run_bind (lift (py_max (PInt a) (PInt b))) _ s s (PInt (Z.max a b))).
    2:{ unfold lift, py_max, py_gt. cbn [as_number num_gt].
        destruct (Z.ltb_spec a b); do 3 f_equal; lia. }
    rewrite (run_bind (modify (with_last_seq (PInt (Z.max a b)))) _ s _ tt eq_refl).
    rewrite (run_bind (modify _) _ _ _ tt eq_refl).
    cbn [packet_count with_last_seq].
    apply (on_data_tail_fp counters_same counters_same_accepts).
    - intros e s0. split; reflexivity.
    - intros key f _ s0 d0 _. split; reflexivity. }
  unfold exec, _on_data, try_except.
  destruct (_on_data_body (PDict d) s) as [[u|e] s1]; cbn [snd] in *;
    destruct Hbody as [Hp Hl]; cbn in Hp, Hl |- *; split; assumption.
Qed.

Lemma on_data_counts_witness :
  packet_count (exec (@_on_data example_builtins data_hot) example_init) = 1%Z
  ∧ last_seq (exec (@_on_data example_builtins data_hot) example_init) = PInt 3.
Proof.
  apply (@on_data_counts example_builtins
           [("type"%string, PStr "DATA"); ("gateway_id"%string, PStr "GW-1");
            ("seq"%string, PInt 3);
            ("sensors"%string, PDict [("smoke1"%string, PFloat 70.5)])]
           0%Z 3%Z example_init); reflexivity.
Defined.

(** X8.  A DATA message whose [seq] is not a number (a string, [null], a
    list, an object) is dropped whole: [max] raises [TypeError] before the
    packet is counted, so nothing is counted and no reading is stored; the
    error is logged and [_on_data] returns. *)
Theorem on_data_rejects_seq `{PyBuiltins} (d : list (string * pyval)) (v : pyval)
    (s : CloudServer) :
  is_Some (as_number (last_seq s)) →
  assoc "seq" d = Some v → as_number v = None →
  _on_data (PDict d) s
  = (Ok tt, with_log (log s ++ [LogProcessDataError TypeError]) s).
Proof.
  intros [cur Hcur] Hseq Hv. unfold _on_data, try_except, _on_data_body.
  rewrite (run_bind (lift (py_get (PDict d) "seq" (PInt 0))) _ s s v)
    by (unfold lift; cbn [py_get]; rewrite Hseq; reflexivity).
  rewrite (run_bind (lift (py_get (PDict d) "gateway_id" (PStr "UNKNOWN"))) _ s s
             _ eq_refl).
  rewrite (run_bind (lift (py_get (PDict d) "sensors" (PDict []))) _ s s _ eq_refl).
  rewrite (run_bind (gets last_seq) _ s s _ eq_refl).
  unfold mbind, M_bind, lift, py_max, py_gt. rewrite Hv. reflexivity.
Qed.

Lemma on_data_rejects_seq_witness :
  @_on_data example_builtins (PDict [("seq"%string, PStr "7")]) example_init
  = (Ok tt,
     with_log (log example_init ++ [LogProcessDataError TypeError]) example_init).
Proof.
  apply (@on_data_rejects_seq example_builtins [("seq"%string, PStr "7")] (PStr "7")
           example_init).
  - eexists. reflexivity.
  - reflexivity.
  - reflexivity.
Defined.

(** *** Messages that are not DATA *)

Lemma data_same_accepts : accepts data_same.
Proof.
  split; [split|..]; unfold data_same.
  - intros s. repeat split.
  - intros s1 s2 s3 (A1 & A2 & A3 & A4) (B1 & B2 & B3 & B4).
    repeat split; congruence.
  - intros e s. repeat split.
  - intros r s. repeat split.
  - intros s. repeat split.
  - intros v s. repeat split.
  - intros sock msg s. repeat split.
  - intros sock s. repeat split.
Qed.

(** The [with self.lock] block of [_process_message]. *)
Lemma session_refresh_fp `{PyBuiltins} (R : relation CloudServer) (a : addr)
    (data : pyval) :
  accepts R →
  (∀ a sock t gw now g s,
     clients s !! a = Some (sock, t, gw) →
     R s (with_clients (<[a := (sock, now, g)]> (clients s)) s)) →
  steps R (with_lock (
    touch Registry;;
    registered ← gets (λ s, clients s !! a);
    match registered with
    | Some (s0, _, gw) =>
        now ← time_time;
        g ← lift (py_get data "gateway_id" gw);
        modify (λ s, with_clients (<[a := (s0, now, g)]> (clients s)) s)
    | None => mret tt
    end)).
Proof.
  intros R_acc R_refresh. pose proof (acc_pre R R_acc) as Hpre.
  apply fp_with_lock; [assumption|].
  apply steps_bind; [exact Hpre | apply fp_touch; assumption|]. intros _.
  intros s. unfold mbind, M_bind, gets.
  destruct (clients s !! a) as [[[s0 t] gw]|] eqn:Ha; [|reflexivity].
  unfold time_time, lift. cbn [fst snd].
  destruct (py_get data "gateway_id" gw) as [g|e]; cbn [fst snd modify].
  - etransitivity; [apply (acc_ticks R R_acc)|].
    apply (R_refresh a s0 t gw). exact Ha.
  - apply (acc_ticks R R_acc).
Qed.

(** X9.  Only DATA messages reach the entities.  A line that decodes to a
    JSON object whose [type] is not equal to ['DATA'] -- a HEARTBEAT, any
    other type, no type at all -- is processed without an exception and
    leaves the entity store, the event log, the packet counter and
    [last_seq] as they were. *)
Theorem only_data_reaches_entities `{PyBuiltins} (sock : nat) (a : addr)
    (line : string) (d : list (string * pyval)) (s : CloudServer) :
  json_loads line = Some (PDict d) →
  py_eq (from_option id (PStr "") (assoc "type" d)) (PStr "DATA") = false →
  fst (_process_message sock a line s) = Ok tt
  ∧ data_same s (exec (_process_message sock a line) s).
Proof.
  intros Hj Ht. split.
  - apply process_message_returns. right. exists d. exact Hj.
  - pose proof data_same_accepts as Hacc. pose proof (acc_pre _ Hacc) as Hpre.
    apply steps_exec. unfold _process_message. rewrite Hj.
    apply steps_bind; [exact Hpre | |].
    + apply session_refresh_fp; [exact Hacc|].
      intros a0 sk t gw now g s0 _. repeat split.
    + intros _ s0.
      rewrite (run_bind (lift (py_get (PDict d) "type" (PStr ""))) _ s0 s0 _ eq_refl).
      cbn [py_get]. rewrite Ht.
      destruct (py_eq _ (PStr "HEARTBEAT")); [|reflexivity].
      apply (on_heartbeat_fp data_same Hacc).
Qed.

Lemma only_data_reaches_entities_witness :
  data_same example_accepted
    (exec (@_process_message example_builtins 1 example_addr msg_heartbeat1)
          example_accepted).
Proof.
  destruct (@only_data_reaches_entities example_builtins 1 example_addr
              msg_heartbeat1
              [("type"%string, PStr "HEARTBEAT"); ("gateway_id"%string, PStr "GW-1");
               ("seq"%string, PInt 1)] example_accepted) as [_ Hsame].
  - reflexivity.
  - reflexivity.
  - exact Hsame.
Defined.

(** X10.  A line that is JSON but not an object (a list, a number, a
    string, [null]) makes [_process_message] raise [AttributeError] at its
    first [data.get]; the lock is released, and the registry, the entity
    store, the event log, the counters and the logger's output are as they
    were. *)
Theorem non_object_message_raises `{PyBuiltins} (sock : nat) (a : addr)
    (line : string) (v : pyval) (s : CloudServer) :
  json_loads line = Some v → (∀ d, v ≠ PDict d) →
  let s' := exec (_process_message sock a line) s in
  fst (_process_message sock a line s) = Raise AttributeError
  ∧ lock_held s' = false ∧ clients s' = clients s
  ∧ data_same s s' ∧ log s' = log s.
Proof.
  intros Hj Hv. cbv zeta.
  unfold exec, _process_message, with_lock, mbind, M_bind, touch, modify, gets,
    time_time, lift, data_same.
  rewrite Hj. cbn [lock_held with_lock_held clients fst snd].
  destruct (clients s !! a) as [[[s0 t] gw]|];
    destruct v; try (exfalso; eapply Hv; reflexivity);
    cbn; try destruct (lock_held s); repeat split.
Qed.

Lemma non_object_message_raises_witness :
  fst (@_process_message example_builtins 1 example_addr msg_list example_accepted)
  = Raise AttributeError.
Proof.
  destruct (@non_object_message_raises example_builtins 1 example_addr msg_list
              (PList [PInt 1]) example_accepted) as (Hraise & _).
  - reflexivity.
  - discriminate.
  - exact Hraise.
Defined.

(** *** The keys of the registry *)

Lemma sockets_same_accepts : accepts sockets_same.
Proof.
  split; [split|..]; unfold sockets_same.
  - intros s a. reflexivity.
  - intros s1 s2 s3 H12 H23 a. rewrite H23. apply H12.
  - intros e s a. reflexivity.
  - intros r s a. reflexivity.
  - intros s a. reflexivity.
  - intros v s a. reflexivity.
  - intros sock msg s a. reflexivity.
  - intros sock s a. reflexivity.
Qed.

(** X11.  Processing a line never registers a session, never removes one
    and never changes the socket of one, whatever the line holds and
    whether or not its sender is registered: the registry has the same
    addresses with the same sockets afterwards. *)
Theorem messages_keep_registry_keys `{PyBuiltins} (sock : nat) (a : addr)
    (line : string) (s : CloudServer) :
  let s' := exec (_process_message sock a line) s in
  sockets_same s s' ∧ dom (clients s') = dom (clients s).
Proof.
  cbv zeta.
  assert (Hsame : sockets_same s (exec (_process_message sock a line) s)).
  { apply steps_exec. apply (process_message_fp sockets_same sockets_same_accepts).
    - intros e s0 a0. reflexivity.
    - intros a0 sk t gw now g s0 Ha a1. cbn [clients with_clients].
      destruct (decide (a1 = a0)) as [Heq|Hne].
      + rewrite Heq, dict_lookup_insert_eq. symmetry.
        exact (f_equal (fmap (λ e : session, fst (fst e))) Ha).
      + rewrite dict_lookup_insert_ne by congruence. reflexivity.
    - intros v s0 a0. reflexivity.
    - intros s0 a0. reflexivity.
    - intros key f _ s0 d _ a0. reflexivity. }
  split; [exact Hsame|].
  apply set_eq. intros a0. rewrite !dict_elem_of_dom.
  specialize (Hsame a0).
  destruct (clients (exec (_process_message sock a line) s) !! a0),
    (clients s !! a0); simpl in Hsame; try discriminate;
    split; intros [x Hx]; eauto; discriminate.
Qed.

(** ** The devices *)

(** The branch of [_control_device] for one flag of an entity that is in
    the store. *)
Lemma control_flag_run `{PyBuiltins} (room msg : string)
    (f : SensorData → SensorData) (s : CloudServer) (d : SensorData) :
  sensor_data s !! room = Some d →
  ∃ s1,
    (touch EntityStore;;
     known ← gets (λ s, bool_decide (is_Some (sensor_data s !! room)));
     when known (entity_update room f;; add_event msg)) s = (Ok tt, s1)
    ∧ sensor_data s1 = <[room := f d]> (sensor_data s)
    ∧ event_texts s1 = event_texts s ++ [msg].
Proof.
  intros Hd.
  rewrite (run_bind (touch EntityStore) _ s (exec (touch EntityStore) s) tt eq_refl).
  rewrite (run_bind (gets _) _ _ _ _ eq_refl).
  rewrite bool_decide_true by (rewrite sensor_data_touch, Hd; eauto).
  destruct (when_write_event true room msg f (exec (touch EntityStore) s) d)
    as (s1 & Hs1 & Hd1 & He1).
  { rewrite sensor_data_touch. exact Hd. }
  exists s1. split; [exact Hs1|].
  rewrite sensor_data_touch in Hd1. unfold event_texts in He1 |- *.
  rewrite events_touch in He1. split; assumption.
Qed.

Lemma control_flag_unknown `{PyBuiltins} (room msg : string)
    (f : SensorData → SensorData) (s : CloudServer) :
  sensor_data s !! room = None →
  (touch EntityStore;;
   known ← gets (λ s, bool_decide (is_Some (sensor_data s !! room)));
   when known (entity_update room f;; add_event msg)) s
  = (Ok tt, exec (touch EntityStore) s).
Proof.
  intros Hd.
  rewrite (run_bind (touch EntityStore) _ s (exec (touch EntityStore) s) tt eq_refl).
  rewrite (run_bind (gets _) _ _ _ _ eq_refl).
  rewrite bool_decide_false; [reflexivity|].
  rewrite sensor_data_touch, Hd. apply is_Some_None.
Qed.

Lemma data_same_touch (r : shared) (s : CloudServer) :
  data_same s (exec (touch r) s).
Proof.
  unfold data_same, exec, touch, modify. simpl.
  destruct (lock_held s); repeat split.
Qed.

(** X12.  [_control_device] on an entity that is in the store.  The device
    [ALARM_<key>] assigns the alarm flag and [SPRINK_<key>] the sprinkler
    flag, to the given state; the other flag, the status and every sample
    stay, as does every other entity; and one event is appended each time,
    also when the flag already had that state. *)
Theorem control_device_sets_flag `{PyBuiltins} (room : string) (state : bool)
    (s : CloudServer) (d : SensorData) :
  sensor_data s !! room = Some d →
  (let s' := exec (_control_device ("ALARM_" +:+ room) state) s in
   sensor_data s' = <[room := set_alarm_status state d]> (sensor_data s)
   ∧ event_texts s'
     = event_texts s ++ [("🔔 ALARM_" +:+ room +:+ " -> " +:+ on_off state)%string])
  ∧ (let s' := exec (_control_device ("SPRINK_" +:+ room) state) s in
     sensor_data s' = <[room := set_sprinkler_status state d]> (sensor_data s)
     ∧ event_texts s'
       = event_texts s ++ [("💦 SPRINK_" +:+ room +:+ " -> " +:+ on_off state)%string]).
Proof.
  intros Hd. split; cbv zeta; unfold exec, _control_device.
  - change (startswith ("ALARM_" +:+ room) "ALARM_") with true.
    change (str_drop 6 ("ALARM_" +:+ room)) with room. cbv iota.
    match goal with |- context [add_event ?msg] =>
      destruct (control_flag_run room msg (set_alarm_status state) s d Hd)
        as (s1 & Hs1 & Hd1 & He1)
    end.
    rewrite Hs1. split; assumption.
  - change (startswith ("SPRINK_" +:+ room) "ALARM_") with false.
    change (startswith ("SPRINK_" +:+ room) "SPRINK_") with true.
    change (str_drop 7 ("SPRINK_" +:+ room)) with room. cbv iota.
    match goal with |- context [add_event ?msg] =>
      destruct (control_flag_run room msg (set_sprinkler_status state) s d Hd)
        as (s1 & Hs1 & Hd1 & He1)
    end.
    rewrite Hs1. split; assumption.
Qed.

Lemma control_device_sets_flag_witness :
  sprinkler_of "1200400"
    (exec (@_control_device example_builtins "SPRINK_1200400" true) example_init)
  = Some true.
Proof.
  destruct (@control_device_sets_flag example_builtins "1200400" true example_init
              (SensorData_init MAX_DATA_POINTS)) as [_ [Hstore _]].
  - vm_compute. reflexivity.
  - unfold sprinkler_of.
    change ("SPRINK_" +:+ "1200400")%string with "SPRINK_1200400"%string in Hstore.
    rewrite Hstore, lookup_insert_eq. reflexivity.
Defined.

(** X13.  [_control_device] on anything else.  A device name with neither
    prefix changes nothing at all; a name with a prefix and a key that is
    not in the store leaves the store, the event log and the counters as
    they were.  In particular the name [SPRINKLER_<key>], which is the one
    the events of [_on_data] show, is not a device: the prefix the method
    tests is [SPRINK_]. *)
Theorem control_unknown_device `{PyBuiltins} (device : string) (state : bool)
    (s : CloudServer) :
  (startswith device "ALARM_" = false → startswith device "SPRINK_" = false →
   _control_device device state s = (Ok tt, s))
  ∧ (startswith device "ALARM_" = true →
     sensor_data s !! str_drop 6 device = None →
     data_same s (exec (_control_device device state) s))
  ∧ (startswith device "ALARM_" = false → startswith device "SPRINK_" = true →
     sensor_data s !! str_drop 7 device = None →
     data_same s (exec (_control_device device state) s))
  ∧ (∀ room, _control_device ("SPRINKLER_" +:+ room) state s = (Ok tt, s)).
Proof.
  split; [|split; [|split]].
  - intros Ha Hs. unfold _control_device. rewrite Ha, Hs. reflexivity.
  - intros Ha Hd. unfold exec, _control_device. rewrite Ha.
    rewrite (control_flag_unknown _ _ _ s Hd). apply data_same_touch.
  - intros Ha Hs Hd. unfold exec, _control_device. rewrite Ha, Hs.
    rewrite (control_flag_unknown _ _ _ s Hd). apply data_same_touch.
  - intros room. reflexivity.
Qed.

Lemma control_unknown_device_witness :
  @_control_device example_builtins "FAN_1200400" true example_init
  = (Ok tt, example_init).
Proof.
  destruct (@control_unknown_device example_builtins "FAN_1200400" true example_init)
    as (Hnone & _).
  apply Hnone; reflexivity.
Defined.

(** ** Shutdown *)

Lemma close_each_run (targets : list (addr * session)) (s : CloudServer) :
  close_each targets s
  = (Ok tt, with_closed_socks (closing targets (closed_socks s)) s).
Proof.
  revert s. induction targets as [|[a [[sock t] gw]] targets IH]; intros s.
  - destruct s. reflexivity.
  - cbn [close_each].
    rewrite (run_bind (sock_close sock) _ s _ tt eq_refl), IH. reflexivity.
Qed.

Lemma closing_spec (targets : list (addr * session)) (closed : gset nat) (sock : nat) :
  sock ∈ closing targets closed
  ↔ sock ∈ closed ∨ ∃ a t gw, (a, (sock, t, gw)) ∈ targets.
Proof.
  revert closed. induction targets as [|[a [[sk t] gw]] targets IH]; intros closed.
  - cbn. split; [tauto|]. intros [Hc|(a & t & gw & Hin)]; [exact Hc|].
    apply elem_of_nil in Hin. contradiction.
  - cbn [closing foldl]. change (foldl _ ?c targets) with (closing targets c).
    rewrite IH. cbn [fst snd]. rewrite elem_of_union, elem_of_singleton. split.
    + intros [[->|Hc]|(a' & t' & gw' & Hin)].
      * right. exists a, t, gw. constructor.
      * left. exact Hc.
      * right. exists a', t', gw'. constructor. exact Hin.
    + intros [Hc|(a' & t' & gw' & Hin)]; [tauto|].
      apply elem_of_cons in Hin as [Heq|Hin].
      * injection Heq as _ -> _ _. tauto.
      * right. eauto.
Qed.

Lemma stop_run (s : CloudServer) :
  running s = true →
  let s' := exec stop s in
  running s' = false
  ∧ closed_socks s' = closing (dict_items (clients s)) (closed_socks s)
  ∧ broken_socks s' = broken_socks s
  ∧ clients s' = clients s
  ∧ data_same s s'
  ∧ outbox s' = outbox s
  ∧ log s' = log s ++ [LogStopping; LogStopped].
Proof.
  intros Hrun. cbv zeta. unfold exec, stop.
  rewrite (run_bind (gets running) _ s s true) by (unfold gets; rewrite Hrun; reflexivity).
  cbn [when].
  unfold with_lock, mbind, M_bind, logger_info, touch, modify, gets.
  cbn [lock_held with_lock_held clients with_running with_log fst snd].
  rewrite close_each_run. cbn. rewrite <- app_assoc. repeat split.
Qed.

Lemma deliveries_none (msg : string) (s : CloudServer)
    (targets : list (addr * session)) :
  (∀ a sock t gw, (a, (sock, t, gw)) ∈ targets → sock ∈ closed_socks s) →
  deliveries msg s targets = [].
Proof.
  intros Hall.
  induction targets as [|[a [[sock t] gw]] targets IH]; [reflexivity|].
  rewrite deliveries_cons. cbn [fst snd].
  assert (Hw : writable s sock = false).
  { unfold writable. apply bool_decide_false. intros Hn. apply Hn.
    apply elem_of_union_l, (Hall a sock t gw). constructor. }
  rewrite Hw, IH; [reflexivity|].
  intros a' sock' t' gw' Hin. apply (Hall a' sock' t' gw'). constructor. exact Hin.
Qed.

(** X14.  [stop] on a running server clears [running], closes the socket
    of every registered session and logs that it did; it removes no
    session from the registry (the handlers do that when they see the flag)
    and touches no entity, event or counter.  On a server that is not
    running it does nothing, so a second [stop] changes nothing. *)
Theorem stop_closes_sessions (s : CloudServer) :
  (running s = false → stop s = (Ok tt, s))
  ∧ (running s = true →
     let s' := exec stop s in
     running s' = false
     ∧ (∀ a sock t gw, clients s !! a = Some (sock, t, gw) → sock ∈ closed_socks s')
     ∧ closed_socks s ⊆ closed_socks s'
     ∧ clients s' = clients s
     ∧ data_same s s'
     ∧ log s' = log s ++ [LogStopping; LogStopped]
     ∧ stop s' = (Ok tt, s')).
Proof.
  split.
  - intros Hrun. unfold stop.
    rewrite (run_bind (gets running) _ s s false)
      by (unfold gets; rewrite Hrun; reflexivity).
    reflexivity.
  - intros Hrun. cbv zeta.
    destruct (stop_run s Hrun) as (Hr & Hcl & Hbr & Hc & Hd & Ho & Hl).
    split; [exact Hr|]. split; [|split; [|split; [|split; [|split]]]];
      try assumption.
    + intros a sock t gw Ha. rewrite Hcl. apply closing_spec. right.
      exists a, t, gw. apply dict_elem_of_items. exact Ha.
    + intros sock Hin. rewrite Hcl. apply closing_spec. left. exact Hin.
    + unfold stop.
      rewrite (run_bind (gets running) _ (exec stop s) (exec stop s) false)
        by (unfold gets; rewrite Hr; reflexivity).
      reflexivity.
Qed.

Lemma stop_closes_sessions_witness :
  running (exec stop example_accepted) = false.
Proof.
  destruct (stop_closes_sessions example_accepted) as [_ Hstop].
  destruct Hstop as (Hr & _); [reflexivity | exact Hr].
Defined.

(** X15.  After [stop] a broadcast reaches nobody: the sessions are still
    in the registry, every write to them fails on the closed socket, and
    nothing is added to what was sent. *)
Theorem broadcast_after_stop `{PyBuiltins} (command : string)
    (params : list (string * pyval)) (s : CloudServer) :
  running s = true →
  let s' := exec stop s in
  let s'' := exec (_send_control_all command params) s' in
  outbox s'' = outbox s
  ∧ clients s'' = clients s
  ∧ fst (_send_control_all command params s') = Ok tt.
Proof.
  intros Hrun. cbv zeta.
  destruct (stop_run s Hrun) as (Hr & Hcl & Hbr & Hc & Hd & Ho & Hl).
  destruct (send_control_all_effect command params (exec stop s))
    as (s1 & Hs1 & Hc1 & Hout1 & Hlog1).
  cbv zeta in Hs1, Hc1, Hout1, Hlog1.
  unfold exec at 1 3. rewrite Hs1. cbn [fst snd].
  rewrite Hc1, Hout1, Hc, Ho.
  split; [|split; reflexivity].
  match goal with |- context [deliveries ?msg ?st ?tg] =>
    rewrite (deliveries_none msg st tg)
  end.
  - apply app_nil_r.
  - intros a sock t gw Hin. rewrite Hcl. apply closing_spec. right.
    exists a, t, gw. exact Hin.
Qed.

Lemma broadcast_after_stop_witness :
  outbox (exec (@_send_control_all example_builtins "PAUSE" [])
            (exec stop example_three))
  = outbox example_three.
Proof.
  destruct (@broadcast_after_stop example_builtins "PAUSE" [] example_three)
    as (Hout & _).
  - reflexivity.
  - exact Hout.
Defined.

(** X16.  A handler whose connection was accepted under an address that
    is in use removes the newer session when it ends: the registry is keyed
    by address alone, so after a second connection is accepted from the
    address of a first one, the end of the first handler closes its own
    socket and removes the session of the second, whose socket stays open
    and out of reach of every broadcast. *)
Theorem stale_handler_removes_session `{PyBuiltins} (sock1 sock2 : nat) (a : addr)
    (s : CloudServer) :
  running s = true → wait_for_step s = false →
  sock1 ≠ sock2 → sock2 ∉ closed_socks s →
  let s1 := exec (_accept sock2 a) s in
  let r := _client_loop sock1 a [RecvData []] s1 in
  (∃ now, clients s1 !! a = Some (sock2, now, PStr "UNKNOWN"))
  ∧ fst r = Closed
  ∧ clients (snd r) !! a = None
  ∧ (sock2 ∉ closed_socks (snd r))
  ∧ (∀ command params,
       outbox (exec (_send_control_all command params) (snd r))
       = outbox (snd r)
         ++ (deliveries (control_text command params (clock (ticks (snd r))))
               (snd r) (dict_items (delete a (clients s))))).
Proof.
  intros Hrun Hwait Hne Hopen. cbv zeta.
  set (s1 := exec (_accept sock2 a) s).
  assert (Hc1 : clients s1 = <[a := (sock2, clock (ticks s), PStr "UNKNOWN")]> (clients s))
    by reflexivity.
  assert (Hr1 : running s1 = true) by exact Hrun.
  assert (Hw1 : wait_for_step s1 = false) by exact Hwait.
  assert (Hcl1 : closed_socks s1 = closed_socks s) by reflexivity.
  split; [exists (clock (ticks s)); rewrite Hc1; apply dict_lookup_insert_eq|].
  unfold _client_loop. cbn [_client_loop_from]. rewrite Hr1, (step_gate_free s1 Hw1).
  cbn [negb fst snd].
  destruct (client_loop_finally_effect sock1 a s1) as (Hc & Hcl & _).
  split; [reflexivity|]. split; [rewrite Hc; apply dict_lookup_delete_eq|].
  split.
  - rewrite Hcl, Hcl1. rewrite elem_of_union, elem_of_singleton.
    intros [Heq|Hin]; [congruence | exact (Hopen Hin)].
  - intros command params.
    destruct (send_control_all_effect command params
                (exec (_client_loop_finally sock1 a) s1))
      as (s2 & Hs2 & _ & Hout2 & _).
    cbv zeta in Hs2, Hout2. unfold exec at 1. rewrite Hs2. cbn [snd].
    rewrite Hout2, Hc, Hc1, dict_delete_insert_eq. reflexivity.
Qed.

Lemma stale_handler_removes_session_witness :
  clients (snd (@_client_loop example_builtins 1 example_addr [RecvData []]
                  (exec (@_accept example_builtins 2 example_addr) example_accepted)))
    !! example_addr
  = None.
Proof.
  destruct (@stale_handler_removes_session example_builtins 1 2 example_addr
              example_accepted) as (_ & _ & Hgone & _).
  - reflexivity.
  - reflexivity.
  - discriminate.
  - exact (not_elem_of_empty 2).
  - exact Hgone.
Defined.

(** ** Scenarios *)

Lemma quiet_accepts : accepts quiet.
Proof.
  split; [split|..]; unfold quiet.
  - intros s. repeat split.
  - intros s1 s2 s3 (A1 & A2 & A3) (B1 & B2 & B3). repeat split; congruence.
  - intros e s. repeat split.
  - intros r s. repeat split.
  - intros s. repeat split.
  - intros v s. repeat split.
  - intros sock msg s. repeat split.
  - intros sock s. repeat split.
Qed.

(** A broadcast returns and leaves the store, the events and [running]. *)
Lemma send_control_all_quiet `{PyBuiltins} (command : string)
    (params : list (string * pyval)) (s : CloudServer) :
  ∃ s1, _send_control_all command params s = (Ok tt, s1) ∧ quiet s s1.
Proof.
  destruct (send_control_all_run command params s) as (s1 & Hs1 & _).
  exists s1. split; [exact Hs1|].
  pose proof (send_control_all_fp quiet quiet_accepts command params s) as Hq.
  rewrite Hs1 in Hq. exact Hq.
Qed.

Lemma last_or_run `{PyBuiltins} (key : string) (field : SensorData → deque float)
    (default : float) (s : CloudServer) (d : SensorData) :
  sensor_data s !! key = Some d →
  ∃ s1, last_or key field default s = (Ok (last_or_default (field d) default), s1)
        ∧ quiet s s1.
Proof.
  intros Hd.
  pose proof (last_or_fp quiet quiet_accepts key field default s) as Hq.
  unfold last_or in *. rewrite (run_bind _ _ _ _ _ (entity_run key s d Hd)) in *.
  unfold last_or_default.
  destruct (items (field d)) as [|x xs] eqn:E.
  - eexists. split; [reflexivity | exact Hq].
  - rewrite (run_bind _ _ _ _ _
               (entity_run key (exec (touch EntityStore) s) d
                  ltac:(rewrite sensor_data_touch; exact Hd))) in *.
    eexists. split; [reflexivity | exact Hq].
Qed.

Lemma entity_update_quiet `{PyBuiltins} (key : string) (f : SensorData → SensorData)
    (s : CloudServer) (d : SensorData) :
  sensor_data s !! key = Some d →
  ∃ s1, entity_update key f s = (Ok tt, s1)
        ∧ sensor_data s1 = <[key := f d]> (sensor_data s)
        ∧ events s1 = events s ∧ running s1 = running s.
Proof.
  intros Hd. unfold entity_update. rewrite (run_bind _ _ _ _ _ (entity_run key s d Hd)).
  eexists. split; [reflexivity|].
  cbn [sensor_data events running with_sensor_data].
  rewrite sensor_data_touch, events_touch.
  repeat split. unfold exec, touch, modify. simpl. destruct (lock_held s); reflexivity.
Qed.

(** The rounds of the co2 scenario on a running server. *)
Lemma co2_loop `{PyBuiltins} (key : string) (base : float) (indices : list nat)
    (s : CloudServer) (d : SensorData) :
  running s = true → sensor_data s !! key = Some d →
  ∃ s1 stamps,
    for_while_running indices (λ i,
      ts ← time_time;
      entity_update key
        (add_room ts None (Some (base + 50.0 + float_of_nat (i * 25))%float) None)) s
    = (Ok tt, s1)
    ∧ length stamps = length indices
    ∧ sensor_data s1 = <[key := co2_rounds base (zip stamps indices) d]> (sensor_data s)
    ∧ events s1 = events s ∧ running s1 = true.
Proof.
  revert s d. induction indices as [|i indices IH]; intros s d Hrun Hd.
  - exists s, []. cbn. split; [reflexivity|]. split; [reflexivity|].
    split; [symmetry; apply insert_id; exact Hd|]. split; [reflexivity | exact Hrun].
  - cbn [for_while_running].
    rewrite (run_bind (gets running) _ s s true)
      by (unfold gets; rewrite Hrun; reflexivity).
    cbv beta iota.
    set (ts := clock (ticks s)). set (sa := with_ticks (S (ticks s)) s).
    destruct (entity_update_quiet key
                (add_room ts None (Some (co2_value base i)) None) sa d Hd)
      as (sb & Hsb & Hdb & Heb & Hrb).
    destruct (IH sb (add_room ts None (Some (co2_value base i)) None d))
      as (s1 & stamps & Hs1 & Hlen & Hd1 & He1 & Hr1).
    { rewrite Hrb. exact Hrun. }
    { rewrite Hdb. apply lookup_insert_eq. }
    exists s1, (ts :: stamps).
    split.
    + rewrite (run_bind _ _ s sb tt); [exact Hs1|].
      rewrite (run_bind time_time _ s sa ts eq_refl). exact Hsb.
    + split; [cbn; rewrite Hlen; reflexivity|].
      split; [|split; [rewrite He1, Heb; reflexivity | exact Hr1]].
      rewrite Hd1, Hdb. cbn [sensor_data with_ticks]. subst sa.
      cbn [sensor_data with_ticks]. rewrite insert_insert_eq. reflexivity.
Qed.

Lemma for_while_running_stopped (indices : list nat) (body : nat → M unit)
    (s : CloudServer) :
  running s = false → for_while_running indices body s = (Ok tt, s).
Proof.
  intros Hrun. destruct indices as [|i indices]; [reflexivity|].
  cbn [for_while_running].
  rewrite (run_bind (gets running) _ s s false)
    by (unfold gets; rewrite Hrun; reflexivity).
  reflexivity.
Qed.

Lemma co2_rounds_flags (base : float) (rounds : list (float * nat)) (d : SensorData) :
  alarm_status (co2_rounds base rounds d) = alarm_status d
  ∧ sprinkler_status (co2_rounds base rounds d) = sprinkler_status d
  ∧ car_status (co2_rounds base rounds d) = car_status d.
Proof.
  revert d. induction rounds as [|r rounds IH]; intros d; [repeat split|].
  cbn [co2_rounds foldl].
  change (foldl _ ?x rounds) with (co2_rounds base rounds x).
  destruct (IH (add_room (fst r) None (Some (co2_value base (snd r))) None d))
    as (H1 & H2 & H3).
  rewrite H1, H2, H3. repeat split.
Qed.

(** X17.  The co2 scenario.  It works on room 1200400 when its [room]
    parameter is ['1200400'] or absent, and on room 1211371 for every other
    value.  On a running server it feeds that room twenty samples, the
    clock reading of each round with co2 [base + 50 + 25 i] in round [i],
    where [base] is the room's last co2 value (800.0 when it has none);
    smoke and fire are not given, so each sample records 0.0 for them.  The
    flags and the status of the room stay, no event is appended, and no
    other entity changes.  On a server that is not running the scenario
    only broadcasts. *)
Theorem scenario_co2_high_rounds `{PyBuiltins} (params : list (string * pyval))
    (s : CloudServer) (d : SensorData) :
  let key := co2_room params in
  let base := last_or_default (co2 d) 800.0 in
  let s' := exec (_scenario_co2_high params) s in
  sensor_data s !! key = Some d →
  fst (_scenario_co2_high params s) = Ok tt
  ∧ events s' = events s
  ∧ (running s = false → sensor_data s' = sensor_data s)
  ∧ (running s = true →
     ∃ stamps, length stamps = 20
       ∧ sensor_data s'
         = <[key := co2_rounds base (zip stamps (seq 0 20)) d]> (sensor_data s)
       ∧ alarm_of key s' = Some (alarm_status d)
       ∧ sprinkler_of key s' = Some (sprinkler_status d)).
Proof.
  cbv zeta. intros Hd. unfold exec, _scenario_co2_high. cbv zeta.
  fold (co2_room params).
  match goal with |- context [_send_control_all ?c ?p] =>
    destruct (send_control_all_quiet c p s) as (s0 & Hs0 & Hq0 & He0 & Hr0)
  end.
  rewrite (run_bind _ _ _ _ _ Hs0).
  destruct (last_or_run (co2_room params) co2 800.0 s0 d) as (sl & Hsl & Hql & Hel & Hrl).
  { rewrite Hq0. exact Hd. }
  rewrite (run_bind _ _ _ _ _ Hsl).
  destruct (running s) eqn:Hrun.
  - destruct (co2_loop (co2_room params) (last_or_default (co2 d) 800.0) (seq 0 20) sl d)
      as (s1 & stamps & Hs1 & Hlen & Hd1 & He1 & Hr1).
    { rewrite Hrl, Hr0. reflexivity. }
    { rewrite Hql, Hq0. exact Hd. }
    rewrite Hs1. cbn [fst snd].
    split; [reflexivity|]. split; [congruence|]. split; [discriminate|].
    intros _. exists stamps. split; [exact Hlen|].
    assert (Hstore : sensor_data s1
              = <[co2_room params := co2_rounds (last_or_default (co2 d) 800.0)
                                       (zip stamps (seq 0 20)) d]> (sensor_data s))
      by (rewrite Hd1, Hql, Hq0; reflexivity).
    split; [exact Hstore|].
    unfold alarm_of, sprinkler_of. rewrite Hstore, lookup_insert_eq.
    destruct (co2_rounds_flags (last_or_default (co2 d) 800.0)
                (zip stamps (seq 0 20)) d) as (Ha & Hsp & _).
    cbn [fmap option_fmap option_map]. rewrite Ha, Hsp. split; reflexivity.
  - rewrite for_while_running_stopped by (rewrite Hrl, Hr0; reflexivity).
    cbn [fst snd]. split; [reflexivity|]. split; [congruence|].
    split; [intros _; congruence | discriminate].
Qed.

Lemma scenario_co2_high_rounds_witness :
  events (exec (@_scenario_co2_high example_builtins []) example_init)
  = events example_init.
Proof.
  destruct (@scenario_co2_high_rounds example_builtins [] example_init
              (SensorData_init MAX_DATA_POINTS)) as (_ & Hev & _).
  - vm_compute. reflexivity.
  - exact Hev.
Defined.

Lemma running_same_thresholds `{PyBuiltins} (key : string) (v : float)
    (e1 e2 : string) (s : CloudServer) :
  running (exec (check_thresholds key v e1 e2) s) = running s.
Proof.
  assert (Hacc : accepts (λ s s', running s' = running s)).
  { split; [split|..].
    - intros s0. reflexivity.
    - intros s1 s2 s3 H12 H23. congruence.
    - intros e s0. reflexivity.
    - intros r s0. reflexivity.
    - intros s0. reflexivity.
    - intros b s0. reflexivity.
    - intros sock msg s0. reflexivity.
    - intros sock s0. reflexivity. }
  apply (check_thresholds_fp _ Hacc).
  - intros e s0. reflexivity.
  - intros k f _ s0 d _. reflexivity.
Qed.

(** The rounds of a fire scenario on a running server. *)
Lemma fire_loop `{PyBuiltins} (key : string) (base : float) (e1 e2 : string)
    (indices : list nat) (s : CloudServer) (d : SensorData) :
  running s = true → sensor_data s !! key = Some d →
  ∃ s1 stamps,
    for_while_running indices (λ i,
      ts ← time_time;
      entity_update key
        (add_room ts
           (Some (base + min_int_float 25 (float_of_nat i * 0.8))%float)
           (Some ((base + min_int_float 25 (float_of_nat i * 0.8)) * 10.0)%float)
           (Some ((base + min_int_float 25 (float_of_nat i * 0.8)) * 0.6)%float));;
      check_thresholds key (base + min_int_float 25 (float_of_nat i * 0.8))%float
        e1 e2) s
    = (Ok tt, s1)
    ∧ length stamps = length indices
    ∧ sensor_data s1 = <[key := fire_rounds base (zip stamps indices) d]> (sensor_data s)
    ∧ event_texts s1
      = event_texts s ++ fire_round_events base (zip stamps indices) d e1 e2
    ∧ running s1 = true.
Proof.
  revert s d. induction indices as [|i indices IH]; intros s d Hrun Hd.
  - exists s, []. cbn. split; [reflexivity|]. split; [reflexivity|].
    split; [symmetry; apply insert_id; exact Hd|].
    split; [rewrite app_nil_r; reflexivity | exact Hrun].
  - cbn [for_while_running].
    rewrite (run_bind (gets running) _ s s true)
      by (unfold gets; rewrite Hrun; reflexivity).
    cbv beta iota.
    set (ts := clock (ticks s)). set (sa := with_ticks (S (ticks s)) s).
    set (v := fire_value base i).
    destruct (entity_update_quiet key
                (add_room ts (Some v) (Some (v * 10.0)%float) (Some (v * 0.6)%float))
                sa d Hd) as (sb & Hsb & Hdb & Heb & Hrb).
    destruct (check_thresholds_run key v e1 e2 sb
                (add_room ts (Some v) (Some (v * 10.0)%float) (Some (v * 0.6)%float) d))
      as (sc & Hsc & Hdc & Hec).
    { rewrite Hdb. apply lookup_insert_eq. }
    pose proof (running_same_thresholds key v e1 e2 sb) as Hrc.
    unfold exec in Hrc. rewrite Hsc in Hrc. cbn [snd] in Hrc.
    destruct (IH sc (room_sample ts v (v * 10.0)%float (v * 0.6)%float d))
      as (s1 & stamps & Hs1 & Hlen & Hd1 & He1 & Hr1).
    { rewrite Hrc, Hrb. exact Hrun. }
    { rewrite Hdc. apply lookup_insert_eq. }
    exists s1, (ts :: stamps).
    split.
    + rewrite (run_bind _ _ s sc tt); [exact Hs1|].
      rewrite (run_bind time_time _ s sa ts eq_refl).
      rewrite (run_bind _ _ sa sb tt Hsb). exact Hsc.
    + split; [cbn; rewrite Hlen; reflexivity|].
      split; [|split; [|exact Hr1]].
      * rewrite Hd1, Hdc, Hdb. subst sa. cbn [sensor_data with_ticks].
        rewrite !insert_insert_eq. reflexivity.
      * rewrite He1, Hec. unfold event_texts at 1. rewrite Heb. subst sa.
        cbn [events with_ticks]. fold (event_texts s).
        rewrite <- app_assoc. reflexivity.
Qed.

(** X18.  A fire scenario ([_scenario_fire1] on room 1200400,
    [_scenario_fire2] on room 1211371).  On a running server it feeds the
    room thirty samples, the clock reading of each round with smoke
    [v = base + min(25, 0.8 i)] in round [i], co2 [10 v] and fire [0.6 v],
    where [base] is the room's last smoke value (the scenario's default
    when it has none); after each sample the threshold checks run, so each
    flag is set from the first round whose value reaches its threshold and
    appends its event then.  No other entity changes.  On a server that is
    not running the scenario only broadcasts. *)
Theorem scenario_fire_rounds `{PyBuiltins} (name key : string) (default : float)
    (e1 e2 : string) (s : CloudServer) (d : SensorData) :
  let base := last_or_default (smoke d) default in
  let s' := exec (scenario_fire name key default e1 e2) s in
  sensor_data s !! key = Some d →
  fst (scenario_fire name key default e1 e2 s) = Ok tt
  ∧ (running s = false → sensor_data s' = sensor_data s ∧ events s' = events s)
  ∧ (running s = true →
     ∃ stamps, length stamps = 30
       ∧ sensor_data s'
         = <[key := fire_rounds base (zip stamps (seq 0 30)) d]> (sensor_data s)
       ∧ event_texts s'
         = event_texts s
           ++ fire_round_events base (zip stamps (seq 0 30)) d e1 e2).
Proof.
  cbv zeta. intros Hd. unfold exec, scenario_fire. cbv zeta.
  match goal with |- context [_send_control_all ?c ?p] =>
    destruct (send_control_all_quiet c p s) as (s0 & Hs0 & Hq0 & He0 & Hr0)
  end.
  rewrite (run_bind _ _ _ _ _ Hs0).
  destruct (last_or_run key smoke default s0 d) as (sl & Hsl & Hql & Hel & Hrl).
  { rewrite Hq0. exact Hd. }
  rewrite (run_bind _ _ _ _ _ Hsl).
  destruct (running s) eqn:Hrun.
  - destruct (fire_loop key (last_or_default (smoke d) default) e1 e2 (seq 0 30) sl d)
      as (s1 & stamps & Hs1 & Hlen & Hd1 & He1 & Hr1).
    { rewrite Hrl, Hr0. reflexivity. }
    { rewrite Hql, Hq0. exact Hd. }
    rewrite Hs1. cbn [fst snd].
    split; [reflexivity|]. split; [discriminate|].
    intros _. exists stamps. split; [exact Hlen|]. split.
    + rewrite Hd1, Hql, Hq0. reflexivity.
    + rewrite He1. unfold event_texts. rewrite Hel, He0. reflexivity.
  - rewrite for_while_running_stopped by (rewrite Hrl, Hr0; reflexivity).
    cbn [fst snd]. split; [reflexivity|].
    split; [intros _; split; congruence | discriminate].
Qed.

Lemma scenario_fire_rounds_witness :
  fst (@_scenario_fire1 example_builtins [] example_init) = Ok tt.
Proof.
  destruct (@scenario_fire_rounds example_builtins "fire1" "1200400" 45.0
              "🔔 ALARM_1200400 -> ON" "💦 SPRINKLER_1200400 -> ON" example_init
              (SensorData_init MAX_DATA_POINTS)) as (Hok & _).
  - vm_compute. reflexivity.
  - exact Hok.
Defined.

(** *** The reset scenario *)

Lemma reset_room_insert (room : string) (d : SensorData)
    (m : gmap string SensorData) :
  m !! room = Some d →
  let m1 := if alarm_status d then <[room := set_alarm_status false d]> m else m in
  let d1 := if alarm_status d then set_alarm_status false d else d in
  m1 !! room = Some d1
  ∧ (if sprinkler_status d1 then <[room := set_sprinkler_status false d1]> m1 else m1)
    = <[room := reset_room d]> m.
Proof.
  intros Hd. cbv zeta. destruct d as [ts sm co fi ct cs al sp].
  unfold reset_room, set_alarm_status, set_sprinkler_status.
  cbn [alarm_status sprinkler_status timestamps smoke co2 fire car_temp car_status].
  destruct al, sp; cbn [alarm_status sprinkler_status];
    rewrite ?lookup_insert_eq, ?insert_insert_eq;
    (split; [first [exact Hd | reflexivity]|]);
    first [reflexivity | symmetry; apply insert_id; exact Hd].
Qed.

Lemma normal_room_reset `{PyBuiltins} (room : string) (s : CloudServer)
    (d : SensorData) :
  sensor_data s !! room = Some d →
  ∃ s1, normal_room room s = (Ok tt, s1)
        ∧ sensor_data s1 = <[room := reset_room d]> (sensor_data s)
        ∧ event_texts s1 = event_texts s ++ reset_room_events room d.
Proof.
  intros Hd. unfold normal_room.
  rewrite (run_bind _ _ _ _ _ (entity_run room s d Hd)).
  destruct (when_write_event (alarm_status d) room
              ("🔔 ALARM_" +:+ room +:+ " -> OFF") (set_alarm_status false)
              (exec (touch EntityStore) s) d) as (s1 & Hs1 & Hd1 & He1).
  { rewrite sensor_data_touch. exact Hd. }
  rewrite (run_bind _ _ _ _ _ Hs1).
  rewrite sensor_data_touch in Hd1.
  unfold event_texts in He1. rewrite events_touch in He1. fold (event_texts s) in He1.
  fold (event_texts s1) in He1.
  destruct (reset_room_insert room d (sensor_data s) Hd) as [Hl Hfinal].
  cbv zeta in Hl, Hfinal.
  set (d1 := if alarm_status d then set_alarm_status false d else d) in *.
  assert (Hd1' : sensor_data s1 !! room = Some d1) by (rewrite Hd1; exact Hl).
  rewrite (run_bind _ _ _ _ _ (entity_run room s1 d1 Hd1')).
  destruct (when_write_event (sprinkler_status d1) room
              ("💦 SPRINKLER_" +:+ room +:+ " -> OFF") (set_sprinkler_status false)
              (exec (touch EntityStore) s1) d1) as (s2 & Hs2 & Hd2 & He2).
  { rewrite sensor_data_touch. exact Hd1'. }
  rewrite sensor_data_touch in Hd2.
  unfold event_texts in He2. rewrite events_touch in He2. fold (event_texts s1) in He2.
  fold (event_texts s2) in He2.
  exists s2. split; [exact Hs2|]. split.
  - rewrite Hd2, Hd1. exact Hfinal.
  - rewrite He2, He1. unfold reset_room_events. rewrite <- app_assoc.
    do 2 f_equal.
    assert (sprinkler_status d1 = sprinkler_status d) as ->; [|reflexivity].
    subst d1. destruct (alarm_status d); reflexivity.
Qed.

Lemma py_eq_str (v : pyval) (t : string) : py_eq v (PStr t) = true → v = PStr t.
Proof.
  destruct v; cbn; try discriminate.
  intros Ht. apply String.eqb_eq in Ht. congruence.
Qed.

Lemma normal_car_reset `{PyBuiltins} (car upper : string) (s : CloudServer)
    (d : SensorData) :
  sensor_data s !! car = Some d →
  ∃ s1, normal_car car upper s = (Ok tt, s1)
        ∧ sensor_data s1 = <[car := set_car_status (PStr "PARKED") d]> (sensor_data s)
        ∧ event_texts s1 = event_texts s ++ reset_car_events upper d.
Proof.
  intros Hd. unfold normal_car.
  rewrite (run_bind _ _ _ _ _ (entity_run car s d Hd)). cbv zeta.
  destruct (when_write_event (negb (py_eq (car_status d) (PStr "PARKED"))) car
              ("🚗 " +:+ upper +:+ " " +:+ py_str (car_status d) +:+ " -> PARKED")
              (set_car_status (PStr "PARKED"))
              (exec (touch EntityStore) s) d) as (s1 & Hs1 & Hd1 & He1).
  { rewrite sensor_data_touch. exact Hd. }
  rewrite sensor_data_touch in Hd1.
  unfold event_texts in He1. rewrite events_touch in He1. fold (event_texts s) in He1.
  fold (event_texts s1) in He1.
  exists s1. split; [exact Hs1|]. unfold reset_car_events.
  destruct (py_eq (car_status d) (PStr "PARKED")) eqn:Hp; cbn [negb] in *.
  - split; [|exact He1]. rewrite Hd1. symmetry. apply insert_id.
    rewrite Hd. f_equal. apply py_eq_str in Hp.
    destruct d. cbn in Hp |- *. subst. reflexivity.
  - split; assumption.
Qed.

(** X19.  The reset scenario [normal].  Whether or not the server is
    running, it leaves both rooms with the alarm and the sprinkler off and
    both vehicles with status ['PARKED']; no sample of any entity changes.
    It appends one event for each flag that was on and one for each vehicle
    whose status was not ['PARKED'], in that order, and none otherwise, so a
    second run right after the first appends nothing. *)
Theorem scenario_normal_resets `{PyBuiltins} (params : list (string * pyval))
    (s : CloudServer) (dA dB d1 d2 : SensorData) :
  sensor_data s !! "1200400" = Some dA →
  sensor_data s !! "1211371" = Some dB →
  sensor_data s !! "car1" = Some d1 →
  sensor_data s !! "car2" = Some d2 →
  let s' := exec (_scenario_normal params) s in
  fst (_scenario_normal params s) = Ok tt
  ∧ sensor_data s'
    = <["car2" := set_car_status (PStr "PARKED") d2]>
        (<["car1" := set_car_status (PStr "PARKED") d1]>
           (<["1211371" := reset_room dB]>
              (<["1200400" := reset_room dA]> (sensor_data s))))
  ∧ event_texts s'
    = event_texts s
      ++ reset_room_events "1200400" dA ++ reset_room_events "1211371" dB
      ++ reset_car_events "CAR1" d1 ++ reset_car_events "CAR2" d2
  ∧ event_texts (exec (_scenario_normal params) s') = event_texts s'.
Proof.
  assert (Hrun : ∀ s dA dB d1 d2,
    sensor_data s !! "1200400" = Some dA →
    sensor_data s !! "1211371" = Some dB →
    sensor_data s !! "car1" = Some d1 →
    sensor_data s !! "car2" = Some d2 →
    ∃ s4, _scenario_normal params s = (Ok tt, s4)
      ∧ sensor_data s4
        = <["car2" := set_car_status (PStr "PARKED") d2]>
            (<["car1" := set_car_status (PStr "PARKED") d1]>
               (<["1211371" := reset_room dB]>
                  (<["1200400" := reset_room dA]> (sensor_data s))))
      ∧ event_texts s4
        = event_texts s
          ++ reset_room_events "1200400" dA ++ reset_room_events "1211371" dB
          ++ reset_car_events "CAR1" d1 ++ reset_car_events "CAR2" d2).
  { clear. intros s dA dB d1 d2 HA HB H1 H2. unfold _scenario_normal.
    match goal with |- context [_send_control_all ?c ?p] =>
      destruct (send_control_all_quiet c p s) as (s0 & Hs0 & Hq0 & He0 & Hr0)
    end.
    rewrite (run_bind _ _ _ _ _ Hs0).
    destruct (normal_room_reset "1200400" s0 dA) as (sA & HsA & HdA & HeA).
    { rewrite Hq0. exact HA. }
    rewrite (run_bind _ _ _ _ _ HsA).
    destruct (normal_room_reset "1211371" sA dB) as (sB & HsB & HdB & HeB).
    { rewrite HdA, lookup_insert_ne by discriminate. rewrite Hq0. exact HB. }
    rewrite (run_bind _ _ _ _ _ HsB).
    destruct (normal_car_reset "car1" "CAR1" sB d1) as (s3 & Hs3 & Hd3 & He3).
    { rewrite HdB, HdA, !lookup_insert_ne by discriminate. rewrite Hq0. exact H1. }
    rewrite (run_bind _ _ _ _ _ Hs3).
    destruct (normal_car_reset "car2" "CAR2" s3 d2) as (s4 & Hs4 & Hd4 & He4).
    { rewrite Hd3, HdB, HdA, !lookup_insert_ne by discriminate.
      rewrite Hq0. exact H2. }
    exists s4. split; [exact Hs4|]. split.
    - rewrite Hd4, Hd3, HdB, HdA, Hq0. reflexivity.
    - rewrite He4, He3, HeB, HeA. unfold event_texts at 1. rewrite He0.
      rewrite <- !app_assoc. reflexivity. }
  intros HA HB H1 H2. cbv zeta.
  destruct (Hrun s dA dB d1 d2 HA HB H1 H2) as (s4 & Hs4 & Hd4 & He4).
  unfold exec. rewrite !Hs4. cbn [fst snd].
  split; [reflexivity|]. split; [exact Hd4|]. split; [exact He4|].
  destruct (Hrun s4 (reset_room dA) (reset_room dB)
              (set_car_status (PStr "PARKED") d1) (set_car_status (PStr "PARKED") d2))
    as (s5 & Hs5 & _ & He5).
  - rewrite Hd4, !lookup_insert_ne by discriminate. apply lookup_insert_eq.
  - rewrite Hd4, !lookup_insert_ne by discriminate. apply lookup_insert_eq.
  - rewrite Hd4, lookup_insert_ne by discriminate. apply lookup_insert_eq.
  - rewrite Hd4. apply lookup_insert_eq.
  - rewrite Hs5. cbn [snd]. rewrite He5.
    unfold reset_room_events, reset_car_events, reset_room.
    cbn. rewrite !app_nil_r. reflexivity.
Qed.

Lemma scenario_normal_resets_witness :
  fst (@_scenario_normal example_builtins [] example_init) = Ok tt.
Proof.
  destruct (@scenario_normal_resets example_builtins [] example_init
              (SensorData_init MAX_DATA_POINTS) (SensorData_init MAX_DATA_POINTS)
              (SensorData_init MAX_DATA_POINTS) (SensorData_init MAX_DATA_POINTS))
    as (Hok & _).
  - vm_compute. reflexivity.
  - vm_compute. reflexivity.
  - vm_compute. reflexivity.
  - vm_compute. reflexivity.
  - exact Hok.
Defined.

(** ** The console thread and the server object *)

Section ConsoleRules.
Context `{PyBuiltins} `{PyConsole}.
Variable R : relation CloudServer.
Hypothesis R_pre : PreOrder R.

Lemma csteps_ret {A : Type} (a : A) : csteps R (mret a).
Proof. intros c. reflexivity. Qed.

Lemma csteps_bind {A B : Type} (m : C A) (f : A → C B) :
  csteps R m → (∀ a, csteps R (f a)) → csteps R (m ≫= f).
Proof.
  intros Hm Hf c. unfold mbind, C_bind. specialize (Hm c).
  destruct (m c) as [[a|e|] c']; simpl in *.
  - etransitivity; [exact Hm | apply Hf].
  - exact Hm.
  - exact Hm.
Qed.

Lemma csteps_fail {A : Type} (e : console_exn) : csteps R (@cfail A e).
Proof. intros c. reflexivity. Qed.

Lemma csteps_try {A : Type} (body : C A) (handler : console_exn → C A) :
  csteps R body → (∀ e, csteps R (handler e)) → csteps R (ctry body handler).
Proof.
  intros Hb Hh c. unfold ctry. specialize (Hb c).
  destruct (body c) as [[a|e|] c']; simpl in *.
  - exact Hb.
  - etransitivity; [exact Hb | apply Hh].
  - exact Hb.
Qed.

Lemma csteps_on_server {A : Type} (m : M A) : steps R m → csteps R (on_server m).
Proof.
  intros Hm c. unfold on_server. specialize (Hm (server c)).
  destruct (m (server c)) as [[a|e] s']; exact Hm.
Qed.

Lemma csteps_input : csteps R console_input.
Proof.
  intros c. unfold console_input.
  destruct (stdin c) as [|[line| |e] rest]; reflexivity.
Qed.

Lemma csteps_info (e : console_entry) : csteps R (console_info e).
Proof. intros c. reflexivity. Qed.

Lemma csteps_open (fn : string) : csteps R (open_file fn).
Proof. intros c. unfold open_file. destruct (disk_ok c); reflexivity. Qed.

Lemma csteps_write_row (row : csv_row) : csteps R (write_row row).
Proof.
  intros c. unfold write_row.
  destruct (reverse (files c)) as [|[fn rows] older]; reflexivity.
Qed.

Lemma csteps_cell (dq : deque float) (idx : nat) : csteps R (cell dq idx).
Proof.
  intros c. unfold cell. destruct (items dq); [reflexivity|].
  destruct (_ !! idx); reflexivity.
Qed.

Lemma csteps_start_thread (name : string) (params : list (string * pyval)) :
  csteps R (start_thread name params).
Proof. intros c. reflexivity. Qed.

Lemma csteps_int_check (x : float) : csteps R (int_of_float_check x).
Proof.
  intros c. unfold int_of_float_check.
  destruct (PrimFloat.is_nan x); [reflexivity|].
  destruct (is_inf x); reflexivity.
Qed.

End ConsoleRules.

Ltac cs_rule :=
  lazymatch goal with
  | |- csteps _ (mret _) => apply csteps_ret
  | |- csteps _ (mbind _ _) => apply csteps_bind
  | |- csteps _ (cfail _) => apply csteps_fail
  | |- csteps _ (ctry _ _) => apply csteps_try
  | |- csteps _ (on_server _) => apply csteps_on_server
  | |- csteps _ console_input => apply csteps_input
  | |- csteps _ (console_info _) => apply csteps_info
  | |- csteps _ (open_file _) => apply csteps_open
  | |- csteps _ (write_row _) => apply csteps_write_row
  | |- csteps _ (cell _ _) => apply csteps_cell
  | |- csteps _ (start_thread _ _) => apply csteps_start_thread
  | |- csteps _ (int_of_float_check _) => apply csteps_int_check
  | |- csteps _ (match ?x with _ => _ end) => destruct x
  | |- PreOrder _ => solve [eauto using acc_pre, wr_acc, cw_writes]
  end.

Ltac cs_tac :=
  repeat first [ assumption | progress intros | cs_rule | fp_rule ].

Section ConsoleMethods.
Context `{PyBuiltins} `{PyConsole}.
Variable R : relation CloudServer.
Hypothesis R_cw : console_writes R.

Let R_w : writes R := cw_writes R R_cw.
Let R_acc : accepts R := wr_acc R R_w.
Let R_pre : PreOrder R := acc_pre R R_acc.

Ltac writes_tac :=
  first [ exact R_acc | exact (wr_event R R_w) | exact (wr_register R R_w)
        | exact (wr_refresh R R_w) | exact (wr_unregister R R_w)
        | exact (wr_last_seq R R_w) | exact (wr_packet R R_w)
        | exact (wr_stop R R_w) | exact (wr_gate R R_w)
        | exact (wr_store R R_w) ].

(** Every operation of the server makes only the writes of [writes]. *)
Lemma run_op_writes (o : op) (s : CloudServer) : R s (run_op o s).
Proof.
  pose proof R_pre as Hpre.
  destruct o as [sock a|sock a reads|sock a line|command|name params
                |device state|sock|]; simpl.
  - apply steps_exec, accept_fp; writes_tac.
  - unfold _client_loop. apply client_loop_from_fp; writes_tac.
  - apply steps_exec, process_message_fp; writes_tac.
  - apply steps_exec, send_control_all_fp; writes_tac.
  - destruct (scenarios name) as [scenario|] eqn:Hsc; [|reflexivity].
    apply steps_exec. apply (scenarios_fp R R_acc (wr_event R R_w) (wr_store R R_w)
                               name params scenario Hsc).
  - apply steps_exec, control_device_fp; writes_tac.
  - apply (wr_peer R R_w).
  - apply steps_exec, stop_fp; writes_tac.
Qed.

Lemma print_dashboard_fp : steps R _print_dashboard.
Proof. unfold _print_dashboard. fp_tac. Qed.

Lemma export_entity_cs (dt : string) (t : float) (ent : string) :
  csteps R (export_entity dt t ent).
Proof. unfold export_entity. cs_tac. Qed.

Lemma export_entities_cs (dt : string) (t : float) (ents : list string) :
  csteps R (export_entities dt t ents).
Proof.
  induction ents as [|ent ents IH]; cbn [export_entities]; cs_tac.
  apply export_entity_cs.
Qed.

Lemma export_times_cs (all_ts : list float) : csteps R (export_times all_ts).
Proof.
  induction all_ts as [|t rest IH]; cbn [export_times]; cs_tac.
  apply export_entities_cs.
Qed.

Lemma export_csv_cs : csteps R _export_csv.
Proof. unfold _export_csv. cs_tac. apply export_times_cs. Qed.

Lemma command_stats_cs : csteps R command_stats.
Proof. unfold command_stats. cs_tac. Qed.

Lemma command_scenario_cs (words : list string) : csteps R (command_scenario words).
Proof.
  unfold command_scenario. cs_tac. apply (wr_event R R_w).
Qed.

Lemma process_command_cs (command : string) : csteps R (_process_command command).
Proof.
  unfold _process_command, process_command_body. cs_tac;
    first [ apply (cw_step_mode R R_cw) | apply (cw_wait R R_cw)
          | apply (cw_step_event R R_cw) | apply (wr_stop R R_w)
          | apply send_control_all_fp; writes_tac
          | apply command_scenario_cs
          | apply control_device_fp; writes_tac
          | apply command_stats_cs
          | apply export_csv_cs ].
Qed.

Lemma ui_loop_from_cs (fuel : nat) (c : Console) :
  R (server c) (server (snd (ui_loop_from fuel c))).
Proof.
  pose proof R_pre as Hpre.
  revert c. induction fuel as [|fuel IH]; intros c; cbn [ui_loop_from].
  - reflexivity.
  - destruct (running (server c)); cbn [negb]; [|reflexivity].
    pose proof (csteps_on_server R _print_dashboard print_dashboard_fp c) as Hd.
    destruct (on_server _print_dashboard c) as [[v|e|] c1]; cbn [snd] in *;
      [|exact Hd|exact Hd].
    destruct (stdin c1) as [|[cmd| |e] rest]; cbn [snd].
    + exact Hd.
    + destruct (str_strip cmd) eqn:Hstrip.
      * etransitivity; [exact Hd | apply (IH (with_stdin rest c1))].
      * pose proof (process_command_cs (String a s) (with_stdin rest c1)) as Hc.
        destruct (_process_command (String a s) (with_stdin rest c1))
          as [[u|e|] c3]; cbn [snd server with_stdin] in *.
        -- etransitivity; [exact Hd|]. etransitivity; [exact Hc | apply IH].
        -- destruct e; cbn [snd].
           ++ etransitivity; [exact Hd|]. etransitivity; [exact Hc|].
              apply (IH (with_console_log _ c3)).
           ++ etransitivity; [exact Hd|]. etransitivity; [exact Hc|].
              apply (IH (with_console_log _ c3)).
           ++ etransitivity; [exact Hd | exact Hc].
        -- etransitivity; [exact Hd | exact Hc].
    + exact Hd.
    + etransitivity; [exact Hd|].
      apply (IH (with_console_log _ (with_stdin rest c1))).
Qed.

Lemma signal_handler_cs : csteps R _signal_handler.
Proof. unfold _signal_handler. cs_tac. apply stop_fp; writes_tac. Qed.

(** Every action makes only the writes of [console_writes]. *)
Lemma run_action_writes (a : action) (c : Console) :
  R (server c) (server (run_action a c)).
Proof.
  destruct a as [o|command| |]; cbn [run_action server with_server].
  - apply run_op_writes.
  - apply process_command_cs.
  - apply ui_loop_from_cs.
  - apply signal_handler_cs.
Qed.

Lemma run_actions_writes (l : list action) (c : Console) :
  R (server c) (server (run_actions l c)).
Proof.
  pose proof R_pre as Hpre.
  revert c. induction l as [|a l IH]; intros c.
  - reflexivity.
  - change (run_actions (a :: l) c) with (run_actions l (run_action a c)).
    etransitivity; [apply run_action_writes | apply IH].
Qed.

End ConsoleMethods.

(** ** Invariants of the server object *)

Ltac cw_split := split; [split; [split; [split|..]|..]|..].

Lemma events_grow_cw : console_writes events_grow.
Proof.
  cw_split; unfold events_grow, upd_ok.
  - intros s. reflexivity.
  - intros s1 s2 s3 H12 H23. etransitivity; eassumption.
  - intros e s. reflexivity.
  - intros r s. reflexivity.
  - intros s. reflexivity.
  - intros v s. reflexivity.
  - intros sock msg s. reflexivity.
  - intros sock s. reflexivity.
  - intros e s. apply prefix_app_r. reflexivity.
  - intros a sock now s. reflexivity.
  - intros a sock t gw now g s _. reflexivity.
  - intros a s. reflexivity.
  - intros v s. reflexivity.
  - intros s. reflexivity.
  - intros s. reflexivity.
  - intros s. reflexivity.
  - intros sock s. reflexivity.
  - intros key f _ s d _. reflexivity.
  - intros v s. reflexivity.
  - intros s. reflexivity.
  - intros s. reflexivity.
Qed.

Lemma stays_stopped_cw : console_writes stays_stopped.
Proof.
  cw_split; unfold stays_stopped, upd_ok; try (intros; assumption);
    try (intros; reflexivity).
  - intros s Hs. exact Hs.
  - intros s1 s2 s3 H12 H23 Hs. exact (H23 (H12 Hs)).
Qed.

Lemma never_waits_cw : console_writes never_waits.
Proof.
  cw_split; unfold never_waits, upd_ok; try (intros; assumption);
    try (intros; reflexivity).
  - intros s Hs. exact Hs.
  - intros s1 s2 s3 H12 H23 Hs. exact (H23 (H12 Hs)).
Qed.

(** A relation on the entity store alone accepts what the threads write, as
    soon as it accepts their writes to the entities. *)
Lemma keeps_cw (I : gmap string SensorData → Prop) :
  (∀ key f, store_write key f → upd_ok (keeps I) key f) →
  console_writes (keeps I).
Proof.
  intros Hst.
  cw_split; unfold keeps; try (intros; assumption); try exact Hst.
  - intros s Hs. exact Hs.
  - intros s1 s2 s3 H12 H23 Hs. exact (H23 (H12 Hs)).
Qed.



Lemma store_write_kind_ok (key : string) (f : SensorData → SensorData) :
  store_write key f → ∀ d, kind_ok key d → kind_ok key (f d).
Proof.
  intros Hw d [Hroom Hcar].
  destruct Hw as [key ts a b c Hk|key ts t st Hk|key v Hk|key b|key b].
  - split; [intros _; exact (Hroom Hk)|].
    intros Hc. rewrite (is_room_not_car key Hk) in Hc. discriminate.
  - split; [|intros _; exact (Hcar Hk)].
    intros Hr. rewrite (is_car_not_room key Hk) in Hr. discriminate.
  - split; [|intros _; exact (Hcar Hk)].
    intros Hr. rewrite (is_car_not_room key Hk) in Hr. discriminate.
  - split; assumption.
  - split; assumption.
Qed.

Lemma kinds_ok_cw : console_writes (keeps kinds_ok).
Proof.
  apply keeps_cw. intros key f Hw s d Hd Hall. unfold kinds_ok in *.
  cbn. apply map_Forall_insert_2; [|exact Hall].
  apply store_write_kind_ok; [exact Hw|]. exact (Hall key d Hd).
Qed.

Lemma kinds_ok_init `{PyBuiltins} : kinds_ok (sensor_data CloudServer_init).
Proof.
  rewrite sensor_data_init. unfold kinds_ok.
  repeat (apply map_Forall_insert_2; [split; intros Hk; try discriminate Hk;
                                      repeat split; reflexivity|]).
  apply map_Forall_empty.
Qed.

(** X20.  The event log only grows: whatever the handlers, the scenarios,
    the console commands, the console loop and the signal handler do, in
    any order, the events the log held before are still its first entries
    afterwards.  Nothing trims the log and nothing clears it. *)
Theorem event_log_append_only `{PyBuiltins} `{PyConsole} (l : list action)
    (c : Console) :
  events (server c) `prefix_of` events (server (run_actions l c)).
Proof. exact (run_actions_writes events_grow events_grow_cw l c). Qed.

(** X21.  Once [running] is false it stays false: no connection accepted,
    message handled, broadcast, scenario, device control, console command,
    console loop or signal sets it again, so a server that was stopped, by
    [stop] or by the [exit] command, is not started again by any of them. *)
Theorem stopped_server_stays_stopped `{PyBuiltins} `{PyConsole} (l : list action)
    (c : Console) :
  running (server c) = false →
  running (server (run_actions l c)) = false.
Proof. exact (run_actions_writes stays_stopped stays_stopped_cw l c). Qed.

Lemma stopped_server_stays_stopped_witness :
  running
    (server
       (@run_actions example_builtins example_console
          [ServerOp (OpAccept 4 example_addr); Command "run"; UiLoop;
           ServerOp (OpScenario "fire1" [])]
          (with_server (exec stop example_three) example_console_init)))
  = false.
Proof.
  apply (@stopped_server_stays_stopped example_builtins example_console).
  reflexivity.
Defined.

(** A handler whose server does not tell it to wait is not held at the
    step gate, whatever it reads. *)
Lemma client_loop_passes_gate `{PyBuiltins} (sock : nat) (a : addr)
    (reads : list recv_result) (buffer : string) (s : CloudServer) :
  wait_for_step s = false →
  ∀ b, fst (_client_loop_from sock a reads buffer s) ≠ WaitingForStep b.
Proof.
  pose proof (cw_writes never_waits never_waits_cw) as Hwr.
  revert buffer s. induction reads as [|r reads IH]; intros buffer s Hw b;
    cbn [_client_loop_from].
  - destruct (running s); cbn [negb]; [|discriminate].
    rewrite (step_gate_free s Hw). discriminate.
  - destruct (running s); cbn [negb]; [|discriminate].
    rewrite (step_gate_free s Hw).
    destruct r as [[|b0 data]| |e].
    + discriminate.
    + assert (Hp : never_waits s
                     (snd (process_lines
                             (String.length (buffer +:+ decode (b0 :: data))) sock a
                             (buffer +:+ decode (b0 :: data)) s))).
      { apply process_lines_fp;
          first [ exact (wr_acc _ Hwr) | exact (wr_event _ Hwr)
                | exact (wr_register _ Hwr) | exact (wr_refresh _ Hwr)
                | exact (wr_unregister _ Hwr) | exact (wr_last_seq _ Hwr)
                | exact (wr_packet _ Hwr) | exact (wr_stop _ Hwr)
                | exact (wr_gate _ Hwr) | exact (wr_store _ Hwr) ]. }
      cbv zeta.
      destruct (process_lines _ sock a _ s) as [[[u|e] buffer2] s2];
        cbn [snd] in Hp; apply IH; exact (Hp Hw).
    + apply IH, Hw.
    + apply IH, Hw.
Qed.

(** X22.  No handler is ever told to wait for a step: [wait_for_step] is
    false when the server is built and nothing sets it, the [step] command
    included, which assigns [step_mode] and clears [wait_for_step].  So
    after any run of the threads the flag is false, and a handler that goes
    on from there is never held at the step gate at the head of its loop,
    whatever it reads: step mode does not hold back any message. *)
Theorem handlers_never_wait `{PyBuiltins} `{PyConsole} (l : list action)
    (c : Console) :
  wait_for_step (server c) = false →
  wait_for_step (server (run_actions l c)) = false
  ∧ (∀ sock a reads b,
       fst (_client_loop sock a reads (server (run_actions l c)))
       ≠ WaitingForStep b).
Proof.
  intros Hw.
  pose proof (run_actions_writes never_waits never_waits_cw l c Hw) as Hw'.
  split; [exact Hw'|].
  intros sock a reads b. apply client_loop_passes_gate, Hw'.
Qed.

Lemma handlers_never_wait_witness :
  wait_for_step
    (server
       (@run_actions example_builtins example_console
          [Command "step"; ServerOp (OpAccept 1 example_addr);
           ServerOp (OpProcessMessage 1 example_addr msg_data_hot)]
          example_console_init))
  = false.
Proof.
  destruct (@handlers_never_wait example_builtins example_console
              [Command "step"; ServerOp (OpAccept 1 example_addr);
               ServerOp (OpProcessMessage 1 example_addr msg_data_hot)]
              example_console_init) as (Hw & _).
  - reflexivity.
  - exact Hw.
Defined.

(** X23.  Rooms and vehicles keep to their own fields: in every state the
    server reaches from its start, a room has no temperature sample and the
    status ['UNKNOWN'] it was built with, and a vehicle has no smoke, co2 or
    fire sample.  [add_room] is only ever called on the two rooms, and
    [add_car] and the status assignments only on the two vehicles; the room
    named by the [room] parameter of [co2_high] is one of the two rooms
    whatever the parameter is. *)
Theorem entities_keep_their_kind `{PyBuiltins} `{PyConsole} (l : list action)
    (c : Console) (key : string) (d : SensorData) :
  server c = CloudServer_init →
  sensor_data (server (run_actions l c)) !! key = Some d →
  (is_room key = true → items (car_temp d) = [] ∧ car_status d = PStr "UNKNOWN")
  ∧ (is_car key = true →
     items (smoke d) = [] ∧ items (co2 d) = [] ∧ items (fire d) = []).
Proof.
  intros Hc Hd.
  assert (Hall : kinds_ok (sensor_data (server (run_actions l c)))).
  { apply (run_actions_writes (keeps kinds_ok) kinds_ok_cw l c).
    rewrite Hc. apply kinds_ok_init. }
  exact (Hall key d Hd).
Qed.

Lemma entities_keep_their_kind_witness :
  ∃ d,
    sensor_data
      (server
         (@run_actions example_builtins example_console
            [ServerOp (OpAccept 1 example_addr);
             ServerOp (OpProcessMessage 1 example_addr msg_data_hot)]
            example_console_init))
      !! "1200400"%string = Some d
    ∧ items (car_temp d) = [].
Proof.
  destruct (sensor_data
              (server
                 (@run_actions example_builtins example_console
                    [ServerOp (OpAccept 1 example_addr);
                     ServerOp (OpProcessMessage 1 example_addr msg_data_hot)]
                    example_console_init))
              !! "1200400"%string) as [d|] eqn:Hd.
  - exists d. split; [reflexivity|].
    destruct (@entities_keep_their_kind example_builtins example_console
                [ServerOp (OpAccept 1 example_addr);
                 ServerOp (OpProcessMessage 1 example_addr msg_data_hot)]
                example_console_init "1200400"%string d eq_refl Hd)
      as (Hroom & _).
    destruct Hroom as [Htemp _]; [reflexivity | exact Htemp].
  - vm_compute in Hd. discriminate Hd.
Defined.

(** ** The console thread *)

Lemma crun_bind {A B : Type} (m : C A) (f : A → C B) (c c1 : Console) (a : A) :
  m c = (Done a, c1) → (m ≫= f) c = f a c1.
Proof. intros Hm. unfold mbind, C_bind. rewrite Hm. reflexivity. Qed.

(** *** [_export_csv] *)











(** *** [_process_command] *)

(** X25.  The [exit] command only clears [running]: it closes no socket
    and logs nothing.  A call of [stop] after it, as from the signal
    handler, finds [running] false and returns at once, so the sockets of
    the registered sessions are not closed and neither of the two lines of
    [stop] is logged. *)
Theorem exit_skips_shutdown `{PyBuiltins} `{PyConsole} (command w : string)
    (rest : list string) (c : Console) :
  str_split command = w :: rest → str_lower w = "exit"%string →
  let c' := cexec (_process_command command) c in
  server c' = with_running false (server c)
  ∧ console_log c' = console_log c
  ∧ stop (server c') = (Ok tt, server c')
  ∧ closed_socks (exec stop (server c')) = closed_socks (server c)
  ∧ log (exec stop (server c')) = log (server c).
Proof.
  intros Hsplit Hlower. cbv zeta.
  assert (Hrun : _process_command command c
                 = (Done tt, with_server (with_running false (server c)) c)).
  { unfold _process_command, process_command_body, ctry.
    rewrite Hsplit. cbv zeta. rewrite Hlower. reflexivity. }
  unfold cexec. rewrite Hrun. cbn [snd server with_server].
  assert (Hstop : stop (with_running false (server c))
                  = (Ok tt, with_running false (server c))) by reflexivity.
  unfold exec. rewrite Hstop. repeat split.
Qed.

Lemma exit_skips_shutdown_witness :
  closed_socks
    (exec stop
       (server (cexec (@_process_command example_builtins example_console "exit")
                  example_console_eof)))
  = closed_socks example_accepted.
Proof.
  destruct (@exit_skips_shutdown example_builtins example_console "exit" "exit" []
              example_console_eof) as (_ & _ & _ & Hclosed & _).
  - reflexivity.
  - reflexivity.
  - exact Hclosed.
Defined.

(** What a scenario command does once its words are split. *)
Lemma command_scenario_run `{PyBuiltins} `{PyConsole} (w : string)
    (rest : list string) (c : Console) :
  let name := str_lower w in
  let params := room_params rest in
  (scenarios name = None → command_scenario (w :: rest) c = (Done tt, c))
  ∧ (is_Some (scenarios name) →
     ∃ c', command_scenario (w :: rest) c = (Done tt, c')
           ∧ threads c' = threads c ++ [(name, params)]
           ∧ event_texts (server c')
             = event_texts (server c) ++ [scenario_announcement name params]
           ∧ sensor_data (server c') = sensor_data (server c)
           ∧ console_log c' = console_log c).
Proof.
  cbv zeta. unfold command_scenario. split.
  - intros Hnone. rewrite Hnone. reflexivity.
  - intros [sc Hsc]. rewrite Hsc.
    destruct (add_event_write (scenario_announcement (str_lower w) (room_params rest))
                (server c)) as (s1 & Hs1 & Hd1 & He1).
    assert (Hon : on_server (add_event (scenario_announcement (str_lower w)
                                          (room_params rest))) c
                  = (Done tt, with_server s1 c)).
    { unfold on_server. rewrite Hs1. reflexivity. }
    rewrite (crun_bind _ _ _ _ _ Hon).
    eexists. split; [reflexivity|]. cbn [threads server with_threads with_server
                                        console_log].
    repeat split; assumption.
Qed.

Lemma startswith_app (p rest : string) : startswith (p +:+ rest) p = true.
Proof.
  induction p as [|a p IH]; [reflexivity|].
  simpl. rewrite Ascii.eqb_refl. exact IH.
Qed.

Lemma room_params_none (words : list string) :
  Forall (λ p, startswith p "room=" = false) words → room_params words = [].
Proof.
  intros Hno. unfold room_params.
  induction Hno as [|p ps Hp _ IH]; [reflexivity|].
  cbn [foldl]. rewrite Hp. exact IH.
Qed.

(** X26.  The [scenario] command.  With a name that is not one of the
    seven scenarios it starts nothing and logs no event.  With a known name
    it appends one event, the announcement, and starts one thread with the
    name and the parameters; the entities are not touched by the command
    itself.  The parameters hold the text after [room=] of the last word
    that starts with [room=], and nothing when there is no such word. *)
Theorem scenario_command `{PyBuiltins} `{PyConsole} (command w0 w : string)
    (rest : list string) (c : Console) :
  str_split command = w0 :: w :: rest → str_lower w0 = "scenario"%string →
  let name := str_lower w in
  let params := room_params rest in
  let r := _process_command command c in
  (scenarios name = None → r = (Done tt, c))
  ∧ (is_Some (scenarios name) →
     fst r = Done tt
     ∧ threads (snd r) = threads c ++ [(name, params)]
     ∧ event_texts (server (snd r))
       = event_texts (server c) ++ [scenario_announcement name params]
     ∧ sensor_data (server (snd r)) = sensor_data (server c)
     ∧ console_log (snd r) = console_log c)
  ∧ (∀ words room, room_params (words ++ ["room=" +:+ room])
                   = [("room"%string, PStr room)])
  ∧ (Forall (λ p, startswith p "room=" = false) rest → params = []).
Proof.
  intros Hsplit Hlower. cbv zeta.
  assert (Hbody : _process_command command c
                  = ctry (command_scenario (w :: rest))
                      (λ e, console_info (LogCommandError e)) c).
  { unfold _process_command, process_command_body, ctry.
    rewrite Hsplit. cbv zeta. rewrite Hlower. reflexivity. }
  rewrite Hbody. unfold ctry.
  destruct (command_scenario_run w rest c) as [Hnone Hsome]. cbv zeta in Hnone, Hsome.
  split; [|split; [|split]].
  - intros Hn. rewrite (Hnone Hn). reflexivity.
  - intros Hs. destruct (Hsome Hs) as (c' & Hc' & Hrest). rewrite Hc'.
    cbn [fst snd]. split; [reflexivity | exact Hrest].
  - intros words room. unfold room_params. rewrite foldl_app. cbn [foldl].
    rewrite (startswith_app "room=" room). reflexivity.
  - apply room_params_none.
Qed.

Lemma scenario_command_witness :
  threads (snd (@_process_command example_builtins example_console
                  "scenario co2_high room=1211371" example_console_init))
  = [("co2_high"%string, [("room"%string, PStr "1211371")])].
Proof.
  destruct (@scenario_command example_builtins example_console
              "scenario co2_high room=1211371" "scenario" "co2_high"
              ["room=1211371"%string] example_console_init) as (_ & Hknown & _).
  - reflexivity.
  - reflexivity.
  - destruct Hknown as (_ & Hthreads & _); [eexists; reflexivity | exact Hthreads].
Defined.

(** *** [_ui_loop] *)

(** The dashboard reads the four entities and writes nothing. *)
Lemma print_dashboard_run `{PyBuiltins} (s : CloudServer) :
  dom (sensor_data s) = four_keys →
  ∃ v s1, _print_dashboard s = (Ok v, s1) ∧ quiet s s1.
Proof.
  intros Hdom.
  assert (Hget : ∀ key, key ∈ four_keys → ∃ d, sensor_data s !! key = Some d).
  { intros key Hk. rewrite <- Hdom in Hk. apply elem_of_dom in Hk. exact Hk. }
  destruct (Hget "1200400"%string) as [r1 Hr1]; [unfold four_keys; set_solver|].
  destruct (Hget "1211371"%string) as [r2 Hr2]; [unfold four_keys; set_solver|].
  destruct (Hget "car1"%string) as [c1 Hc1]; [unfold four_keys; set_solver|].
  destruct (Hget "car2"%string) as [c2 Hc2]; [unfold four_keys; set_solver|].
  unfold _print_dashboard.
  rewrite (run_bind (touch Registry) _ s (exec (touch Registry) s) tt eq_refl).
  set (s1 := exec (touch Registry) s).
  assert (Q1 : quiet s s1).
  { repeat split; [apply sensor_data_touch | apply events_touch
                  | unfold s1, exec, touch, modify; simpl;
                    destruct (lock_held s); reflexivity]. }
  rewrite (run_bind (gets _) _ s1 s1 _ eq_refl).
  rewrite (run_bind (gets _) _ s1 s1 _ eq_refl).
  rewrite (run_bind (gets _) _ s1 s1 _ eq_refl).
  assert (Hstep : ∀ key d s2, quiet s s2 → sensor_data s !! key = Some d →
            entity key s2 = (Ok d, exec (touch EntityStore) s2)
            ∧ quiet s (exec (touch EntityStore) s2)).
  { intros key d s2 (Q & Qe & Qr) Hd. split.
    - apply entity_run. rewrite Q. exact Hd.
    - repeat split.
      + rewrite sensor_data_touch. exact Q.
      + rewrite events_touch. exact Qe.
      + rewrite <- Qr. unfold exec, touch, modify; simpl.
        destruct (lock_held s2); reflexivity. }
  destruct (Hstep _ r1 s1 Q1 Hr1) as [E2 Q2]. rewrite (run_bind _ _ _ _ _ E2).
  destruct (Hstep _ r2 _ Q2 Hr2) as [E3 Q3]. rewrite (run_bind _ _ _ _ _ E3).
  destruct (Hstep _ c1 _ Q3 Hc1) as [E4 Q4]. rewrite (run_bind _ _ _ _ _ E4).
  destruct (Hstep _ c2 _ Q4 Hc2) as [E5 Q5]. rewrite (run_bind _ _ _ _ _ E5).
  match goal with |- ∃ v s', _ ?st = _ ∧ _ => set (s5 := st) in * end.
  rewrite (run_bind (touch EventLog) _ s5 (exec (touch EventLog) s5) tt eq_refl).
  eexists. eexists. split; [reflexivity|].
  destruct Q5 as (Q & Qe & Qr). repeat split.
  - rewrite sensor_data_touch. exact Q.
  - rewrite events_touch. exact Qe.
  - rewrite <- Qr. unfold exec, touch, modify; simpl.
    destruct (lock_held s5); reflexivity.
Qed.

(** X27.  The end of the input ends the console thread and nothing else.
    When [input()] meets the end of the input while the server runs,
    [_ui_loop] leaves its loop after one dashboard: the server is still
    running, no socket is closed and nothing is logged, so the server goes
    on without a console. *)
Theorem ui_loop_ends_on_eof `{PyBuiltins} `{PyConsole} (c : Console)
    (rest : list input_result) :
  running (server c) = true →
  dom (sensor_data (server c)) = four_keys →
  stdin c = InputEOF :: rest →
  let r := _ui_loop c in
  fst r = UiEnded
  ∧ running (server (snd r)) = true
  ∧ quiet (server c) (server (snd r))
  ∧ stdin (snd r) = rest
  ∧ console_log (snd r) = console_log c.
Proof.
  intros Hrun Hdom Hin. cbv zeta. unfold _ui_loop. rewrite Hin.
  cbn [length ui_loop_from]. rewrite Hrun. cbn [negb].
  destruct (print_dashboard_run (server c) Hdom) as (v & s1 & Hs1 & Hq).
  unfold on_server. rewrite Hs1. cbn [stdin with_server]. rewrite Hin.
  cbn [fst snd server with_stdin with_server stdin console_log].
  split; [reflexivity|]. split; [|split; [exact Hq|split; reflexivity]].
  destruct Hq as (_ & _ & Hr). rewrite Hr. exact Hrun.
Qed.

Lemma ui_loop_ends_on_eof_witness :
  running (server (snd (@_ui_loop example_builtins example_console
                          example_console_eof)))
  = true.
Proof.
  destruct (@ui_loop_ends_on_eof example_builtins example_console
              example_console_eof []) as (_ & Hrunning & _).
  - reflexivity.
  - vm_compute. reflexivity.
  - reflexivity.
  - exact Hrunning.
Defined.

(** The first event of a server is the announcement of its start. *)
Lemma events_init `{PyBuiltins} :
  events CloudServer_init = [(clock 0, "Starting cloud server ..."%string)].
Proof. reflexivity. Qed.

(** X28.  The [stats] command always finds the event it measures the
    uptime from.  In every state the server reaches from its start the
    first entry of the event log is the announcement made when the server
    was built, so [self.events[0]] does not raise [IndexError], and the
    command ends either normally or in the error of [int] on a time
    difference that is not a finite number. *)
Theorem stats_finds_first_event `{PyBuiltins} `{PyConsole} (l : list action)
    (c : Console) :
  server c = CloudServer_init →
  head (event_texts (server (run_actions l c))) = Some "Starting cloud server ..."%string
  ∧ fst (command_stats (run_actions l c)) ≠ Failed IndexError.
Proof.
  intros Hc.
  pose proof (run_actions_writes events_grow events_grow_cw l c) as Hgrow.
  unfold events_grow in Hgrow. rewrite Hc, events_init in Hgrow.
  destruct Hgrow as [k Hk]. set (c' := run_actions l c) in *.
  split; [unfold event_texts; rewrite Hk; reflexivity|].
  unfold command_stats, mbind, C_bind, on_server, time_time, touch, gets, modify,
    mbind, M_bind, mret, M_ret.
  cbn. destruct (lock_held (server c')); cbn; rewrite Hk; cbn;
    unfold int_of_float_check;
    destruct (PrimFloat.is_nan _); cbn; try discriminate;
    destruct (is_inf _); cbn; discriminate.
Qed.

Lemma stats_finds_first_event_witness :
  head (event_texts
          (server
             (@run_actions example_builtins example_console
                [ServerOp (OpAccept 1 example_addr);
                 ServerOp (OpProcessMessage 1 example_addr msg_data_hot)]
                example_console_init)))
  = Some "Starting cloud server ..."%string.
Proof.
  destruct (@stats_finds_first_event example_builtins example_console
              [ServerOp (OpAccept 1 example_addr);
               ServerOp (OpProcessMessage 1 example_addr msg_data_hot)]
              example_console_init) as (Hfirst & _).
  - reflexivity.
  - exact Hfirst.
Defined.

(** * The handler, the lock and the entities between operations *)

(** ** What processing a message writes

    As in the section on the writes of each method, for a preorder [R] that
    need not accept a write to a socket: no message closes a socket or
    sends on one. *)

Section MessagePath.
Context `{PyBuiltins}.
Variable R : relation CloudServer.
Hypothesis R_pre : PreOrder R.
Hypothesis R_log : ∀ e s, R s (with_log (log s ++ [e]) s).
Hypothesis R_unlocked : ∀ r s, R s (with_unlocked (unlocked s ++ [r]) s).
Hypothesis R_ticks : ∀ s, R s (with_ticks (S (ticks s)) s).
Hypothesis R_lock : ∀ v s, R s (with_lock_held v s).
Hypothesis R_event : ∀ e s, R s (with_events (events s ++ [e]) s).








End MessagePath.



Section MessagePathMethods.
Context `{PyBuiltins}.
Variable R : relation CloudServer.
Hypothesis R_pre : PreOrder R.
Hypothesis R_log : ∀ e s, R s (with_log (log s ++ [e]) s).
Hypothesis R_unlocked : ∀ r s, R s (with_unlocked (unlocked s ++ [r]) s).
Hypothesis R_ticks : ∀ s, R s (with_ticks (S (ticks s)) s).
Hypothesis R_lock : ∀ v s, R s (with_lock_held v s).
Hypothesis R_event : ∀ e s, R s (with_events (events s ++ [e]) s).
Hypothesis R_refresh : ∀ a sock t gw now g s,
  clients s !! a = Some (sock, t, gw) →
  R s (with_clients (<[a := (sock, now, g)]> (clients s)) s).
Hypothesis R_last_seq : ∀ v s, R s (with_last_seq v s).
Hypothesis R_packet : ∀ s, R s (with_packet_count (packet_count s + 1)%Z s).
Hypothesis R_store : ∀ key f, store_write key f → upd_ok R key f.










End MessagePathMethods.

(** ** The connection handler *)









(** ** The lock and the entity store *)







(** ** The lengths of the sequences of an entity *)







(** ** Reassembling the stream *)

(** C4.  The read loop does not reassemble every stream.  Each read is
    decoded on its own and what does not decode is dropped, so a read that
    stops between the two bytes of a character loses the character: the
    same stream records the gateway identity [é] when it arrives whole and
    the empty string when it arrives in those two reads.  And a line that
    is JSON but not an object raises in the handler, which leaves the loop
    over the buffer: a heartbeat that arrived in the same read stays
    unprocessed in the buffer, while it is processed when it arrives in a
    read of its own, and also when the line before it in the same read is
    not JSON at all, which is logged and passed over. *)
Theorem reads_change_what_is_processed :
  accent_read1 ++ accent_read2 = accent_stream
  ∧ gateway_of example_addr
      (snd (@_client_loop example_builtins 1 example_addr
              [RecvData accent_stream] example_accepted))
    = Some (PStr "é")
  ∧ gateway_of example_addr
      (snd (@_client_loop example_builtins 1 example_addr
              [RecvData accent_read1; RecvData accent_read2] example_accepted))
    = Some (PStr "")
  ∧ list_read1 ++ list_read2 = list_then_heartbeat
  ∧ (let r := @_client_loop example_builtins 1 example_addr
                [RecvData list_then_heartbeat] example_accepted in
     fst r = Reading (msg_heartbeat1 +:+ String newline "")
     ∧ gateway_of example_addr (snd r) = Some (PStr "UNKNOWN"))
  ∧ (let r := @_client_loop example_builtins 1 example_addr
                [RecvData list_read1; RecvData list_read2] example_accepted in
     fst r = Reading ""
     ∧ gateway_of example_addr (snd r) = Some (PStr "GW-1"))
  ∧ (let r := @_client_loop example_builtins 1 example_addr
                [RecvData junk_then_heartbeat] example_accepted in
     fst r = Reading ""
     ∧ gateway_of example_addr (snd r) = Some (PStr "GW-1")).
Proof. vm_compute. repeat split. Qed.

(** ** What the plots read *)




(** ** The export *)


